(** * Nursing training centre: certificate issuance, completion tracking and
      access gating.

    A shallow embedding of [courses/models.py], [courses/forms.py],
    [courses/views.py] and [courses/urls.py].  Tables are lists of rows in
    insertion order, a queryset filter is [List.filter], a request handler is
    a function from the request and the database to an [Outcome]: the
    response, the flash messages, the session and the database afterwards.
    Every write is committed when it is made.

    The [Store] holds the tables of accounts, batches, student profiles,
    courses, modules, module completions, resources and certificates, and
    the file storage.  Left out are
    - the tables that are only read for display (announcements, bulletins,
      branches, gallery) and the orderings by time stamps;
    - the site configuration, whose single row [get_solo] creates when it is
      absent; it is modelled on its own in [SiteConfiguration];
    - what the authentication framework itself writes: the [last_login]
      column of [auth_user], which [login()] stamps, and the session table,
      in which [login()] writes a row and which [logout()] flushes.  Of the
      session only the signed-in account is kept, as the [session] field of
      the [Outcome].
    A statement below that a handler leaves the store unchanged speaks of
    the tables and files of the [Store], and none is made of a login that
    succeeds or of a logout. *)

From Stdlib Require Import String Ascii List Bool Arith PeanoNat Lia DecimalString DecimalNat.
From Stdlib Require Import Permutation.
Import ListNotations.
Local Open Scope string_scope.
Local Open Scope list_scope.
Local Open Scope nat_scope.

(** ** Strings as Python uses them here *)

(** [str.strip()] removes the white space from both ends; these are the
    white-space characters of the ASCII range. *)
Definition is_space (c : ascii) : bool :=
  let n := nat_of_ascii c in
  (n =? 32) || ((9 <=? n) && (n <=? 13)) || ((28 <=? n) && (n <=? 31)).

Fixpoint lstrip (s : string) : string :=
  match s with
  | String c rest => if is_space c then lstrip rest else s
  | EmptyString => EmptyString
  end.

Fixpoint rev_string (acc s : string) : string :=
  match s with
  | String c rest => rev_string (String c acc) rest
  | EmptyString => acc
  end.

Definition rstrip (s : string) : string :=
  rev_string "" (lstrip (rev_string "" s)).

Definition strip (s : string) : string := rstrip (lstrip s).

(** [str.lower()] and [str.upper()] on the ASCII letters. *)
Definition lower_char (c : ascii) : ascii :=
  let n := nat_of_ascii c in
  if (65 <=? n) && (n <=? 90) then ascii_of_nat (n + 32) else c.

Definition upper_char (c : ascii) : ascii :=
  let n := nat_of_ascii c in
  if (97 <=? n) && (n <=? 122) then ascii_of_nat (n - 32) else c.

Fixpoint map_string (f : ascii -> ascii) (s : string) : string :=
  match s with
  | String c rest => String (f c) (map_string f rest)
  | EmptyString => EmptyString
  end.

Definition lower : string -> string := map_string lower_char.
Definition upper : string -> string := map_string upper_char.

(** Truthiness of a Python string: [not s] holds for the empty string only. *)
Definition truthy (s : string) : bool := negb (String.eqb s "").

(** [f"{n}"] for a non-negative integer. *)
Definition str_of_nat (n : nat) : string := NilZero.string_of_uint (Nat.to_uint n).

(** [name.split('/')[-1]]: the part after the last slash. *)
Fixpoint last_segment (acc s : string) : string :=
  match s with
  | String c rest =>
      if Ascii.eqb c "/"%char then last_segment "" rest
      else last_segment (acc ++ String c "")%string rest
  | EmptyString => acc
  end.

(** ** Dates *)

Record date := { year : nat; month : nat; day : nat }.

Definition month_name (m : nat) : string :=
  nth (m - 1)
    ["January"; "February"; "March"; "April"; "May"; "June"; "July";
     "August"; "September"; "October"; "November"; "December"] "".

Definition two_digits (n : nat) : string :=
  if n <? 10 then ("0" ++ str_of_nat n)%string else str_of_nat n.

(** [d.strftime('%B %d, %Y')] *)
Definition strftime_B_d_Y (d : date) : string :=
  (month_name (month d) ++ " " ++ two_digits (day d) ++ ", " ++ str_of_nat (year d))%string.

(** ** The schema of [courses/models.py] *)

(** Primary keys are assigned in increasing order. *)
Definition next_id (ids : list nat) : nat := S (fold_right Nat.max 0 ids).

(** Exceptions a handler lets escape; the framework answers them with a
    server error. *)
Inductive Exn := IntegrityError | MultipleObjectsReturned | DoesNotExist.

Module User.
Record t := {
  id : nat;
  username : string;
  password : string;
  first_name : string;
  last_name : string;
  email : string;
  is_active : bool;
  is_staff : bool
}.

Definition get (rows : list t) (pk : nat) : option t :=
  find (fun u => id u =? pk) rows.

(** [get_full_name]: first and last name with a space in between, stripped. *)
Definition get_full_name (u : t) : string :=
  strip (first_name u ++ " " ++ last_name u)%string.

(** [user.save()] of a new account: [username] is unique. *)
Definition create (u : t) (rows : list t) : Exn + list t :=
  if existsb (fun r => String.eqb (username r) (username u)) rows
  then inl IntegrityError
  else inr (rows ++ [u]).
End User.

Module Batch.
Record t := { id : nat; name : string; is_active : bool }.
End Batch.

Module StudentProfile.
Record t := {
  id : nat;
  user : nat;
  student_id : string;
  phone : string;
  batch : option nat;
  date_of_birth : option date;
  address : string;
  profile_picture : option string;
  enrollment_date : date;
  is_active : bool;
  is_verified : bool;
  verified_at : option date;
  enrolled_courses : list nat
}.

Definition get (rows : list t) (pk : nat) : option t :=
  find (fun p => id p =? pk) rows.

(** [user.student_profile]: the reverse side of the one-to-one field. *)
Definition of_user (rows : list t) (uid : nat) : option t :=
  find (fun p => user p =? uid) rows.

(** [StudentProfile.objects.create(...)]: [student_id] is unique and an
    account has one profile. *)
Definition create (p : t) (rows : list t) : Exn + list t :=
  if existsb (fun r => String.eqb (student_id r) (student_id p) || (user r =? user p)) rows
  then inl IntegrityError
  else inr (rows ++ [p]).

(** [student.enrolled_courses.filter(id=course_id).exists()] *)
Definition enrolled (p : t) (course_id : nat) : bool :=
  existsb (fun c => c =? course_id) (enrolled_courses p).
End StudentProfile.

Module Course.
Record t := { id : nat; title : string; description : string; is_active : bool }.

Definition get (rows : list t) (pk : nat) : option t :=
  find (fun c => id c =? pk) rows.
End Course.

Module Module_.
Record t := {
  id : nat;
  course : nat;
  title : string;
  order : nat;
  content : string;
  is_published : bool;
  admin_completed : bool
}.

Definition get (rows : list t) (pk : nat) : option t :=
  find (fun m => id m =? pk) rows.
End Module_.

Module ModuleCompletion.
Record t := {
  id : nat;
  student : nat;
  module : nat;
  completed : bool;
  completed_at : option date
}.

Definition links (s m : nat) (r : t) : bool := (student r =? s) && (module r =? m).

(** [unique_together = ['student', 'module']] *)
Definition unique (rows : list t) : Prop :=
  forall s m, length (filter (links s m) rows) <= 1.

(** [ModuleCompletion.objects.create(student=s, module=m)]: the other fields
    take their defaults. *)
Definition create (s m : nat) (rows : list t) : Exn + (t * list t) :=
  let r := {| id := next_id (map id rows); student := s; module := m;
              completed := false; completed_at := None |} in
  if existsb (links s m) rows then inl IntegrityError else inr (r, rows ++ [r]).

(** [ModuleCompletion.objects.get_or_create(student=s, module=m)] *)
Definition get_or_create (s m : nat) (rows : list t) : Exn + (t * bool * list t) :=
  match filter (links s m) rows with
  | [r] => inr (r, false, rows)
  | [] =>
      match create s m rows with
      | inr (r, rows') => inr (r, true, rows')
      | inl e => inl e
      end
  | _ :: _ :: _ => inl MultipleObjectsReturned
  end.

(** [mark_complete]: sets the flag and the time and saves the row. *)
Definition mark_complete (now : date) (r : t) (rows : list t) : list t :=
  let r' := {| id := id r; student := student r; module := module r;
               completed := true; completed_at := Some now |} in
  map (fun x => if id x =? id r then r' else x) rows.
End ModuleCompletion.

Module Resource.
Record t := {
  id : nat;
  course : nat;
  module : option nat;
  title : string;
  file : string;
  is_active : bool
}.
End Resource.

Module Certificate.
Record t := {
  id : nat;
  student : nat;
  course : nat;
  issue_date : date;
  certificate_number : string;
  pdf_file : option string
}.

Definition for_pair (s c : nat) (r : t) : bool := (student r =? s) && (course r =? c).

(** [unique_together = ['student', 'course']] *)
Definition unique (rows : list t) : Prop :=
  forall s c, length (filter (for_pair s c) rows) <= 1.

(** What the storage layer refuses: another row with the same
    [certificate_number] ([unique=True]) or the same (student, course). *)
Definition clashes (c r : t) : bool :=
  negb (id r =? id c) &&
  (String.eqb (certificate_number r) (certificate_number c) || for_pair (student c) (course c) r).

(** [Certificate.objects.create(student=s, course=c)]: [issue_date] is
    [auto_now_add], the number starts empty, no file. *)
Definition create (today : date) (s c : nat) (rows : list t) : Exn + (t * list t) :=
  let r := {| id := next_id (map id rows); student := s; course := c;
              issue_date := today; certificate_number := ""; pdf_file := None |} in
  if existsb (clashes r) rows then inl IntegrityError else inr (r, rows ++ [r]).

(** [Certificate.objects.get_or_create(student=s, course=c)] *)
Definition get_or_create (today : date) (s c : nat) (rows : list t) : Exn + (t * bool * list t) :=
  match filter (for_pair s c) rows with
  | [r] => inr (r, false, rows)
  | [] =>
      match create today s c rows with
      | inr (r, rows') => inr (r, true, rows')
      | inl e => inl e
      end
  | _ :: _ :: _ => inl MultipleObjectsReturned
  end.

(** [certificate.save()] of a row that is in the table: every column is
    written back under the row's primary key. *)
Definition save (c : t) (rows : list t) : Exn + list t :=
  if existsb (clashes c) rows then inl IntegrityError
  else inr (map (fun r => if id r =? id c then c else r) rows).

Definition with_number (c : t) (n : string) : t :=
  {| id := id c; student := student c; course := course c; issue_date := issue_date c;
     certificate_number := n; pdf_file := pdf_file c |}.

Definition with_pdf_file (c : t) (f : option string) : t :=
  {| id := id c; student := student c; course := course c; issue_date := issue_date c;
     certificate_number := certificate_number c; pdf_file := f |}.

(** [generate_certificate_number]: [f"NCC-{year}-{self.student.student_id}"],
    [year] being the year of the clock when it is called. *)
Definition generate_certificate_number (now : date) (students : list StudentProfile.t) (c : t)
  : Exn + string :=
  match StudentProfile.get students (student c) with
  | Some s => inr ("NCC-" ++ str_of_nat (year now) ++ "-" ++ StudentProfile.student_id s)%string
  | None => inl DoesNotExist
  end.
End Certificate.

(** ** The database and the file storage *)

Inductive FileData :=
| PdfData (lines : list string)
| Bytes (data : string).

Record Store := {
  users : list User.t;
  batches : list Batch.t;
  students : list StudentProfile.t;
  courses : list Course.t;
  modules : list Module_.t;
  completions : list ModuleCompletion.t;
  resources : list Resource.t;
  certificates : list Certificate.t;
  media : list (string * FileData)
}.

Definition set_users (db : Store) (x : list User.t) : Store :=
  {| users := x; batches := batches db; students := students db; courses := courses db;
     modules := modules db; completions := completions db; resources := resources db;
     certificates := certificates db; media := media db |}.

Definition set_students (db : Store) (x : list StudentProfile.t) : Store :=
  {| users := users db; batches := batches db; students := x; courses := courses db;
     modules := modules db; completions := completions db; resources := resources db;
     certificates := certificates db; media := media db |}.

Definition set_completions (db : Store) (x : list ModuleCompletion.t) : Store :=
  {| users := users db; batches := batches db; students := students db; courses := courses db;
     modules := modules db; completions := x; resources := resources db;
     certificates := certificates db; media := media db |}.

Definition set_certificates (db : Store) (x : list Certificate.t) : Store :=
  {| users := users db; batches := batches db; students := students db; courses := courses db;
     modules := modules db; completions := completions db; resources := resources db;
     certificates := x; media := media db |}.

(** [FieldFile.save(name, content)]: the file goes under the field's
    [upload_to] directory.  The newest file of a name comes first; how the
    storage backend renames a file whose name is taken is left out. *)
Definition storage_save (db : Store) (path : string) (data : FileData) : Store :=
  {| users := users db; batches := batches db; students := students db; courses := courses db;
     modules := modules db; completions := completions db; resources := resources db;
     certificates := certificates db; media := (path, data) :: media db |}.

(** [FieldFile.open]: fails when the storage has no such file. *)
Definition storage_open (db : Store) (path : string) : option FileData :=
  option_map snd (find (fun f => String.eqb (fst f) path) (media db)).

(** ** Requests, responses and what a handler leaves behind *)

Inductive Method := GET | POST_.

(** [POST] maps field names to submitted values, [FILES] to the name and
    the content of an uploaded file. *)
Record Request := {
  user : option User.t;
  method : Method;
  POST : list (string * string);
  FILES : list (string * (string * string))
}.

(** [request.POST.get(key)] with the empty string for a missing key. *)
Definition field (data : list (string * string)) (key : string) : string :=
  match find (fun kv => String.eqb (fst kv) key) data with
  | Some kv => snd kv
  | None => ""
  end.

(** [request.FILES.get(key)] *)
Definition upload (files : list (string * (string * string))) (key : string)
  : option (string * string) :=
  option_map snd (find (fun kv => String.eqb (fst kv) key) files).

Inductive Level := INFO | SUCCESS | WARNING | ERROR.

Inductive ValidationError :=
| Required
| MaxLength (n : nat)
| Invalid
| Message (text : string).

Inductive Context :=
| ctx_none
| ctx_home (active_courses : list Course.t)
| ctx_login
| ctx_register (errors : list (string * ValidationError))
| ctx_dashboard (student : StudentProfile.t) (course_list : list Course.t) (completed_modules : nat)
| ctx_course_detail (course : Course.t) (module_list : list Module_.t)
    (completed_module_ids : list nat) (resource_list : list Resource.t)
    (is_enrolled : bool) (certificate : option Certificate.t)
| ctx_module_detail (module : Module_.t) (completion : ModuleCompletion.t)
    (resource_list : list Resource.t)
| ctx_student_profile (student : StudentProfile.t) (total_modules completed_modules : nat)
    (certificate_list : list Certificate.t)
| ctx_course_list (course_list : list Course.t) (student : option StudentProfile.t).

Inductive Response :=
| Render (template : string) (context : Context)
| Redirect (to : string) (arg : option nat)
| RedirectToLogin
| Http404 (reason : string)
| FileResponse (filename : string) (data : FileData)
| PdfResponse (filename : string) (lines : list string)
| ServerError (e : Exn).

Definition status_code (r : Response) : nat :=
  match r with
  | Render _ _ | FileResponse _ _ | PdfResponse _ _ => 200
  | Redirect _ _ | RedirectToLogin => 302
  | Http404 _ => 404
  | ServerError _ => 500
  end.

Record Outcome := {
  response : Response;
  flash : list (Level * string);
  session : option nat;
  store : Store
}.

(** A handler that neither logs in nor out leaves the session as it came. *)
Definition reply (req : Request) (db : Store) (r : Response) (msgs : list (Level * string))
  : Outcome :=
  {| response := r; flash := msgs; session := option_map User.id (user req); store := db |}.

(** [@login_required] *)
Definition login_required (view : User.t -> Request -> Store -> Outcome)
  (req : Request) (db : Store) : Outcome :=
  match user req with
  | Some u => view u req db
  | None => reply req db RedirectToLogin []
  end.

(** ** [courses/forms.py]: the registration form *)

(** What the form inherits from the framework and the source does not spell
    out: the parent form's checks of [username], [password1] and [password2],
    and the format validators of the e-mail, date and image fields. *)
Record Validators := {
  usercreation_errors : list User.t -> list (string * string) -> list (string * ValidationError);
  validate_email : string -> bool;
  to_date : string -> option date;
  validate_image : string -> bool
}.

(** A [forms.CharField]: the value is stripped, then checked. *)
Definition char_field (name : string) (required : bool) (max_length : option nat) (raw : string)
  : list (string * ValidationError) :=
  let v := strip raw in
  if String.eqb v "" then (if required then [(name, Required)] else [])
  else match max_length with
       | Some n => if n <? String.length v then [(name, MaxLength n)] else []
       | None => []
       end.

Definition clean_student_id (profiles : list StudentProfile.t) (student_id : string)
  : ValidationError + string :=
  if existsb (fun p => String.eqb (StudentProfile.student_id p) student_id) profiles
  then inl (Message "This Registration No is already registered.")
  else inr student_id.

(** [email__iexact]: equal up to the case of the letters. *)
Definition iexact (a b : string) : bool := String.eqb (lower a) (lower b).

Definition clean_email (accounts : list User.t) (email : string) : ValidationError + string :=
  if negb (truthy email) then inr ""
  else
    let email := strip (lower email) in
    if existsb (fun u => iexact (User.email u) email) accounts
    then inl (Message "This email is already registered.")
    else inr email.

(** The [ModelChoiceField] over [Batch.objects.filter(is_active=True)]. *)
Definition clean_batch (rows : list Batch.t) (raw : string) : ValidationError + nat :=
  if String.eqb raw "" then inl Required
  else match NilEmpty.uint_of_string raw with
       | Some n =>
           let pk := Nat.of_uint n in
           if existsb (fun b => (Batch.id b =? pk) && Batch.is_active b) rows
           then inr pk else inl Invalid
       | None => inl Invalid
       end.

Definition as_errors {A : Type} (name : string) (r : ValidationError + A)
  : list (string * ValidationError) :=
  match r with
  | inl e => [(name, e)]
  | inr _ => []
  end.

Section RegistrationForm.
Variable fw : Validators.

(** A field's own [clean_<name>] runs only when the field itself is clean. *)
Definition student_id_errors (db : Store) (data : list (string * string)) :=
  match char_field "student_id" true (Some 20) (field data "student_id") with
  | [] => as_errors "student_id" (clean_student_id (students db) (strip (field data "student_id")))
  | errs => errs
  end.

Definition email_errors (db : Store) (data : list (string * string)) :=
  let v := strip (field data "email") in
  if truthy v && negb (validate_email fw v) then [("email", Invalid)]
  else as_errors "email" (clean_email (users db) v).

Definition date_of_birth_errors (data : list (string * string)) :=
  let v := strip (field data "date_of_birth") in
  if truthy v then
    match to_date fw v with
    | Some _ => []
    | None => [("date_of_birth", Invalid)]
    end
  else [].

Definition profile_picture_errors (files : list (string * (string * string))) :=
  match upload files "profile_picture" with
  | Some (name, content) =>
      if validate_image fw content then [] else [("profile_picture", Invalid)]
  | None => []
  end.

(** [form.errors] after [full_clean]. *)
Definition form_errors (db : Store) (req : Request) : list (string * ValidationError) :=
  usercreation_errors fw (users db) (POST req)
  ++ char_field "first_name" true (Some 30) (field (POST req) "first_name")
  ++ char_field "last_name" true (Some 30) (field (POST req) "last_name")
  ++ email_errors db (POST req)
  ++ student_id_errors db (POST req)
  ++ char_field "phone" true (Some 15) (field (POST req) "phone")
  ++ as_errors "batch" (clean_batch (batches db) (field (POST req) "batch"))
  ++ date_of_birth_errors (POST req)
  ++ profile_picture_errors (FILES req).

Definition is_valid (db : Store) (req : Request) : bool :=
  match form_errors db req with
  | [] => true
  | _ :: _ => false
  end.

(** [form.save()]: the account row, then the profile row, whose picture goes
    to the storage before the row is inserted; each write is committed as it
    is made. *)
Definition form_save (today : date) (db : Store) (req : Request) : option Exn * Store :=
  let data := POST req in
  let email :=
    match clean_email (users db) (strip (field data "email")) with
    | inr e => e
    | inl _ => ""
    end in
  let account :=
    {| User.id := next_id (map User.id (users db));
       User.username := strip (field data "username");
       User.password := field data "password1";
       User.first_name := strip (field data "first_name");
       User.last_name := strip (field data "last_name");
       User.email := email;
       User.is_active := true;
       User.is_staff := false |} in
  match User.create account (users db) with
  | inl e => (Some e, db)
  | inr accounts =>
      let profile :=
        {| StudentProfile.id := next_id (map StudentProfile.id (students db));
           StudentProfile.user := User.id account;
           StudentProfile.student_id := strip (field data "student_id");
           StudentProfile.phone := strip (field data "phone");
           StudentProfile.batch :=
             match clean_batch (batches db) (field data "batch") with
             | inr pk => Some pk
             | inl _ => None
             end;
           StudentProfile.date_of_birth :=
             (if truthy (strip (field data "date_of_birth"))
              then to_date fw (strip (field data "date_of_birth")) else None);
           StudentProfile.address := strip (field data "address");
           StudentProfile.profile_picture :=
             option_map (fun f => ("profiles/" ++ fst f)%string)
               (upload (FILES req) "profile_picture");
           StudentProfile.enrollment_date := today;
           StudentProfile.is_active := true;
           StudentProfile.is_verified := false;
           StudentProfile.verified_at := None;
           StudentProfile.enrolled_courses := [] |} in
      let db1 :=
        match upload (FILES req) "profile_picture" with
        | Some (name, content) =>
            storage_save (set_users db accounts) ("profiles/" ++ name)%string (Bytes content)
        | None => set_users db accounts
        end in
      match StudentProfile.create profile (students db) with
      | inl e => (Some e, db1)
      | inr profiles => (None, set_students db1 profiles)
      end
  end.

(** [student_register] *)
Definition student_register (today : date) (req : Request) (db : Store) : Outcome :=
  match user req with
  | Some _ => reply req db (Redirect "dashboard" None) []
  | None =>
      match method req with
      | POST_ =>
          if is_valid db req then
            match form_save today db req with
            | (None, db') =>
                reply req db' (Redirect "login" None)
                  [(SUCCESS, "Registration successful! Your account is pending verification by the administrator. You will be able to login once your account is approved.")]
            | (Some e, db') => reply req db' (ServerError e) []
            end
          else reply req db (Render "register.html" (ctx_register (form_errors db req))) []
      | GET => reply req db (Render "register.html" (ctx_register [])) []
      end
  end.

End RegistrationForm.

(** ** [courses/views.py] *)

(** [django.contrib.auth.authenticate] with the model backend: the account
    of that name, its password, and [is_active].  Passwords are compared as
    stored. *)
Definition authenticate (accounts : list User.t) (username password : string) : option User.t :=
  match find (fun u => String.eqb (User.username u) username) accounts with
  | Some u => if String.eqb (User.password u) password && User.is_active u then Some u else None
  | None => None
  end.

(** [AuthenticationForm.is_valid()]: both fields given and the credentials
    accepted by [authenticate]. *)
Definition authentication_form_valid (accounts : list User.t) (data : list (string * string)) : bool :=
  truthy (strip (field data "username")) && truthy (field data "password") &&
  match authenticate accounts (strip (field data "username")) (field data "password") with
  | Some _ => true
  | None => false
  end.

Definition home (req : Request) (db : Store) : Outcome :=
  reply req db (Render "home.html" (ctx_home (firstn 6 (filter Course.is_active (courses db))))) [].

Definition gallery (req : Request) (db : Store) : Outcome :=
  reply req db (Render "gallery.html" ctx_none) [].

Definition contact (req : Request) (db : Store) : Outcome :=
  reply req db (Render "contact.html" ctx_none) [].

Definition branches (req : Request) (db : Store) : Outcome :=
  reply req db (Render "branches.html" ctx_none) [].

(** [login(request, user)] opens the session for the account: the outcome's
    [session].  It also stamps the account's [last_login] and writes the
    session row; both lie outside the [Store], so the [store] of the success
    branch is the application's tables, which the handler does not touch. *)
Definition student_login (req : Request) (db : Store) : Outcome :=
  match user req with
  | Some _ => reply req db (Redirect "dashboard" None) []
  | None =>
      match method req with
      | POST_ =>
          if authentication_form_valid (users db) (POST req) then
            let username := strip (field (POST req) "username") in
            let password := field (POST req) "password" in
            match authenticate (users db) username password with
            | Some account =>
                match StudentProfile.of_user (students db) (User.id account) with
                | Some profile =>
                    if negb (StudentProfile.is_verified profile) then
                      reply req db (Redirect "login" None)
                        [(WARNING, "Your account is pending verification by the administrator. Please wait for approval.")]
                    else
                      {| response := Redirect "dashboard" None;
                         flash := [(SUCCESS, ("Welcome back, " ++ User.get_full_name account ++ "!")%string)];
                         session := Some (User.id account);
                         store := db |}
                | None =>
                    reply req db (Render "login.html" ctx_login)
                      [(ERROR, "This account is not a student account.")]
                end
            | None =>
                reply req db (Render "login.html" ctx_login) [(ERROR, "Invalid username or password.")]
            end
          else reply req db (Render "login.html" ctx_login) [(ERROR, "Invalid username or password.")]
      | GET => reply req db (Render "login.html" ctx_login) []
      end
  end.

(** [logout(request)] flushes the session: the outcome's [session] is
    empty.  The session row it deletes lies outside the [Store]. *)
Definition student_logout (req : Request) (db : Store) : Outcome :=
  {| response := Redirect "home" None;
     flash := [(INFO, "You have been logged out successfully.")];
     session := None;
     store := db |}.

(** The profile of the signed-in account, or the redirect the handlers
    answer when it has none. *)
Definition with_student (view : StudentProfile.t -> Request -> Store -> Outcome)
  (u : User.t) (req : Request) (db : Store) : Outcome :=
  match StudentProfile.of_user (students db) (User.id u) with
  | Some student => view student req db
  | None => reply req db (Redirect "home" None) [(ERROR, "Student profile not found.")]
  end.

(** [student.enrolled_courses.filter(is_active=True)] *)
Definition active_enrolled_courses (db : Store) (student : StudentProfile.t) : list Course.t :=
  filter (fun c => StudentProfile.enrolled student (Course.id c) && Course.is_active c) (courses db).

(** [course__in=enrolled_courses] *)
Definition course_in (cs : list Course.t) (course_id : nat) : bool :=
  existsb (fun c => Course.id c =? course_id) cs.

(** The course of the module a completion row points to ([module__course]). *)
Definition module_course (db : Store) (r : ModuleCompletion.t) : option nat :=
  option_map Module_.course (Module_.get (modules db) (ModuleCompletion.module r)).

Definition dashboard : Request -> Store -> Outcome :=
  login_required (with_student (fun student req db =>
    let enrolled_courses := active_enrolled_courses db student in
    let completed_modules :=
      length (filter (fun m => course_in enrolled_courses (Module_.course m)
                               && Module_.admin_completed m) (modules db)) in
    reply req db
      (Render "dashboard.html" (ctx_dashboard student enrolled_courses completed_modules)) [])).

(** [order_by('order')] *)
Fixpoint insert_by_order (m : Module_.t) (l : list Module_.t) : list Module_.t :=
  match l with
  | [] => [m]
  | x :: rest =>
      if Module_.order m <? Module_.order x then m :: l else x :: insert_by_order m rest
  end.

Definition order_by_order (l : list Module_.t) : list Module_.t :=
  fold_right insert_by_order [] l.

Definition course_detail (course_id : nat) (req : Request) (db : Store) : Outcome :=
  match find (fun c => (Course.id c =? course_id) && Course.is_active c) (courses db) with
  | None => reply req db (Http404 "No Course matches the given query.") []
  | Some course =>
      let student :=
        match user req with
        | Some u => StudentProfile.of_user (students db) (User.id u)
        | None => None
        end in
      let module_list :=
        order_by_order
          (filter (fun m => (Module_.course m =? Course.id course) && Module_.is_published m)
             (modules db)) in
      let completed_module_ids :=
        match student with
        | Some _ => map Module_.id (filter Module_.admin_completed module_list)
        | None => []
        end in
      let resource_list :=
        filter (fun r => (Resource.course r =? Course.id course) && Resource.is_active r)
          (resources db) in
      reply req db
        (Render "course_detail.html"
           (ctx_course_detail course module_list completed_module_ids resource_list
              (match student with
               | Some s => StudentProfile.enrolled s course_id
               | None => false
               end)
              (match student with
               | Some s =>
                   hd_error (filter (Certificate.for_pair (StudentProfile.id s) (Course.id course))
                               (certificates db))
               | None => None
               end))) []
  end.

Definition module_detail (module_id : nat) : Request -> Store -> Outcome :=
  login_required (with_student (fun student req db =>
    match find (fun m => (Module_.id m =? module_id) && Module_.is_published m) (modules db) with
    | None => reply req db (Http404 "No Module matches the given query.") []
    | Some module =>
        if negb (StudentProfile.enrolled student (Module_.course module)) then
          reply req db (Redirect "dashboard" None) [(ERROR, "You do not have access to this module.")]
        else
          match ModuleCompletion.get_or_create (StudentProfile.id student) (Module_.id module)
                  (completions db) with
          | inl e => reply req db (ServerError e) []
          | inr (completion, created, rows) =>
              let resource_list :=
                filter (fun r => match Resource.module r with
                                 | Some m => m =? Module_.id module
                                 | None => false
                                 end && Resource.is_active r) (resources db) in
              reply req (set_completions db rows)
                (Render "module_detail.html" (ctx_module_detail module completion resource_list)) []
          end
    end)).

Definition download_resource (resource_id : nat) : Request -> Store -> Outcome :=
  login_required (with_student (fun student req db =>
    match find (fun r => (Resource.id r =? resource_id) && Resource.is_active r) (resources db) with
    | None => reply req db (Http404 "No Resource matches the given query.") []
    | Some resource =>
        if negb (StudentProfile.enrolled student (Resource.course resource)) then
          reply req db (Http404 "You do not have permission to download this resource.") []
        else
          match storage_open db (Resource.file resource) with
          | Some data =>
              reply req db (FileResponse (last_segment "" (Resource.file resource)) data) []
          | None =>
              reply req db (Redirect "course_detail" (Some (Resource.course resource)))
                [(ERROR, "Error downloading file.")]
          end
    end)).

Definition date_ltb (a b : date) : bool :=
  (year a <? year b)
  || ((year a =? year b) && ((month a <? month b)
      || ((month a =? month b) && (day a <? day b)))).

(** [order_by('-issue_date')] *)
Fixpoint insert_by_issue_date (c : Certificate.t) (l : list Certificate.t) : list Certificate.t :=
  match l with
  | [] => [c]
  | x :: rest =>
      if date_ltb (Certificate.issue_date x) (Certificate.issue_date c) then c :: l
      else x :: insert_by_issue_date c rest
  end.

(** The statistics of the profile page for [student]. *)
Definition profile_page (student : StudentProfile.t) (req : Request) (db : Store) : Outcome :=
  let enrolled_courses := active_enrolled_courses db student in
  let total_modules :=
    length (filter (fun m => course_in enrolled_courses (Module_.course m)
                             && Module_.is_published m) (modules db)) in
  let completed_modules :=
    length (filter (fun r => (ModuleCompletion.student r =? StudentProfile.id student)
                             && match module_course db r with
                                | Some c => course_in enrolled_courses c
                                | None => false
                                end
                             && ModuleCompletion.completed r) (completions db)) in
  let certificate_list :=
    fold_right insert_by_issue_date []
      (filter (fun c => Certificate.student c =? StudentProfile.id student) (certificates db)) in
  reply req db
    (Render "student_profile.html"
       (ctx_student_profile student total_modules completed_modules certificate_list)) [].

(** [student_profile(request, profile_id=None)]; a [profile_id] of 0 is as
    good as none. *)
Definition student_profile (profile_id : option nat) : Request -> Store -> Outcome :=
  login_required (fun u req db =>
    match profile_id with
    | Some (S n) =>
        if negb (User.is_staff u) then
          reply req db (Redirect "dashboard" None) [(ERROR, "Permission denied.")]
        else
          match StudentProfile.get (students db) (S n) with
          | Some student => profile_page student req db
          | None => reply req db (Http404 "No StudentProfile matches the given query.") []
          end
    | _ => with_student profile_page u req db
    end).

(** The text the certificate page carries, in drawing order. *)
Definition certificate_lines (account : User.t) (student : StudentProfile.t) (course : Course.t)
  (certificate : Certificate.t) : list string :=
  [ "CERTIFICATE OF COMPLETION";
    "This is to certify that";
    upper (User.get_full_name account);
    ("Registration No: " ++ StudentProfile.student_id student)%string;
    "has successfully completed the course";
    Course.title course;
    ("Date of Issue: " ++ strftime_B_d_Y (Certificate.issue_date certificate))%string;
    ("Certificate No: " ++ Certificate.certificate_number certificate)%string;
    "___________________________";
    "Principal's Signature";
    "Premier Medical And Technical Institute" ].

(** The number of published modules of the course, and the number of the
    student's completion rows for modules of the course that are flagged
    [completed], as [generate_certificate] counts them. *)
Definition total_modules (db : Store) (course : Course.t) : nat :=
  length (filter (fun m => (Module_.course m =? Course.id course) && Module_.is_published m)
            (modules db)).

Definition completed_modules (db : Store) (student : StudentProfile.t) (course : Course.t) : nat :=
  length (filter (fun r => (ModuleCompletion.student r =? StudentProfile.id student)
                           && match module_course db r with
                              | Some c => c =? Course.id course
                              | None => false
                              end
                           && ModuleCompletion.completed r) (completions db)).

(** The number is assigned only while the row has none. *)
Definition assign_number (now : date) (db : Store) (certificate : Certificate.t)
  : Exn * Store + Certificate.t * Store :=
  if negb (truthy (Certificate.certificate_number certificate)) then
    match Certificate.generate_certificate_number now (students db) certificate with
    | inl e => inl (e, db)
    | inr number =>
        let certificate := Certificate.with_number certificate number in
        match Certificate.save certificate (certificates db) with
        | inl e => inl (e, db)
        | inr rows => inr (certificate, set_certificates db rows)
        end
    end
  else inr (certificate, db).

(** The second half of [generate_certificate], from [get_or_create] on: the
    row is fetched or created, numbered if it has no number, the page is
    drawn and stored under the row's file field, and sent back. *)
Definition issue_certificate (now : date) (u : User.t) (student : StudentProfile.t)
  (course : Course.t) (req : Request) (db : Store) : Outcome :=
  match Certificate.get_or_create now (StudentProfile.id student) (Course.id course)
          (certificates db) with
  | inl e => reply req db (ServerError e) []
  | inr (certificate, created, rows) =>
      match assign_number now (set_certificates db rows) certificate with
      | inl (e, db1) => reply req db1 (ServerError e) []
      | inr (certificate, db1) =>
          let lines := certificate_lines u student course certificate in
          let name :=
            ("certificate_" ++ Certificate.certificate_number certificate ++ ".pdf")%string in
          let path := ("certificates/" ++ name)%string in
          let db2 := storage_save db1 path (PdfData lines) in
          match Certificate.save (Certificate.with_pdf_file certificate (Some path))
                  (certificates db2) with
          | inl e => reply req db2 (ServerError e) []
          | inr rows' =>
              reply req (set_certificates db2 rows') (PdfResponse name lines)
                [(SUCCESS, "Certificate generated successfully!")]
          end
      end
  end.

Definition generate_certificate (now : date) (course_id : nat) : Request -> Store -> Outcome :=
  login_required (fun u => with_student (fun student req db =>
    match Course.get (courses db) course_id with
    | None => reply req db (Http404 "No Course matches the given query.") []
    | Some course =>
        if negb (StudentProfile.enrolled student (Course.id course)) then
          reply req db (Redirect "dashboard" None) [(ERROR, "You do not have access to this course.")]
        else if completed_modules db student course <? total_modules db course then
          reply req db (Redirect "course_detail" (Some (Course.id course)))
            [(ERROR, "You must complete all modules before getting a certificate.")]
        else issue_certificate now u student course req db
    end) u).

Definition announcements : Request -> Store -> Outcome :=
  login_required (with_student (fun student req db =>
    reply req db (Render "announcements.html" ctx_none) [])).

Definition course_list (req : Request) (db : Store) : Outcome :=
  reply req db
    (Render "course_list.html"
       (ctx_course_list (filter Course.is_active (courses db))
          (match user req with
           | Some u => StudentProfile.of_user (students db) (User.id u)
           | None => None
           end))) [].

(** ** [courses/urls.py]: the routes whose handlers [views.py] defines *)

Inductive Route :=
| route_home | route_gallery | route_contact | route_branches
| route_login | route_register | route_logout
| route_dashboard | route_my_profile | route_student_profile (profile_id : nat)
| route_course_detail (course_id : nat)
| route_module_detail (module_id : nat)
| route_download_resource (resource_id : nat)
| route_generate_certificate (course_id : nat)
| route_announcements | route_all_courses.

Definition dispatch (fw : Validators) (now : date) (r : Route) : Request -> Store -> Outcome :=
  match r with
  | route_home => home
  | route_gallery => gallery
  | route_contact => contact
  | route_branches => branches
  | route_login => student_login
  | route_register => student_register fw now
  | route_logout => student_logout
  | route_dashboard => dashboard
  | route_my_profile => student_profile None
  | route_student_profile profile_id => student_profile (Some profile_id)
  | route_course_detail course_id => course_detail course_id
  | route_module_detail module_id => module_detail module_id
  | route_download_resource resource_id => download_resource resource_id
  | route_generate_certificate course_id => generate_certificate now course_id
  | route_announcements => announcements
  | route_all_courses => course_list
  end.

(** ** The constraints the schema declares *)

(** Primary key, [certificate_number] and (student, course) are each unique
    in the certificate table. *)
Definition certificates_wf (rows : list Certificate.t) : Prop :=
  NoDup (map Certificate.id rows)
  /\ NoDup (map Certificate.certificate_number rows)
  /\ NoDup (map (fun r => (Certificate.student r, Certificate.course r)) rows).

(** ** The completion tracker in the words of the specification

    [spec_completed_count] counts the modules of the course that are
    published and flagged [admin_completed], [spec_total_count] the published
    ones; a student is eligible when the two agree and there is at least one
    published module. *)
Definition spec_total_count (db : Store) (course_id : nat) : nat :=
  length (filter (fun m => (Module_.course m =? course_id) && Module_.is_published m) (modules db)).

Definition spec_completed_count (db : Store) (course_id : nat) : nat :=
  length (filter (fun m => (Module_.course m =? course_id) && Module_.is_published m
                           && Module_.admin_completed m) (modules db)).

Definition spec_eligible (db : Store) (course_id : nat) : bool :=
  (spec_completed_count db course_id =? spec_total_count db course_id)
  && (0 <? spec_total_count db course_id).

(** The row [ModuleCompletion.objects.create] adds for a first view. *)
Definition first_view_row (s m : nat) (rows : list ModuleCompletion.t) : ModuleCompletion.t :=
  {| ModuleCompletion.id := next_id (map ModuleCompletion.id rows);
     ModuleCompletion.student := s; ModuleCompletion.module := m;
     ModuleCompletion.completed := false; ModuleCompletion.completed_at := None |}.

(** What a certificate row says, its file apart. *)
Definition identity (c : Certificate.t) : nat * nat * nat * date * string :=
  (Certificate.id c, Certificate.student c, Certificate.course c,
   Certificate.issue_date c, Certificate.certificate_number c).

(** A row is kept by a later row when primary key, student, course and
    [issue_date] agree, and the number too once the row had one. *)
Definition kept (c c' : Certificate.t) : Prop :=
  Certificate.id c' = Certificate.id c
  /\ Certificate.student c' = Certificate.student c
  /\ Certificate.course c' = Certificate.course c
  /\ Certificate.issue_date c' = Certificate.issue_date c
  /\ (truthy (Certificate.certificate_number c) = true ->
      Certificate.certificate_number c' = Certificate.certificate_number c).

Definition rows_kept (rows rows' : list Certificate.t) : Prop :=
  forall c, In c rows -> exists c', In c' rows' /\ kept c c'.

(** The tables a certificate request has no business with. *)
Definition other_tables (db : Store) :=
  (users db, batches db, students db, courses db, modules db, completions db, resources db).

(** ** Observations on outcomes *)

Definition is_pdf (r : Response) : bool :=
  match r with
  | PdfResponse _ _ => true
  | _ => false
  end.

Definition is_file (r : Response) : bool :=
  match r with
  | FileResponse _ _ => true
  | _ => false
  end.

(** Some row of that id is active and belongs to a course the student is
    enrolled in. *)
Definition deliverable (db : Store) (student : StudentProfile.t) (resource_id : nat) : bool :=
  existsb (fun r => (Resource.id r =? resource_id) && Resource.is_active r
                    && StudentProfile.enrolled student (Resource.course r)) (resources db).

Definition set_resources (db : Store) (x : list Resource.t) : Store :=
  {| users := users db; batches := batches db; students := students db; courses := courses db;
     modules := modules db; completions := completions db; resources := x;
     certificates := certificates db; media := media db |}.

(** The form data, as the registration form compares it with the tables. *)
Definition duplicate_student_id (db : Store) (req : Request) : Prop :=
  exists p, In p (students db)
            /\ StudentProfile.student_id p = strip (field (POST req) "student_id").

Definition normalize_email (raw : string) : string := strip (lower (strip raw)).

Definition duplicate_email (db : Store) (req : Request) : Prop :=
  truthy (strip (field (POST req) "email")) = true
  /\ exists u, In u (users db)
               /\ iexact (User.email u) (normalize_email (field (POST req) "email")) = true.

(** ** A worked scenario: batch B1, course C1 with two published modules,
       student S1 enrolled and verified *)

Definition day0 : date := {| year := 2026; month := 3; day := 7 |}.
Definition day1 : date := {| year := 2027; month := 1; day := 15 |}.

Definition account_s1 : User.t :=
  {| User.id := 1; User.username := "s1"; User.password := "pw-s1";
     User.first_name := "Ada"; User.last_name := "Khan"; User.email := "Ada@Example.org";
     User.is_active := true; User.is_staff := false |}.

Definition profile_of (account : nat) (sid : string) (verified : bool) (enrolled : list nat)
  : StudentProfile.t :=
  {| StudentProfile.id := account; StudentProfile.user := account;
     StudentProfile.student_id := sid; StudentProfile.phone := "01700000000";
     StudentProfile.batch := Some 1; StudentProfile.date_of_birth := None;
     StudentProfile.address := ""; StudentProfile.profile_picture := None;
     StudentProfile.enrollment_date := day0; StudentProfile.is_active := true;
     StudentProfile.is_verified := verified;
     StudentProfile.verified_at := (if verified then Some day0 else None);
     StudentProfile.enrolled_courses := enrolled |}.

Definition student_s1 : StudentProfile.t := profile_of 1 "S1" true [1].

Definition course_c1 : Course.t :=
  {| Course.id := 1; Course.title := "C1"; Course.description := "Basic nursing care";
     Course.is_active := true |}.

Definition module_of (pk position : nat) (published admin_done : bool) : Module_.t :=
  {| Module_.id := pk; Module_.course := 1; Module_.title := "Unit";
     Module_.order := position; Module_.content := "";
     Module_.is_published := published; Module_.admin_completed := admin_done |}.

Definition viewed (pk module : nat) (done : bool) : ModuleCompletion.t :=
  {| ModuleCompletion.id := pk; ModuleCompletion.student := 1; ModuleCompletion.module := module;
     ModuleCompletion.completed := done; ModuleCompletion.completed_at := None |}.

Definition handout (pk : nat) (course : nat) (active : bool) : Resource.t :=
  {| Resource.id := pk; Resource.course := course; Resource.module := None;
     Resource.title := "Handout"; Resource.file := "resources/handout.pdf";
     Resource.is_active := active |}.

(** Both modules published and completed by the administrator; the student
    has opened both, which left two completion rows with the flag unset. *)
Definition scenario : Store :=
  {| users := [account_s1];
     batches := [ {| Batch.id := 1; Batch.name := "B1"; Batch.is_active := true |} ];
     students := [student_s1];
     courses := [course_c1;
                 {| Course.id := 2; Course.title := "C2"; Course.description := "";
                    Course.is_active := true |}];
     modules := [module_of 1 1 true true; module_of 2 2 true true];
     completions := [viewed 1 1 false; viewed 2 2 false];
     resources := [handout 1 1 true; handout 2 2 true; handout 3 1 false];
     certificates := [];
     media := [("resources/handout.pdf", Bytes "%PDF")] |}.

(** The same with both completion rows flagged. *)
Definition scenario_flagged : Store :=
  set_completions scenario [viewed 1 1 true; viewed 2 2 true].

(** The same before the student has opened any module. *)
Definition scenario_unviewed : Store := set_completions scenario [].

(** The course without any module. *)
Definition scenario_no_modules : Store :=
  {| users := users scenario; batches := batches scenario; students := students scenario;
     courses := courses scenario; modules := []; completions := [];
     resources := resources scenario; certificates := []; media := media scenario |}.

(** The course with a single module that the administrator has flagged
    complete but not published. *)
Definition scenario_draft : Store :=
  {| users := users scenario; batches := batches scenario; students := students scenario;
     courses := courses scenario; modules := [module_of 1 1 false true]; completions := [];
     resources := resources scenario; certificates := []; media := media scenario |}.

(** S1 is enrolled in both courses, holds flagged completion rows and the
    certificate of course 1, issued on [day0]. *)
Definition scenario_second_course : Store :=
  {| users := users scenario; batches := batches scenario;
     students := [profile_of 1 "S1" true [1; 2]];
     courses := courses scenario; modules := modules scenario;
     completions := [viewed 1 1 true; viewed 2 2 true];
     resources := resources scenario;
     certificates :=
       [ {| Certificate.id := 1; Certificate.student := 1; Certificate.course := 1;
            Certificate.issue_date := day0; Certificate.certificate_number := "NCC-2026-S1";
            Certificate.pdf_file := Some "certificates/certificate_NCC-2026-S1.pdf" |} ];
     media := media scenario |}.

Definition as_s1 : Request :=
  {| user := Some account_s1; method := GET; POST := []; FILES := [] |}.

Definition anonymous_post (data : list (string * string)) : Request :=
  {| user := None; method := POST_; POST := data; FILES := [] |}.

(** A second student, registered but not yet verified. *)
Definition account_s2 : User.t :=
  {| User.id := 2; User.username := "s2"; User.password := "pw-s2";
     User.first_name := "Bina"; User.last_name := "Roy"; User.email := "";
     User.is_active := true; User.is_staff := false |}.

Definition student_s2 : StudentProfile.t := profile_of 2 "S2" false [1].

Definition scenario_pending : Store :=
  set_students (set_users scenario [account_s1; account_s2]) [student_s1; student_s2].

Definition login_as (name pw : string) : Request :=
  anonymous_post [("username", name); ("password", pw)].

(** Registration data for a new student; [sid] and [mail] vary. *)
Definition registration (sid mail : string) : Request :=
  anonymous_post
    [("username", "s3"); ("password1", "pw-s3"); ("password2", "pw-s3");
     ("first_name", "Chitra"); ("last_name", "Das"); ("email", mail);
     ("student_id", sid); ("phone", "01800000000"); ("batch", "1")].

(** A framework that accepts whatever it is asked to validate. *)
Definition lenient : Validators :=
  {| usercreation_errors := fun _ _ => [];
     validate_email := fun _ => true;
     to_date := fun _ => None;
     validate_image := fun _ => true |}.

(** ** What else [courses/models.py] and [courses/admin.py] do with these tables *)

(** [StudentProfile.get_completed_modules]: the student's completion rows
    that are flagged; the figure of the admin's progress summary. *)
Definition get_completed_modules (db : Store) (p : StudentProfile.t) : nat :=
  length (filter (fun r => (ModuleCompletion.student r =? StudentProfile.id p)
                           && ModuleCompletion.completed r) (completions db)).

(** The rows an admin action runs on: those whose primary key is ticked. *)
Definition ticked (pks : list nat) (pk : nat) : bool := existsb (fun k => k =? pk) pks.

Definition with_verification (p : StudentProfile.t) (v : bool) (at_ : option date)
  : StudentProfile.t :=
  {| StudentProfile.id := StudentProfile.id p; StudentProfile.user := StudentProfile.user p;
     StudentProfile.student_id := StudentProfile.student_id p;
     StudentProfile.phone := StudentProfile.phone p; StudentProfile.batch := StudentProfile.batch p;
     StudentProfile.date_of_birth := StudentProfile.date_of_birth p;
     StudentProfile.address := StudentProfile.address p;
     StudentProfile.profile_picture := StudentProfile.profile_picture p;
     StudentProfile.enrollment_date := StudentProfile.enrollment_date p;
     StudentProfile.is_active := StudentProfile.is_active p;
     StudentProfile.is_verified := v; StudentProfile.verified_at := at_;
     StudentProfile.enrolled_courses := StudentProfile.enrolled_courses p |}.

(** [queryset.update(is_verified=v, verified_at=at)]: the number of rows
    matched and the table afterwards. *)
Definition update_verification (pks : list nat) (v : bool) (at_ : option date)
  (rows : list StudentProfile.t) : nat * list StudentProfile.t :=
  (length (filter (fun p => ticked pks (StudentProfile.id p)) rows),
   map (fun p => if ticked pks (StudentProfile.id p) then with_verification p v at_ else p) rows).

(** Every table of the store but the student profiles, and the files. *)
Definition tables_but_students (db : Store) :=
  (users db, batches db, courses db, modules db, completions db, resources db,
   certificates db, media db).

(** [StudentProfileAdmin.verify_users]: the message shown and the store. *)
Definition verify_users (now : date) (pks : list nat) (db : Store) : string * Store :=
  let r := update_verification pks true (Some now) (students db) in
  ((str_of_nat (fst r) ++ " user(s) have been verified successfully.")%string,
   set_students db (snd r)).

(** [StudentProfileAdmin.unverify_users] *)
Definition unverify_users (pks : list nat) (db : Store) : string * Store :=
  let r := update_verification pks false None (students db) in
  ((str_of_nat (fst r) ++ " user(s) have been unverified.")%string, set_students db (snd r)).

(** The text of the page as [Certificate.generate_pdf] draws it: the name
    falls back to the username, the fourth line is labelled differently. *)
Definition model_certificate_lines (account : User.t) (student : StudentProfile.t)
  (course : Course.t) (certificate : Certificate.t) : list string :=
  [ "CERTIFICATE OF COMPLETION";
    "This is to certify that";
    upper (if truthy (User.get_full_name account) then User.get_full_name account
           else User.username account);
    ("Student ID: " ++ StudentProfile.student_id student)%string;
    "has successfully completed the course";
    Course.title course;
    ("Date of Issue: " ++ strftime_B_d_Y (Certificate.issue_date certificate))%string;
    ("Certificate No: " ++ Certificate.certificate_number certificate)%string;
    "___________________________";
    "Principal's Signature";
    "Premier Medical And Technical Institute" ].

(** [Certificate.generate_pdf] on a row of the table: the number is assigned
    if the row has none, the page is drawn from the row's student, the
    student's account and the course, and stored under the row's file field
    (a row of the table has its date of issue, so the fallback to the clock
    is never taken).  The exception that escapes, if any, and the store as
    it is left. *)
Definition generate_pdf (now : date) (db : Store) (certificate : Certificate.t)
  : option Exn * Store :=
  match assign_number now db certificate with
  | inl (e, db1) => (Some e, db1)
  | inr (certificate, db1) =>
      match StudentProfile.get (students db1) (Certificate.student certificate) with
      | None => (Some DoesNotExist, db1)
      | Some student =>
          match User.get (users db1) (StudentProfile.user student) with
          | None => (Some DoesNotExist, db1)
          | Some account =>
              match Course.get (courses db1) (Certificate.course certificate) with
              | None => (Some DoesNotExist, db1)
              | Some course =>
                  let lines := model_certificate_lines account student course certificate in
                  let path :=
                    ("certificates/certificate_" ++ Certificate.certificate_number certificate
                     ++ ".pdf")%string in
                  let db2 := storage_save db1 path (PdfData lines) in
                  match Certificate.save (Certificate.with_pdf_file certificate (Some path))
                          (certificates db2) with
                  | inl e => (Some e, db2)
                  | inr rows => (None, set_certificates db2 rows)
                  end
              end
          end
      end
  end.

(** Truthiness of a file field: it names a file. *)
Definition has_file (f : option string) : bool :=
  match f with
  | Some name => truthy name
  | None => false
  end.

(** The loop of [CertificateAdmin.generate_certificate_pdf] over the rows as
    the queryset fetched them: a row with a file is passed over, the others
    are generated and counted; an exception ends the loop. *)
Fixpoint generate_each (now : date) (selection : list Certificate.t) (count : nat) (db : Store)
  : option Exn * nat * Store :=
  match selection with
  | [] => (None, count, db)
  | certificate :: rest =>
      if negb (has_file (Certificate.pdf_file certificate)) then
        match generate_pdf now db certificate with
        | (Some e, db') => (Some e, count, db')
        | (None, db') => generate_each now rest (S count) db'
        end
      else generate_each now rest count db
  end.

(** [CertificateAdmin.generate_certificate_pdf] for the ticked rows. *)
Definition generate_certificate_pdf (now : date) (pks : list nat) (db : Store)
  : option Exn * nat * Store :=
  generate_each now
    (fold_right insert_by_issue_date []
       (filter (fun c => ticked pks (Certificate.id c)) (certificates db)))
    0 db.

Module SiteConfiguration.
(** An instance; [pk] is [None] until it is saved. *)
Record t := {
  pk : option nat;
  site_name : string;
  whatsapp_number : string;
  facebook_url : string;
  contact_phone : string
}.

Definition with_pk (c : t) (k : nat) : t :=
  {| pk := Some k; site_name := site_name c; whatsapp_number := whatsapp_number c;
     facebook_url := facebook_url c; contact_phone := contact_phone c |}.

Definition has_pk (k : nat) (r : t) : bool :=
  match pk r with
  | Some k' => k' =? k
  | None => false
  end.

Definition pks (rows : list t) : list nat :=
  flat_map (fun r => match pk r with
                     | Some k => [k]
                     | None => []
                     end) rows.

(** [Model.save]: a row of that key is overwritten, otherwise the instance
    is inserted, under a new key if it has none. *)
Definition base_save (c : t) (rows : list t) : list t :=
  match pk c with
  | Some k =>
      if existsb (has_pk k) rows
      then map (fun r => if has_pk k r then c else r) rows
      else rows ++ [c]
  | None => rows ++ [with_pk c (next_id (pks rows))]
  end.

(** [not self.pk]: no key, or the key 0. *)
Definition no_pk (c : t) : bool :=
  match pk c with
  | Some k => k =? 0
  | None => true
  end.

(** [SiteConfiguration.save]: a new instance is dropped when a row exists. *)
Definition save (c : t) (rows : list t) : list t :=
  if no_pk c && negb (match rows with [] => true | _ :: _ => false end)
  then rows
  else base_save c rows.

(** The instance [cls(pk=1)] with the defaults of the fields. *)
Definition default : t :=
  {| pk := Some 1; site_name := "Premier Medical And Technical Institute";
     whatsapp_number := ""; facebook_url := ""; contact_phone := "" |}.

(** [get_solo]: [get_or_create(pk=1)]. *)
Definition get_solo (rows : list t) : Exn + (t * list t) :=
  match filter (has_pk 1) rows with
  | [r] => inr (r, rows)
  | [] => inr (default, save default rows)
  | _ :: _ :: _ => inl MultipleObjectsReturned
  end.

(** What the admin and the context processor do to the table. *)
Inductive op :=
| Save (c : t)
| GetSolo.

Definition step (rows : list t) (o : op) : list t :=
  match o with
  | Save c => save c rows
  | GetSolo =>
      match get_solo rows with
      | inr (_, rows') => rows'
      | inl _ => rows
      end
  end.

Definition run (ops : list op) (rows : list t) : list t := fold_left step ops rows.
End SiteConfiguration.

(** ** Invariants of the account tables *)

(** Usernames, registration numbers and the account of a profile are
    unique, and so are the e-mails that are given, up to case. *)
Definition accounts_wf (db : Store) : Prop :=
  NoDup (map User.username (users db))
  /\ NoDup (map StudentProfile.student_id (students db))
  /\ NoDup (map StudentProfile.user (students db))
  /\ NoDup (map lower (filter truthy (map User.email (users db)))).

(** Every profile belongs to an account of the table. *)
Definition profiles_have_accounts (db : Store) : Prop :=
  forall p, In p (students db) -> In (StudentProfile.user p) (map User.id (users db)).

(** The account and the profile [form.save()] makes of a request. *)
Definition registered_account (db : Store) (req : Request) : User.t :=
  {| User.id := next_id (map User.id (users db));
     User.username := strip (field (POST req) "username");
     User.password := field (POST req) "password1";
     User.first_name := strip (field (POST req) "first_name");
     User.last_name := strip (field (POST req) "last_name");
     User.email :=
       match clean_email (users db) (strip (field (POST req) "email")) with
       | inr e => e
       | inl _ => ""
       end;
     User.is_active := true;
     User.is_staff := false |}.

Definition registered_profile (fw : Validators) (today : date) (db : Store) (req : Request)
  : StudentProfile.t :=
  {| StudentProfile.id := next_id (map StudentProfile.id (students db));
     StudentProfile.user := User.id (registered_account db req);
     StudentProfile.student_id := strip (field (POST req) "student_id");
     StudentProfile.phone := strip (field (POST req) "phone");
     StudentProfile.batch :=
       match clean_batch (batches db) (field (POST req) "batch") with
       | inr pk => Some pk
       | inl _ => None
       end;
     StudentProfile.date_of_birth :=
       (if truthy (strip (field (POST req) "date_of_birth"))
        then to_date fw (strip (field (POST req) "date_of_birth")) else None);
     StudentProfile.address := strip (field (POST req) "address");
     StudentProfile.profile_picture :=
       option_map (fun f => ("profiles/" ++ fst f)%string)
         (upload (FILES req) "profile_picture");
     StudentProfile.enrollment_date := today;
     StudentProfile.is_active := true;
     StudentProfile.is_verified := false;
     StudentProfile.verified_at := None;
     StudentProfile.enrolled_courses := [] |}.

(** The number [generate_certificate_number] makes for a student. *)
Definition number_for (now : date) (student : StudentProfile.t) : string :=
  ("NCC-" ++ str_of_nat (year now) ++ "-" ++ StudentProfile.student_id student)%string.

(** The row a first successful generation leaves. *)
Definition issued_row (now : date) (rows : list Certificate.t) (student : StudentProfile.t)
  (course : Course.t) : Certificate.t :=
  {| Certificate.id := next_id (map Certificate.id rows);
     Certificate.student := StudentProfile.id student;
     Certificate.course := Course.id course;
     Certificate.issue_date := now;
     Certificate.certificate_number := number_for now student;
     Certificate.pdf_file :=
       Some ("certificates/certificate_" ++ number_for now student ++ ".pdf")%string |}.

(** The row [get_or_create] inserts, before it is numbered. *)
Definition unnumbered_row (now : date) (rows : list Certificate.t) (student : StudentProfile.t)
  (course : Course.t) : Certificate.t :=
  {| Certificate.id := next_id (map Certificate.id rows);
     Certificate.student := StudentProfile.id student;
     Certificate.course := Course.id course;
     Certificate.issue_date := now;
     Certificate.certificate_number := "";
     Certificate.pdf_file := None |}.

(** A string without a slash. *)
Fixpoint no_slash (s : string) : bool :=
  match s with
  | String c rest => negb (Ascii.eqb c "/"%char) && no_slash rest
  | EmptyString => true
  end.

(** The routes whose handlers write: registration, module view and
    certificate generation write the application's tables and the files;
    login and logout write the session table and [last_login], which the
    [Store] leaves out. *)
Definition writes (r : Route) : bool :=
  match r with
  | route_login | route_logout
  | route_register | route_module_detail _ | route_generate_certificate _ => true
  | _ => false
  end.

(** The routes behind [@login_required]. *)
Definition protected (r : Route) : bool :=
  match r with
  | route_dashboard | route_my_profile | route_student_profile _
  | route_module_detail _ | route_download_resource _
  | route_generate_certificate _ | route_announcements => true
  | _ => false
  end.

(** The protected routes that start from the student's own profile. *)
Definition needs_own_profile (r : Route) : bool :=
  match r with
  | route_dashboard | route_my_profile
  | route_module_detail _ | route_download_resource _
  | route_generate_certificate _ | route_announcements => true
  | _ => false
  end.

(** Case analysis on the scrutinee of the first [match] or [if] of the goal. *)
Ltac break_match :=
  match goal with
  | |- context [match ?x with _ => _ end] => destruct x eqn:?
  end.

Ltac handler_cases := repeat (simpl; try reflexivity; break_match).

(** [NoDup] of a list that is written out. *)
Ltac nodup_concrete :=
  repeat (constructor; [simpl; intuition congruence|]); constructor.

(** * Theorems *)

(** ** Refusal of an ineligible certificate request *)


(** What the handler does when its own check refuses, that is, when the
    student has fewer flagged completion rows than the course has published
    modules: it answers with a redirect to the course page carrying the
    error message, and the database and the file storage are exactly as
    before. *)
Lemma ineligible_request_changes_nothing
  (now : date) (course_id : nat) (req : Request) (db : Store)
  (u : User.t) (student : StudentProfile.t) (course : Course.t) :
  user req = Some u ->
  StudentProfile.of_user (students db) (User.id u) = Some student ->
  Course.get (courses db) course_id = Some course ->
  StudentProfile.enrolled student (Course.id course) = true ->
  completed_modules db student course < total_modules db course ->
  generate_certificate now course_id req db =
    {| response := Redirect "course_detail" (Some (Course.id course));
       flash := [(ERROR, "You must complete all modules before getting a certificate.")];
       session := Some (User.id u);
       store := db |}.
Proof.
  intros Hu Hs Hc He Hlt.
  unfold generate_certificate, login_required, with_student, reply.
  rewrite Hu, Hs, Hc, He. simpl.
  apply Nat.ltb_lt in Hlt. rewrite Hlt. reflexivity.
Qed.

Lemma ineligible_request_changes_nothing_witness :
  generate_certificate day0 1 as_s1 scenario =
    {| response := Redirect "course_detail" (Some 1);
       flash := [(ERROR, "You must complete all modules before getting a certificate.")];
       session := Some 1;
       store := scenario |}.
Proof.
  apply (ineligible_request_changes_nothing day0 1 as_s1 scenario account_s1 student_s1 course_c1);
    try reflexivity.
  vm_compute. lia.
Defined.

(** ** Access-gated resource delivery *)

(** The statement C7 makes, that every refusal is answered as a missing
    resource is, fails for the student who is not enrolled: the resource 2
    of the scenario is active and belongs to course 2, in which S1 is not
    enrolled; the handler raises [Http404] with a reason of its own, while
    for a table without that resource the reason is the one of
    [get_object_or_404]. *)
Lemma non_enrolled_answer_differs_from_missing :
  deliverable scenario student_s1 2 = false
  /\ response (download_resource 2 as_s1 scenario)
     = Http404 "You do not have permission to download this resource."
  /\ response (download_resource 2 as_s1 (set_resources scenario []))
     = Http404 "No Resource matches the given query."
  /\ response (download_resource 2 as_s1 scenario)
     <> response (download_resource 2 as_s1 (set_resources scenario [])).
Proof.
  split; [reflexivity|]. split; [reflexivity|]. split; [reflexivity|].
  vm_compute. discriminate.
Qed.

(** C7 (as amended): for a signed-in student, [download_resource] hands out
    a file only for a resource that is active and belongs to a course the
    student is enrolled in.  When no row of that id is both active and in an
    enrolled course, the answer has status 404, carries no message and
    changes nothing, and 404 is the status of the answer when the resource
    table has no such row at all.  When every row of that id is inactive,
    the whole answer (response, messages, session) is the one given when
    the table has no such row.  When an active row of that id exists and
    the student is not enrolled, the [Http404] carries the reason "You do
    not have permission to download this resource.", which is not the
    reason given for a row that does not exist. *)
Theorem download_only_for_enrolled_active
  (resource_id : nat) (req : Request) (db : Store) (u : User.t) (student : StudentProfile.t) :
  user req = Some u ->
  StudentProfile.of_user (students db) (User.id u) = Some student ->
  (is_file (response (download_resource resource_id req db)) = true ->
   exists r, In r (resources db) /\ Resource.id r = resource_id
             /\ Resource.is_active r = true
             /\ StudentProfile.enrolled student (Resource.course r) = true)
  /\ (deliverable db student resource_id = false ->
      status_code (response (download_resource resource_id req db)) = 404
      /\ status_code (response (download_resource resource_id req (set_resources db []))) = 404
      /\ flash (download_resource resource_id req db) = []
      /\ store (download_resource resource_id req db) = db)
  /\ ((forall r, In r (resources db) -> Resource.id r = resource_id ->
                 Resource.is_active r = false) ->
      response (download_resource resource_id req db)
      = response (download_resource resource_id req (set_resources db []))
      /\ flash (download_resource resource_id req db)
         = flash (download_resource resource_id req (set_resources db []))
      /\ session (download_resource resource_id req db)
         = session (download_resource resource_id req (set_resources db [])))
  /\ ((exists r, In r (resources db) /\ Resource.id r = resource_id
                 /\ Resource.is_active r = true) ->
      deliverable db student resource_id = false ->
      response (download_resource resource_id req db)
      = Http404 "You do not have permission to download this resource."
      /\ response (download_resource resource_id req (set_resources db []))
         = Http404 "No Resource matches the given query.").
Proof.
  intros Hu Hs.
  unfold download_resource, login_required, with_student, reply.
  rewrite Hu. cbn [students set_resources resources find]. rewrite Hs.
  destruct (find _ (resources db)) as [r|] eqn:Hfind.
  - apply find_some in Hfind. destruct Hfind as [Hin Hr].
    apply andb_true_iff in Hr. destruct Hr as [Hid Hact].
    destruct (StudentProfile.enrolled student (Resource.course r)) eqn:Henr; simpl.
    + assert (Hex : deliverable db student resource_id = true).
      { apply existsb_exists. exists r. split; [exact Hin|].
        rewrite Hid, Hact, Henr. reflexivity. }
      split; [|split; [|split]].
      * intros _. exists r. apply Nat.eqb_eq in Hid. auto.
      * intros Hnone. congruence.
      * intros Hall. apply Nat.eqb_eq in Hid. rewrite (Hall r Hin Hid) in Hact.
        discriminate Hact.
      * intros _ Hnone. congruence.
    + split; [discriminate|]. split; [auto|]. split; [|auto].
      intros Hall. apply Nat.eqb_eq in Hid. rewrite (Hall r Hin Hid) in Hact.
      discriminate Hact.
  - simpl. split; [discriminate|]. split; [auto|]. split; [auto|].
    intros [r [Hin [Hid Hact]]] _. exfalso.
    pose proof (find_none _ _ Hfind r Hin) as Hn. cbn beta in Hn.
    rewrite Hid, Nat.eqb_refl, Hact in Hn. discriminate Hn.
Qed.

Lemma download_only_for_enrolled_active_witness :
  status_code (response (download_resource 2 as_s1 scenario)) = 404
  /\ status_code (response (download_resource 3 as_s1 scenario)) = 404
  /\ store (download_resource 2 as_s1 scenario) = scenario
  /\ response (download_resource 3 as_s1 scenario)
     = response (download_resource 3 as_s1 (set_resources scenario []))
  /\ response (download_resource 2 as_s1 scenario)
     = Http404 "You do not have permission to download this resource.".
Proof.
  destruct (download_only_for_enrolled_active 2 as_s1 scenario account_s1 student_s1
              eq_refl eq_refl) as [_ [H2 [_ P2]]].
  destruct (download_only_for_enrolled_active 3 as_s1 scenario account_s1 student_s1
              eq_refl eq_refl) as [_ [H3 [I3 _]]].
  destruct (H2 eq_refl) as [A [_ [_ B]]].
  destruct (H3 eq_refl) as [C _].
  assert (Hinactive : forall r, In r (resources scenario) -> Resource.id r = 3 ->
                                Resource.is_active r = false).
  { intros r [<- | [<- | [<- | []]]] E; try discriminate E. reflexivity. }
  destruct (I3 Hinactive) as [D _].
  assert (Hactive : exists r, In r (resources scenario) /\ Resource.id r = 2
                              /\ Resource.is_active r = true).
  { exists (handout 2 2 true). split; [right; left; reflexivity|]. split; reflexivity. }
  destruct (P2 Hactive eq_refl) as [E _].
  exact (conj A (conj C (conj B (conj D E)))).
Defined.

(** ** Login of an unverified account *)

(** C6: for an account whose student profile has [is_verified = false],
    [student_login] never signs that account in: if the session afterwards
    is that account's, it already was before.  When the submitted
    credentials are accepted, the answer is a redirect to the login page
    with the pending-verification message at warning level, no session, and
    the database untouched. *)
Theorem unverified_login_opens_no_session
  (req : Request) (db : Store) (account : User.t) (profile : StudentProfile.t) :
  StudentProfile.of_user (students db) (User.id account) = Some profile ->
  StudentProfile.is_verified profile = false ->
  (session (student_login req db) = Some (User.id account) ->
   option_map User.id (user req) = Some (User.id account))
  /\ (user req = None ->
      method req = POST_ ->
      authentication_form_valid (users db) (POST req) = true ->
      authenticate (users db) (strip (field (POST req) "username")) (field (POST req) "password")
        = Some account ->
      student_login req db =
        {| response := Redirect "login" None;
           flash := [(WARNING, "Your account is pending verification by the administrator. Please wait for approval.")];
           session := None;
           store := db |}).
Proof.
  intros Hp Hv. split.
  - unfold student_login, reply.
    destruct (user req) as [u|]; [simpl; auto|].
    destruct (method req); [simpl; discriminate|].
    destruct (authentication_form_valid _ _); [|simpl; discriminate].
    destruct (authenticate _ _ _) as [a|]; [|simpl; discriminate].
    destruct (StudentProfile.of_user (students db) (User.id a)) as [p|] eqn:Hpa;
      [|simpl; discriminate].
    destruct (StudentProfile.is_verified p) eqn:Hvp; simpl; [|discriminate].
    intros Heq. injection Heq as Heq. rewrite Heq in Hpa. congruence.
  - intros Hu Hm Hform Hauth.
    unfold student_login, reply.
    rewrite Hu, Hm, Hform, Hauth, Hp, Hv. reflexivity.
Qed.

Lemma unverified_login_opens_no_session_witness :
  student_login (login_as "s2" "pw-s2") scenario_pending =
    {| response := Redirect "login" None;
       flash := [(WARNING, "Your account is pending verification by the administrator. Please wait for approval.")];
       session := None;
       store := scenario_pending |}.
Proof.
  destruct (unverified_login_opens_no_session (login_as "s2" "pw-s2") scenario_pending
              account_s2 student_s2 eq_refl eq_refl) as [_ H].
  exact (H eq_refl eq_refl eq_refl eq_refl).
Defined.

(** ** Completion rows left by viewing a module *)

Lemma filter_nil_existsb {A : Type} (f : A -> bool) (l : list A) :
  filter f l = [] -> existsb f l = false.
Proof.
  induction l as [|x l IH]; simpl; [reflexivity|].
  destruct (f x); [discriminate | exact IH].
Qed.

Lemma existsb_false_filter {A : Type} (f : A -> bool) (l : list A) :
  existsb f l = false -> filter f l = [].
Proof.
  induction l as [|x l IH]; simpl; [reflexivity|].
  destruct (f x); simpl; [discriminate | exact IH].
Qed.

Lemma set_completions_same (db : Store) : set_completions db (completions db) = db.
Proof. destruct db; reflexivity. Qed.

Lemma links_first_view_row (s m : nat) (rows : list ModuleCompletion.t) :
  ModuleCompletion.links s m (first_view_row s m rows) = true.
Proof. unfold ModuleCompletion.links. simpl. rewrite !Nat.eqb_refl. reflexivity. Qed.

(** What [get_or_create] does on a table that respects the uniqueness of
    (student, module): it returns the one row, or adds the first-view row. *)
Lemma completion_get_or_create_cases (s m : nat) (rows : list ModuleCompletion.t) :
  ModuleCompletion.unique rows ->
  (exists r, filter (ModuleCompletion.links s m) rows = [r]
             /\ ModuleCompletion.get_or_create s m rows = inr (r, false, rows))
  \/ (filter (ModuleCompletion.links s m) rows = []
      /\ ModuleCompletion.get_or_create s m rows
         = inr (first_view_row s m rows, true, rows ++ [first_view_row s m rows])).
Proof.
  intros Huniq. unfold ModuleCompletion.get_or_create, ModuleCompletion.create.
  specialize (Huniq s m).
  destruct (filter (ModuleCompletion.links s m) rows) as [|r [|r' l]] eqn:Hf.
  - right. split; [reflexivity|].
    rewrite (filter_nil_existsb _ _ Hf). reflexivity.
  - left. exists r. split; reflexivity.
  - simpl in Huniq. lia.
Qed.

Lemma unique_after_first_view (s m : nat) (rows : list ModuleCompletion.t) :
  ModuleCompletion.unique rows ->
  filter (ModuleCompletion.links s m) rows = [] ->
  ModuleCompletion.unique (rows ++ [first_view_row s m rows]).
Proof.
  intros Huniq Hf s' m'. rewrite filter_app, length_app. simpl.
  destruct (ModuleCompletion.links s' m' (first_view_row s m rows)) eqn:Hl; simpl.
  - unfold ModuleCompletion.links in Hl. simpl in Hl.
    apply andb_true_iff in Hl. destruct Hl as [Hs Hm].
    apply Nat.eqb_eq in Hs. apply Nat.eqb_eq in Hm. subst s' m'.
    rewrite Hf. simpl. lia.
  - specialize (Huniq s' m'). lia.
Qed.

(** C9: when a signed-in student views a published module of a course they
    are enrolled in, and the completion table respects its uniqueness
    constraint, the page is rendered and afterwards exactly one completion
    row links the student and the module.  A row that was there is kept and
    nothing is written; otherwise one row is appended.  The constraint
    still holds, so a second view finds that row and writes nothing. *)
Theorem module_view_leaves_one_completion_row
  (module_id : nat) (req : Request) (db : Store)
  (u : User.t) (student : StudentProfile.t) (module : Module_.t) :
  ModuleCompletion.unique (completions db) ->
  user req = Some u ->
  StudentProfile.of_user (students db) (User.id u) = Some student ->
  find (fun m => (Module_.id m =? module_id) && Module_.is_published m) (modules db) = Some module ->
  StudentProfile.enrolled student (Module_.course module) = true ->
  status_code (response (module_detail module_id req db)) = 200
  /\ length (filter (ModuleCompletion.links (StudentProfile.id student) (Module_.id module))
               (completions (store (module_detail module_id req db)))) = 1
  /\ (existsb (ModuleCompletion.links (StudentProfile.id student) (Module_.id module))
        (completions db) = true ->
      store (module_detail module_id req db) = db)
  /\ (existsb (ModuleCompletion.links (StudentProfile.id student) (Module_.id module))
        (completions db) = false ->
      store (module_detail module_id req db)
      = set_completions db
          (completions db
           ++ [first_view_row (StudentProfile.id student) (Module_.id module) (completions db)]))
  /\ ModuleCompletion.unique (completions (store (module_detail module_id req db)))
  /\ store (module_detail module_id req (store (module_detail module_id req db)))
     = store (module_detail module_id req db).
Proof.
  intros Huniq Hu Hs Hm He.
  assert (Hstep : forall db', ModuleCompletion.unique (completions db') ->
            students db' = students db -> modules db' = modules db ->
            module_detail module_id req db' =
              match ModuleCompletion.get_or_create (StudentProfile.id student) (Module_.id module)
                      (completions db') with
              | inl e => reply req db' (ServerError e) []
              | inr (completion, _, rows) =>
                  reply req (set_completions db' rows)
                    (Render "module_detail.html"
                       (ctx_module_detail module completion
                          (filter (fun r => match Resource.module r with
                                            | Some m => m =? Module_.id module
                                            | None => false
                                            end && Resource.is_active r) (resources db')))) []
              end).
  { intros db' _ Hst Hmo. unfold module_detail, login_required, with_student.
    rewrite Hu, Hst, Hs, Hmo, Hm, He. simpl.
    destruct (ModuleCompletion.get_or_create _ _ _) as [e|[[c b] rows]]; reflexivity. }
  rewrite (Hstep db Huniq eq_refl eq_refl).
  destruct (completion_get_or_create_cases (StudentProfile.id student) (Module_.id module)
              (completions db) Huniq) as [[r [Hf Hg]] | [Hf Hg]]; rewrite Hg; simpl.
  - rewrite set_completions_same. rewrite Hf.
    repeat split; auto.
    + intros Hex. apply existsb_false_filter in Hex. congruence.
    + rewrite (Hstep db Huniq eq_refl eq_refl), Hg. simpl. apply set_completions_same.
  - assert (Huniq' := unique_after_first_view _ _ _ Huniq Hf).
    rewrite filter_app, Hf. simpl. rewrite links_first_view_row. simpl.
    repeat split; auto.
    + intros Hex. rewrite (filter_nil_existsb _ _ Hf) in Hex. discriminate.
    + rewrite (Hstep (set_completions db _) Huniq' eq_refl eq_refl). simpl.
      destruct (completion_get_or_create_cases (StudentProfile.id student) (Module_.id module)
                  _ Huniq') as [[r [Hf' Hg']] | [Hf' Hg']]; rewrite Hg'; simpl.
      * destruct db; reflexivity.
      * rewrite filter_app, Hf in Hf'. simpl in Hf'.
        rewrite links_first_view_row in Hf'. discriminate.
Qed.

Lemma module_view_leaves_one_completion_row_witness :
  length (filter (ModuleCompletion.links 1 1)
            (completions (store (module_detail 1 as_s1 scenario_unviewed)))) = 1
  /\ store (module_detail 1 as_s1 (store (module_detail 1 as_s1 scenario_unviewed)))
     = store (module_detail 1 as_s1 scenario_unviewed).
Proof.
  assert (Huniq : ModuleCompletion.unique (completions scenario_unviewed)).
  { intros s m. simpl. lia. }
  destruct (module_view_leaves_one_completion_row 1 as_s1 scenario_unviewed
              account_s1 student_s1 (module_of 1 1 true true)
              Huniq eq_refl eq_refl eq_refl eq_refl) as [_ [H1 [_ [_ [_ H2]]]]].
  exact (conj H1 H2).
Defined.

(** ** Viewing a module marks nothing complete *)

Lemma module_detail_completions (module_id : nat) (req : Request) (db : Store) :
  completions (store (module_detail module_id req db)) = completions db
  \/ exists s m,
       completions (store (module_detail module_id req db))
       = completions db ++ [first_view_row s m (completions db)].
Proof.
  unfold module_detail, login_required, with_student, reply.
  destruct (user req) as [u|]; [|left; reflexivity].
  destruct (StudentProfile.of_user _ _) as [student|]; [|left; reflexivity].
  destruct (find _ (modules db)) as [module|]; [|left; reflexivity].
  destruct (negb _); [left; reflexivity|].
  unfold ModuleCompletion.get_or_create, ModuleCompletion.create.
  destruct (filter _ (completions db)) as [|r [|r' l]].
  - destruct (existsb _ _); [left; reflexivity|].
    right. exists (StudentProfile.id student), (Module_.id module). reflexivity.
  - left. reflexivity.
  - left. reflexivity.
Qed.

Lemma generate_certificate_completions (now : date) (course_id : nat) (req : Request) (db : Store) :
  completions (store (generate_certificate now course_id req db)) = completions db.
Proof.
  unfold generate_certificate, issue_certificate, login_required, with_student, reply,
    assign_number.
  handler_cases.
  all: repeat match goal with
       | H : inr _ = inr _ |- _ => injection H as <- <-
       | H : (if ?b then _ else _) = _ |- _ => destruct b
       | H : match ?x with _ => _ end = _ |- _ => destruct x
       | H : inl _ = inr _ |- _ => discriminate H
       | H : inr _ = inl _ |- _ => discriminate H
       | H : inl _ = inl _ |- _ => injection H as <- <-
       end; try reflexivity.
Qed.

Lemma form_save_completions (fw : Validators) (today : date) (db : Store) (req : Request) :
  completions (snd (form_save fw today db req)) = completions db.
Proof.
  unfold form_save, User.create, StudentProfile.create.
  destruct (existsb _ (users db)); [reflexivity|].
  destruct (existsb _ (students db)); destruct (upload _ _) as [[name content]|]; reflexivity.
Qed.

Lemma other_handlers_keep_completions
  (fw : Validators) (now : date) (route : Route) (req : Request) (db : Store) :
  (forall module_id, route <> route_module_detail module_id) ->
  completions (store (dispatch fw now route req db)) = completions db.
Proof.
  intros Hroute. destruct route; simpl;
    try (exfalso; eapply Hroute; reflexivity);
    try apply generate_certificate_completions;
    try reflexivity.
  - unfold student_login, reply. handler_cases.
  - unfold student_register, reply.
    destruct (user req); [reflexivity|].
    destruct (method req); [reflexivity|].
    destruct (is_valid fw db req); [|reflexivity].
    pose proof (form_save_completions fw now db req) as Hsave.
    destruct (form_save fw now db req) as [[e|] db']; exact Hsave.
  - unfold dashboard, login_required, with_student, reply. handler_cases.
  - unfold student_profile, login_required, with_student, profile_page, reply. handler_cases.
  - unfold student_profile, login_required, with_student, profile_page, reply. handler_cases.
  - unfold course_detail, reply. handler_cases.
  - unfold download_resource, login_required, with_student, reply. handler_cases.
  - unfold announcements, login_required, with_student, reply. handler_cases.
Qed.

(** C10: viewing a module never marks it complete.  [module_detail] leaves
    the completion table as it was or appends one row whose [completed] is
    false and whose [completed_at] is unset, so no field of a row that was
    there changes.  No handler reachable through the routes produces a row
    with [completed = true] that was not in the table before.  The flag is
    set by [mark_complete], which gives the row [completed = true] and the
    time of the call. *)
Theorem viewing_never_marks_complete :
  (forall module_id req db,
     completions (store (module_detail module_id req db)) = completions db
     \/ exists r,
          completions (store (module_detail module_id req db)) = completions db ++ [r]
          /\ ModuleCompletion.completed r = false
          /\ ModuleCompletion.completed_at r = None)
  /\ (forall fw now route req db r,
        In r (completions (store (dispatch fw now route req db))) ->
        ModuleCompletion.completed r = true ->
        In r (completions db))
  /\ (forall now r rows,
        In r rows ->
        exists r', In r' (ModuleCompletion.mark_complete now r rows)
                   /\ ModuleCompletion.id r' = ModuleCompletion.id r
                   /\ ModuleCompletion.completed r' = true
                   /\ ModuleCompletion.completed_at r' = Some now).
Proof.
  split; [|split].
  - intros module_id req db.
    destruct (module_detail_completions module_id req db) as [H | [s [m H]]].
    + left. exact H.
    + right. exists (first_view_row s m (completions db)). auto.
  - intros fw now route req db r Hin Hdone.
    destruct route;
      try (rewrite other_handlers_keep_completions in Hin; [exact Hin | discriminate]).
    simpl in Hin.
    destruct (module_detail_completions module_id req db) as [H | [s [m H]]];
      rewrite H in Hin; [exact Hin|].
    apply in_app_or in Hin. destruct Hin as [Hin | [Heq | []]]; [exact Hin|].
    subst r. discriminate Hdone.
  - intros now r rows Hin.
    eexists. split.
    + unfold ModuleCompletion.mark_complete. apply in_map_iff.
      exists r. split; [|exact Hin]. rewrite Nat.eqb_refl. reflexivity.
    + simpl. auto.
Qed.

Lemma viewing_never_marks_complete_witness :
  completions (store (module_detail 1 as_s1 scenario_unviewed)) = [viewed 1 1 false]
  /\ (forall r, In r (completions (store (dispatch lenient day0 (route_module_detail 2) as_s1 scenario))) ->
                ModuleCompletion.completed r = true -> In r (completions scenario)).
Proof.
  destruct viewing_never_marks_complete as [_ [H _]].
  split; [reflexivity|].
  exact (H lenient day0 (route_module_detail 2) as_s1 scenario).
Defined.

(** ** Registration with a registration number or e-mail already taken *)

Lemma in_student_id_errors (fw : Validators) (db : Store) (req : Request)
  (x : string * ValidationError) :
  In x (student_id_errors db (POST req)) -> In x (form_errors fw db req).
Proof.
  intros H. unfold form_errors.
  repeat (apply in_or_app; first [left; exact H | right]).
Qed.

Lemma in_email_errors (fw : Validators) (db : Store) (req : Request)
  (x : string * ValidationError) :
  In x (email_errors fw db (POST req)) -> In x (form_errors fw db req).
Proof.
  intros H. unfold form_errors.
  repeat (apply in_or_app; first [left; exact H | right]).
Qed.

Lemma duplicate_student_id_error (db : Store) (req : Request) :
  duplicate_student_id db req ->
  exists e, In ("student_id", e) (student_id_errors db (POST req)).
Proof.
  intros [p [Hin Hsid]]. unfold student_id_errors, char_field.
  destruct (String.eqb (strip (field (POST req) "student_id")) "").
  - exists Required. left. reflexivity.
  - destruct (20 <? String.length (strip (field (POST req) "student_id"))).
    + exists (MaxLength 20). left. reflexivity.
    + unfold clean_student_id.
      assert (Hex : existsb (fun q => String.eqb (StudentProfile.student_id q)
                                        (strip (field (POST req) "student_id")))
                      (students db) = true).
      { apply existsb_exists. exists p. split; [exact Hin|].
        rewrite Hsid. apply String.eqb_refl. }
      rewrite Hex. eexists. left. reflexivity.
Qed.

Lemma duplicate_email_error (fw : Validators) (db : Store) (req : Request) :
  duplicate_email db req ->
  exists e, In ("email", e) (email_errors fw db (POST req)).
Proof.
  intros [Hgiven [u [Hin Hsame]]]. unfold email_errors.
  rewrite Hgiven. simpl.
  destruct (validate_email fw (strip (field (POST req) "email"))); simpl.
  - unfold clean_email. rewrite Hgiven. simpl.
    fold (normalize_email (field (POST req) "email")).
    assert (Hex : existsb (fun a => iexact (User.email a)
                                      (normalize_email (field (POST req) "email")))
                    (users db) = true).
    { apply existsb_exists. exists u. split; assumption. }
    rewrite Hex. eexists. left. reflexivity.
  - exists Invalid. left. reflexivity.
Qed.

Lemma invalid_form_is_rendered_back (fw : Validators) (today : date) (req : Request) (db : Store) :
  user req = None ->
  method req = POST_ ->
  is_valid fw db req = false ->
  student_register fw today req db
  = reply req db (Render "register.html" (ctx_register (form_errors fw db req))) [].
Proof.
  intros Hu Hm Hv. unfold student_register. rewrite Hu, Hm, Hv. reflexivity.
Qed.

Lemma error_makes_invalid (fw : Validators) (db : Store) (req : Request)
  (x : string * ValidationError) :
  In x (form_errors fw db req) -> is_valid fw db req = false.
Proof.
  unfold is_valid. destruct (form_errors fw db req); [intros [] | reflexivity].
Qed.

(** C8: a registration whose registration number equals that of an existing
    profile, or which gives an e-mail that equals an existing account's
    e-mail up to case, fails validation with an error attached to that
    field; the form is rendered back and the database is as before, so no
    account row and no profile row is created.  Whenever the handler changes
    the database, the whole form was valid. *)
Theorem duplicate_registration_rejected
  (fw : Validators) (today : date) (req : Request) (db : Store) :
  user req = None ->
  method req = POST_ ->
  (duplicate_student_id db req ->
   (exists e, In ("student_id", e) (form_errors fw db req))
   /\ student_register fw today req db
      = reply req db (Render "register.html" (ctx_register (form_errors fw db req))) [])
  /\ (duplicate_email db req ->
      (exists e, In ("email", e) (form_errors fw db req))
      /\ student_register fw today req db
         = reply req db (Render "register.html" (ctx_register (form_errors fw db req))) [])
  /\ (store (student_register fw today req db) <> db -> is_valid fw db req = true).
Proof.
  intros Hu Hm. split; [|split].
  - intros Hdup. destruct (duplicate_student_id_error db req Hdup) as [e He].
    apply (in_student_id_errors fw) in He.
    split; [exists e; exact He|].
    apply invalid_form_is_rendered_back; try assumption.
    exact (error_makes_invalid _ _ _ _ He).
  - intros Hdup. destruct (duplicate_email_error fw db req Hdup) as [e He].
    apply in_email_errors in He.
    split; [exists e; exact He|].
    apply invalid_form_is_rendered_back; try assumption.
    exact (error_makes_invalid _ _ _ _ He).
  - intros Hchanged. destruct (is_valid fw db req) eqn:Hv; [reflexivity|].
    exfalso. apply Hchanged.
    rewrite (invalid_form_is_rendered_back fw today req db Hu Hm Hv). reflexivity.
Qed.

Lemma duplicate_registration_rejected_witness :
  store (student_register lenient day0 (registration "S1" "") scenario) = scenario
  /\ store (student_register lenient day0 (registration "S9" " ADA@example.ORG ") scenario)
     = scenario.
Proof.
  destruct (duplicate_registration_rejected lenient day0 (registration "S1" "") scenario
              eq_refl eq_refl) as [H1 _].
  destruct (duplicate_registration_rejected lenient day0
              (registration "S9" " ADA@example.ORG ") scenario eq_refl eq_refl) as [_ [H2 _]].
  assert (D1 : duplicate_student_id scenario (registration "S1" "")).
  { exists student_s1. split; [left; reflexivity | reflexivity]. }
  assert (D2 : duplicate_email scenario (registration "S9" " ADA@example.ORG ")).
  { split; [reflexivity|]. exists account_s1. split; [left; reflexivity | reflexivity]. }
  destruct (H1 D1) as [_ E1]. destruct (H2 D2) as [_ E2].
  rewrite E1, E2. split; reflexivity.
Defined.

(** A registration that clashes with nothing adds one account and one
    unverified profile. *)
Example registration_creates_rows :
  let out := student_register lenient day0 (registration "S9" "chitra@example.org") scenario in
  response out = Redirect "login" None
  /\ map User.username (users (store out)) = ["s1"; "s3"]
  /\ map StudentProfile.student_id (students (store out)) = ["S1"; "S9"]
  /\ map StudentProfile.is_verified (students (store out)) = [true; false].
Proof. vm_compute. repeat split. Qed.

(** ** The certificate table under its constraints *)

Lemma next_id_above (ids : list nat) (x : nat) : In x ids -> x < next_id ids.
Proof.
  unfold next_id. induction ids as [|y ids IH]; simpl; [intros []|].
  intros [-> | Hin]; [lia|]. specialize (IH Hin). lia.
Qed.

Lemma NoDup_snoc {A : Type} (l : list A) (x : A) :
  NoDup l -> ~ In x l -> NoDup (l ++ [x]).
Proof.
  induction l as [|y l IH]; simpl; intros Hnd Hx.
  - constructor; [intros [] | constructor].
  - inversion Hnd as [|? ? Hy Hl]; subst. constructor.
    + intros Hin. apply in_app_or in Hin. destruct Hin as [Hin | [-> | []]].
      * exact (Hy Hin).
      * apply Hx. left. reflexivity.
    + apply IH; [exact Hl|]. intros Hin. apply Hx. right. exact Hin.
Qed.

Lemma NoDup_map_injective {A K : Type} (key : A -> K) (l : list A) (a b : A) :
  NoDup (map key l) -> In a l -> In b l -> key a = key b -> a = b.
Proof.
  induction l as [|x l IH]; simpl; [intros _ []|].
  intros Hnd Ha Hb Hk. inversion Hnd as [|? ? Hx Hl]; subst.
  destruct Ha as [-> | Ha]; destruct Hb as [-> | Hb]; try reflexivity.
  - exfalso. apply Hx. rewrite Hk. apply in_map. exact Hb.
  - exfalso. apply Hx. rewrite <- Hk. apply in_map. exact Ha.
  - exact (IH Hl Ha Hb Hk).
Qed.

Lemma profile_by_pk (rows : list StudentProfile.t) (s : StudentProfile.t) :
  NoDup (map StudentProfile.id rows) -> In s rows ->
  StudentProfile.get rows (StudentProfile.id s) = Some s.
Proof.
  intros Hnd Hin. unfold StudentProfile.get.
  destruct (find _ rows) as [s'|] eqn:Hf.
  - apply find_some in Hf. destruct Hf as [Hin' Heq]. apply Nat.eqb_eq in Heq.
    f_equal. exact (NoDup_map_injective _ _ _ _ Hnd Hin' Hin Heq).
  - exfalso. pose proof (find_none _ _ Hf s Hin) as Hn.
    simpl in Hn. rewrite Nat.eqb_refl in Hn. discriminate.
Qed.

Lemma for_pair_iff (s c : nat) (r : Certificate.t) :
  Certificate.for_pair s c r = true <-> (Certificate.student r, Certificate.course r) = (s, c).
Proof.
  unfold Certificate.for_pair. rewrite andb_true_iff, !Nat.eqb_eq.
  split; [intros [-> ->]; reflexivity | intros H; injection H; auto].
Qed.

(** Under (student, course) uniqueness the filter by pair is the row itself. *)
Lemma filter_for_pair (rows : list Certificate.t) (r : Certificate.t) :
  NoDup (map (fun x => (Certificate.student x, Certificate.course x)) rows) ->
  In r rows ->
  filter (Certificate.for_pair (Certificate.student r) (Certificate.course r)) rows = [r].
Proof.
  induction rows as [|x rows IH]; simpl; [intros _ []|].
  intros Hnd Hin. inversion Hnd as [|? ? Hx Hl]; subst.
  destruct Hin as [-> | Hin].
  - assert (Hself : Certificate.for_pair (Certificate.student r) (Certificate.course r) r = true)
      by (apply for_pair_iff; reflexivity).
    rewrite Hself. f_equal.
    destruct (filter _ rows) as [|y l] eqn:Hf; [reflexivity|].
    exfalso. assert (Hy : In y (filter (Certificate.for_pair (Certificate.student r)
                                          (Certificate.course r)) rows))
      by (rewrite Hf; left; reflexivity).
    apply filter_In in Hy. destruct Hy as [Hy Hp]. apply for_pair_iff in Hp.
    apply Hx. rewrite <- Hp.
    exact (in_map (fun x => (Certificate.student x, Certificate.course x)) rows y Hy).
  - destruct (Certificate.for_pair _ _ x) eqn:Hp.
    + exfalso. apply for_pair_iff in Hp. apply Hx. rewrite Hp.
      exact (in_map (fun x => (Certificate.student x, Certificate.course x)) rows r Hin).
    + exact (IH Hl Hin).
Qed.

Lemma wf_unique (rows : list Certificate.t) : certificates_wf rows -> Certificate.unique rows.
Proof.
  intros [_ [_ Hp]] s c.
  destruct (filter (Certificate.for_pair s c) rows) as [|r l] eqn:Hf; [simpl; lia|].
  assert (Hr : In r (filter (Certificate.for_pair s c) rows)) by (rewrite Hf; left; reflexivity).
  apply filter_In in Hr. destruct Hr as [Hin Hpair]. apply for_pair_iff in Hpair.
  injection Hpair as <- <-. rewrite (filter_for_pair rows r Hp Hin) in Hf.
  injection Hf as <-. simpl. lia.
Qed.

Lemma wf_identity (a b : list Certificate.t) :
  map identity a = map identity b -> certificates_wf a -> certificates_wf b.
Proof.
  intros Hid [H1 [H2 H3]].
  assert (E1 : map Certificate.id b = map Certificate.id a).
  { change Certificate.id with (fun c => fst (fst (fst (fst (identity c))))).
    rewrite <- !(map_map identity (fun x => fst (fst (fst (fst x))))), Hid. reflexivity. }
  assert (E2 : map Certificate.certificate_number b = map Certificate.certificate_number a).
  { change Certificate.certificate_number with (fun c => snd (identity c)).
    rewrite <- !(map_map identity snd), Hid. reflexivity. }
  assert (E3 : map (fun r => (Certificate.student r, Certificate.course r)) b
               = map (fun r => (Certificate.student r, Certificate.course r)) a).
  { change (fun r => (Certificate.student r, Certificate.course r))
      with (fun c => (snd (fst (fst (fst (identity c)))), snd (fst (fst (identity c))))).
    rewrite <- !(map_map identity (fun x => (snd (fst (fst (fst x))), snd (fst (fst x))))), Hid.
    reflexivity. }
  unfold certificates_wf. rewrite E1, E2, E3. auto.
Qed.

Lemma save_cases (c : Certificate.t) (rows rows' : list Certificate.t) :
  Certificate.save c rows = inr rows' ->
  rows' = map (fun r => if Certificate.id r =? Certificate.id c then c else r) rows
  /\ forall r, In r rows -> Certificate.id r <> Certificate.id c ->
       Certificate.certificate_number r <> Certificate.certificate_number c
       /\ (Certificate.student r, Certificate.course r)
          <> (Certificate.student c, Certificate.course c).
Proof.
  unfold Certificate.save.
  destruct (existsb (Certificate.clashes c) rows) eqn:Hex; [discriminate|].
  intros H. injection H as <-. split; [reflexivity|].
  intros r Hin Hid.
  assert (Hc : Certificate.clashes c r = false).
  { destruct (Certificate.clashes c r) eqn:Hc; [|reflexivity].
    assert (existsb (Certificate.clashes c) rows = true)
      by (apply existsb_exists; exists r; auto).
    congruence. }
  unfold Certificate.clashes in Hc.
  apply Nat.eqb_neq in Hid. rewrite Hid in Hc. simpl in Hc.
  apply orb_false_iff in Hc. destruct Hc as [Hn Hp]. split.
  - intros E. rewrite E, String.eqb_refl in Hn. discriminate.
  - intros E. apply for_pair_iff in E. congruence.
Qed.

Lemma replace_keeps_ids (c : Certificate.t) (rows : list Certificate.t) :
  map Certificate.id (map (fun r => if Certificate.id r =? Certificate.id c then c else r) rows)
  = map Certificate.id rows.
Proof.
  rewrite map_map. apply map_ext. intros r.
  destruct (Certificate.id r =? Certificate.id c) eqn:E; [|reflexivity].
  apply Nat.eqb_eq in E. auto.
Qed.

(** Writing a row back keeps a key unique when no other row holds the
    written key. *)
Lemma replace_keeps_key_unique {K : Type} (key : Certificate.t -> K)
  (c : Certificate.t) (rows : list Certificate.t) :
  NoDup (map Certificate.id rows) ->
  NoDup (map key rows) ->
  (forall r, In r rows -> Certificate.id r <> Certificate.id c -> key r <> key c) ->
  NoDup (map key (map (fun r => if Certificate.id r =? Certificate.id c then c else r) rows)).
Proof.
  induction rows as [|x rows IH]; simpl; intros Hid Hkey Hother; [constructor|].
  inversion Hid as [|? ? Hx Hids]; subst. inversion Hkey as [|? ? Hkx Hkeys]; subst.
  assert (IH' := IH Hids Hkeys (fun r Hin => Hother r (or_intror Hin))).
  destruct (Certificate.id x =? Certificate.id c) eqn:E.
  - apply Nat.eqb_eq in E.
    assert (Hrest : forall r, In r rows -> Certificate.id r <> Certificate.id c).
    { intros r Hin Heq. apply Hx. rewrite E, <- Heq. apply in_map. exact Hin. }
    assert (Hsame : map (fun r => if Certificate.id r =? Certificate.id c then c else r) rows
                    = rows).
    { rewrite <- (map_id rows) at 2. apply map_ext_in. intros r Hin.
      apply Hrest in Hin. apply Nat.eqb_neq in Hin. rewrite Hin. reflexivity. }
    rewrite Hsame. constructor; [|exact Hkeys].
    intros Hin. apply in_map_iff in Hin. destruct Hin as [r [Hk Hin]].
    exact (Hother r (or_intror Hin) (Hrest r Hin) Hk).
  - apply Nat.eqb_neq in E. constructor; [|exact IH'].
    intros Hin. apply in_map_iff in Hin. destruct Hin as [y [Hk Hin]].
    apply in_map_iff in Hin. destruct Hin as [r [Hy Hin]].
    destruct (Certificate.id r =? Certificate.id c); subst y.
    + exact (Hother x (or_introl eq_refl) E (eq_sym Hk)).
    + apply Hkx. rewrite <- Hk. apply in_map. exact Hin.
Qed.

Lemma save_wf (c : Certificate.t) (rows rows' : list Certificate.t) :
  certificates_wf rows -> Certificate.save c rows = inr rows' -> certificates_wf rows'.
Proof.
  intros [H1 [H2 H3]] Hsave. apply save_cases in Hsave. destruct Hsave as [-> Hother].
  split; [|split].
  - rewrite replace_keeps_ids. exact H1.
  - apply replace_keeps_key_unique; auto. intros r Hin Hid. apply (Hother r Hin Hid).
  - apply (replace_keeps_key_unique (fun r => (Certificate.student r, Certificate.course r)));
      auto.
    intros r Hin Hid. apply (Hother r Hin Hid).
Qed.

Lemma save_in (c : Certificate.t) (rows rows' : list Certificate.t) (r : Certificate.t) :
  Certificate.save c rows = inr rows' ->
  In r rows -> Certificate.id r = Certificate.id c -> In c rows'.
Proof.
  intros Hsave Hin Hid. apply save_cases in Hsave. destruct Hsave as [-> _].
  apply in_map_iff. exists r. split; [|exact Hin].
  rewrite Hid, Nat.eqb_refl. reflexivity.
Qed.

(** Storing the file of a row that is in the table touches nothing else. *)
Lemma save_pdf_file (rows : list Certificate.t) (c0 : Certificate.t) (f : option string) :
  certificates_wf rows -> In c0 rows ->
  exists rows',
    Certificate.save (Certificate.with_pdf_file c0 f) rows = inr rows'
    /\ map identity rows' = map identity rows
    /\ In (Certificate.with_pdf_file c0 f) rows'.
Proof.
  intros [H1 [H2 H3]] Hin.
  assert (Hno : existsb (Certificate.clashes (Certificate.with_pdf_file c0 f)) rows = false).
  { destruct (existsb _ rows) eqn:Hex; [|reflexivity]. exfalso.
    apply existsb_exists in Hex. destruct Hex as [r [Hr Hc]].
    unfold Certificate.clashes in Hc. simpl in Hc.
    apply andb_true_iff in Hc. destruct Hc as [Hid Hc].
    apply negb_true_iff, Nat.eqb_neq in Hid. apply Hid.
    apply orb_true_iff in Hc. destruct Hc as [Hn | Hp].
    - apply String.eqb_eq in Hn.
      rewrite (NoDup_map_injective _ _ _ _ H2 Hr Hin Hn). reflexivity.
    - apply for_pair_iff in Hp.
      rewrite (NoDup_map_injective _ _ _ _ H3 Hr Hin Hp). reflexivity. }
  eexists. split; [unfold Certificate.save; rewrite Hno; reflexivity|]. split.
  - rewrite map_map. apply map_ext_in. intros r Hr. simpl.
    destruct (Certificate.id r =? Certificate.id c0) eqn:E; [|reflexivity].
    apply Nat.eqb_eq in E.
    rewrite (NoDup_map_injective _ _ _ _ H1 Hr Hin E). reflexivity.
  - apply in_map_iff. exists c0. split; [|exact Hin].
    simpl. rewrite Nat.eqb_refl. reflexivity.
Qed.

Lemma create_cases (today : date) (s c : nat) (rows rows' : list Certificate.t)
  (r : Certificate.t) :
  certificates_wf rows ->
  Certificate.create today s c rows = inr (r, rows') ->
  rows' = rows ++ [r] /\ certificates_wf rows'
  /\ Certificate.for_pair s c r = true /\ Certificate.certificate_number r = "".
Proof.
  intros [H1 [H2 H3]]. unfold Certificate.create.
  destruct (existsb _ rows) eqn:Hex; [discriminate|].
  intros H. injection H as <- <-.
  assert (Hother : forall x, In x rows ->
            Certificate.certificate_number x <> ""
            /\ (Certificate.student x, Certificate.course x) <> (s, c)).
  { intros x Hx.
    match type of Hex with existsb ?f _ = _ => assert (Hc : f x = false) end.
    { match goal with |- ?f x = false => destruct (f x) eqn:Hc; [|reflexivity] end.
      match type of Hex with ?e = false => assert (e = true) end;
        [apply existsb_exists; exists x; auto | congruence]. }
    unfold Certificate.clashes in Hc. simpl in Hc.
    pose proof (next_id_above _ _ (in_map Certificate.id rows x Hx)) as Hlt.
    assert (Hne : (Certificate.id x =? next_id (map Certificate.id rows)) = false)
      by (apply Nat.eqb_neq; lia).
    rewrite Hne in Hc. simpl in Hc.
    apply orb_false_iff in Hc. destruct Hc as [Hn Hp]. split.
    - intros E. rewrite E in Hn. discriminate.
    - intros E. apply for_pair_iff in E. congruence. }
  split; [reflexivity|]. split; [|split].
  - split; [|split]; rewrite map_app; simpl; apply NoDup_snoc; auto.
    + intros Hin. apply next_id_above in Hin. lia.
    + intros Hin. apply in_map_iff in Hin. destruct Hin as [x [Hk Hx]].
      exact (proj1 (Hother x Hx) Hk).
    + intros Hin. apply in_map_iff in Hin. destruct Hin as [x [Hk Hx]].
      exact (proj2 (Hother x Hx) Hk).
  - apply for_pair_iff. reflexivity.
  - reflexivity.
Qed.

Lemma certificate_get_or_create_cases (today : date) (s c : nat)
  (rows rows' : list Certificate.t) (cert : Certificate.t) (created : bool) :
  certificates_wf rows ->
  Certificate.get_or_create today s c rows = inr (cert, created, rows') ->
  certificates_wf rows' /\ In cert rows' /\ Certificate.for_pair s c cert = true
  /\ ((rows' = rows /\ In cert rows)
      \/ (rows' = rows ++ [cert] /\ Certificate.certificate_number cert = "")).
Proof.
  intros Hwf. unfold Certificate.get_or_create.
  destruct (filter (Certificate.for_pair s c) rows) as [|r [|r' l]] eqn:Hf.
  - destruct (Certificate.create today s c rows) as [e|[r rows1]] eqn:Hc; [discriminate|].
    intros H. injection H as <- <- <-.
    destruct (create_cases _ _ _ _ _ _ Hwf Hc) as [-> [Hwf' [Hp Hn]]].
    split; [exact Hwf'|]. split; [apply in_or_app; right; left; reflexivity|].
    split; [exact Hp|]. right. auto.
  - intros H. injection H as <- <- <-.
    assert (Hr : In r (filter (Certificate.for_pair s c) rows)) by (rewrite Hf; left; reflexivity).
    apply filter_In in Hr. destruct Hr as [Hin Hp].
    split; [exact Hwf|]. split; [exact Hin|]. split; [exact Hp|]. left. auto.
  - discriminate.
Qed.

Lemma not_truthy_empty (s : string) : truthy s = false -> s = "".
Proof.
  unfold truthy. intros H. apply negb_false_iff in H. apply String.eqb_eq. exact H.
Qed.

(** After [assign_number] the row has a number: the one it had, or the one
    put together from the prefix, the year of the clock and the student's
    registration number. *)
Lemma assign_number_cases (now : date) (db db' : Store) (cert cert' : Certificate.t) :
  certificates_wf (certificates db) ->
  In cert (certificates db) ->
  assign_number now db cert = inr (cert', db') ->
  certificates_wf (certificates db') /\ In cert' (certificates db')
  /\ other_tables db' = other_tables db /\ media db' = media db
  /\ Certificate.student cert' = Certificate.student cert
  /\ Certificate.course cert' = Certificate.course cert
  /\ truthy (Certificate.certificate_number cert') = true
  /\ ((truthy (Certificate.certificate_number cert) = true /\ cert' = cert /\ db' = db)
      \/ (Certificate.certificate_number cert = ""
          /\ exists s, StudentProfile.get (students db) (Certificate.student cert) = Some s
                       /\ Certificate.certificate_number cert'
                          = ("NCC-" ++ str_of_nat (year now) ++ "-"
                             ++ StudentProfile.student_id s)%string)).
Proof.
  intros Hwf Hin. unfold assign_number, Certificate.generate_certificate_number.
  destruct (truthy (Certificate.certificate_number cert)) eqn:Ht; simpl.
  - intros H. injection H as <- <-.
    split; [exact Hwf|]. split; [exact Hin|]. do 4 (split; [reflexivity|]).
    split; [exact Ht|]. left. auto.
  - destruct (StudentProfile.get (students db) (Certificate.student cert)) as [s|] eqn:Hs;
      [|discriminate].
    destruct (Certificate.save _ (certificates db)) as [e|rows] eqn:Hsave; [discriminate|].
    intros H. injection H as <- <-. simpl.
    split; [exact (save_wf _ _ _ Hwf Hsave)|].
    split; [exact (save_in _ _ _ cert Hsave Hin eq_refl)|].
    do 5 (split; [reflexivity|]).
    right. split; [exact (not_truthy_empty _ Ht)|]. exists s. split; reflexivity.
Qed.

Lemma for_pair_fields (s c : nat) (r : Certificate.t) :
  Certificate.for_pair s c r = true -> Certificate.student r = s /\ Certificate.course r = c.
Proof. intros H. apply for_pair_iff in H. injection H. auto. Qed.

(** Issuing again for a row that has its number: the request succeeds and
    only the file of the row changes. *)
Lemma issue_existing (now : date) (u : User.t) (student : StudentProfile.t) (course : Course.t)
  (req : Request) (db : Store) (c0 : Certificate.t) :
  certificates_wf (certificates db) ->
  In c0 (certificates db) ->
  Certificate.for_pair (StudentProfile.id student) (Course.id course) c0 = true ->
  truthy (Certificate.certificate_number c0) = true ->
  is_pdf (response (issue_certificate now u student course req db)) = true
  /\ map identity (certificates (store (issue_certificate now u student course req db)))
     = map identity (certificates db)
  /\ other_tables (store (issue_certificate now u student course req db)) = other_tables db.
Proof.
  intros Hwf Hin Hp Ht. unfold issue_certificate, Certificate.get_or_create.
  destruct (for_pair_fields _ _ _ Hp) as [Hs Hc].
  rewrite <- Hs, <- Hc. rewrite (filter_for_pair _ _ (proj2 (proj2 Hwf)) Hin).
  unfold assign_number. rewrite Ht. simpl.
  destruct (save_pdf_file (certificates db) c0
              (Some ("certificates/certificate_" ++ Certificate.certificate_number c0 ++ ".pdf")%string)
              Hwf Hin) as [rows' [Hsave [Hid _]]].
  simpl in Hsave. rewrite Hsave. simpl. auto.
Qed.

(** A successful issue leaves a well-formed table holding a numbered row for
    the pair; the number is the old one, or a freshly assigned one. *)
Lemma issue_pdf_cases (now : date) (u : User.t) (student : StudentProfile.t) (course : Course.t)
  (req : Request) (db : Store) :
  certificates_wf (certificates db) ->
  is_pdf (response (issue_certificate now u student course req db)) = true ->
  exists cert,
    certificates_wf (certificates (store (issue_certificate now u student course req db)))
    /\ In cert (certificates (store (issue_certificate now u student course req db)))
    /\ Certificate.for_pair (StudentProfile.id student) (Course.id course) cert = true
    /\ truthy (Certificate.certificate_number cert) = true
    /\ other_tables (store (issue_certificate now u student course req db)) = other_tables db
    /\ ((exists c0, In c0 (certificates db)
                    /\ Certificate.for_pair (StudentProfile.id student) (Course.id course) c0 = true
                    /\ truthy (Certificate.certificate_number c0) = true)
        \/ (exists s, StudentProfile.get (students db) (StudentProfile.id student) = Some s
                      /\ Certificate.certificate_number cert
                         = ("NCC-" ++ str_of_nat (year now) ++ "-"
                            ++ StudentProfile.student_id s)%string)).
Proof.
  intros Hwf. unfold issue_certificate.
  destruct (Certificate.get_or_create _ _ _ _) as [e|[[cert created] rows]] eqn:Hg;
    [discriminate|].
  destruct (certificate_get_or_create_cases _ _ _ _ _ _ _ Hwf Hg) as [Hwf1 [Hin1 [Hp1 Hwas]]].
  destruct (assign_number now (set_certificates db rows) cert) as [[e db1]|[cert' db1]] eqn:Ha;
    [discriminate|].
  destruct (assign_number_cases now (set_certificates db rows) db1 cert cert' Hwf1 Hin1 Ha)
    as [Hwf2 [Hin2 [Hot [Hme [Hst [Hco [Ht Hnum]]]]]]].
  simpl.
  destruct (save_pdf_file (certificates db1) cert'
              (Some ("certificates/certificate_" ++ Certificate.certificate_number cert' ++ ".pdf")%string)
              Hwf2 Hin2) as [rows' [Hsave [Hid Hin3]]].
  simpl in Hsave. rewrite Hsave. simpl. intros _.
  eexists. split; [|split; [exact Hin3|]].
  - exact (wf_identity _ _ (eq_sym Hid) Hwf2).
  - destruct (for_pair_fields _ _ _ Hp1) as [Hs Hc].
    split; [|split; [exact Ht|split]].
    + apply for_pair_iff. simpl. rewrite Hst, Hco, Hs, Hc. reflexivity.
    + transitivity (other_tables db1); [reflexivity | rewrite Hot; reflexivity].
    + destruct Hnum as [[Ht0 [-> ->]] | [Hempty [s [Hget Hn]]]].
      * destruct Hwas as [[-> Hin0] | [_ Hn0]].
        -- left. exists cert. auto.
        -- rewrite Hn0 in Ht0. discriminate.
      * right. exists s. simpl in Hget. rewrite Hs in Hget. split; [exact Hget|exact Hn].
Qed.

(** The checks [generate_certificate] makes before it issues. *)
Lemma generate_certificate_gates (now : date) (course_id : nat) (req : Request) (db : Store) :
  is_pdf (response (generate_certificate now course_id req db)) = true ->
  exists u student course,
    user req = Some u
    /\ StudentProfile.of_user (students db) (User.id u) = Some student
    /\ Course.get (courses db) course_id = Some course
    /\ StudentProfile.enrolled student (Course.id course) = true
    /\ (completed_modules db student course <? total_modules db course) = false
    /\ generate_certificate now course_id req db = issue_certificate now u student course req db.
Proof.
  unfold generate_certificate, login_required, with_student.
  destruct (user req) as [u|]; [|discriminate].
  destruct (StudentProfile.of_user _ _) as [student|] eqn:Hs; [|discriminate].
  destruct (Course.get _ _) as [course|] eqn:Hc; [|discriminate].
  destruct (StudentProfile.enrolled student (Course.id course)) eqn:He; [|discriminate].
  simpl.
  destruct (completed_modules db student course <? total_modules db course) eqn:Hlt;
    [discriminate|].
  intros _. exists u, student, course. repeat split; auto.
Qed.

Lemma generate_certificate_passes (now : date) (course_id : nat) (req : Request) (db db0 : Store)
  (u : User.t) (student : StudentProfile.t) (course : Course.t) :
  other_tables db = other_tables db0 ->
  user req = Some u ->
  StudentProfile.of_user (students db0) (User.id u) = Some student ->
  Course.get (courses db0) course_id = Some course ->
  StudentProfile.enrolled student (Course.id course) = true ->
  (completed_modules db0 student course <? total_modules db0 course) = false ->
  generate_certificate now course_id req db = issue_certificate now u student course req db.
Proof.
  intros Hot Hu Hs Hc He Hlt. unfold other_tables in Hot.
  injection Hot as Eu Eb Es Ec Em Eco Er.
  unfold generate_certificate, login_required, with_student.
  unfold completed_modules, total_modules, module_course in *.
  rewrite Hu, Es, Hs, Ec, Hc, He, Em, Eco. simpl. rewrite Hlt. reflexivity.
Qed.

(** ** The number a certificate is given *)

(** C3: when [generate_certificate] succeeds for a pair that had no numbered
    certificate yet (no row, or a row whose number is still empty), the
    pair's row afterwards carries the number made of the prefix NCC, the
    year of the clock at generation and the student's registration number,
    joined by dashes. *)
Theorem assigned_number_is_prefix_year_student_id
  (now : date) (course_id : nat) (req : Request) (db : Store)
  (u : User.t) (student : StudentProfile.t) :
  NoDup (map StudentProfile.id (students db)) ->
  certificates_wf (certificates db) ->
  user req = Some u ->
  StudentProfile.of_user (students db) (User.id u) = Some student ->
  (forall c, In c (certificates db) ->
             Certificate.for_pair (StudentProfile.id student) course_id c = true ->
             Certificate.certificate_number c = "") ->
  is_pdf (response (generate_certificate now course_id req db)) = true ->
  exists c,
    In c (certificates (store (generate_certificate now course_id req db)))
    /\ Certificate.for_pair (StudentProfile.id student) course_id c = true
    /\ Certificate.certificate_number c
       = ("NCC-" ++ str_of_nat (year now) ++ "-" ++ StudentProfile.student_id student)%string.
Proof.
  intros Hpk Hwf Hu Hs Hnone Hpdf.
  destruct (generate_certificate_gates _ _ _ _ Hpdf)
    as [u' [student' [course [Hu' [Hs' [Hc [He [Hlt Heq]]]]]]]].
  rewrite Hu in Hu'. injection Hu' as <-. rewrite Hs in Hs'. injection Hs' as <-.
  assert (Hcid : Course.id course = course_id).
  { unfold Course.get in Hc. apply find_some in Hc. apply Nat.eqb_eq. exact (proj2 Hc). }
  rewrite Heq in Hpdf |- *.
  destruct (issue_pdf_cases _ _ _ _ _ _ Hwf Hpdf)
    as [cert [_ [Hin [Hp [Ht [_ [[c0 [Hin0 [Hp0 Ht0]]] | [s [Hget Hn]]]]]]]]].
  - rewrite Hcid in Hp0. rewrite (Hnone c0 Hin0 Hp0) in Ht0. discriminate.
  - exists cert. rewrite Hcid in Hp. split; [exact Hin|]. split; [exact Hp|].
    assert (Hmem : In student (students db)).
    { unfold StudentProfile.of_user in Hs. apply find_some in Hs. exact (proj1 Hs). }
    rewrite (profile_by_pk _ _ Hpk Hmem) in Hget. injection Hget as <-. exact Hn.
Qed.

Lemma scenario_flagged_certificates_wf : certificates_wf (certificates scenario_flagged).
Proof. repeat split; constructor. Defined.

Lemma assigned_number_is_prefix_year_student_id_witness :
  exists c,
    In c (certificates (store (generate_certificate day0 1 as_s1 scenario_flagged)))
    /\ Certificate.for_pair 1 1 c = true
    /\ Certificate.certificate_number c = "NCC-2026-S1".
Proof.
  apply (assigned_number_is_prefix_year_student_id day0 1 as_s1 scenario_flagged
           account_s1 student_s1).
  - repeat constructor. intros [].
  - exact scenario_flagged_certificates_wf.
  - reflexivity.
  - reflexivity.
  - intros c [].
  - reflexivity.
Defined.

(** The scenario of the specification, run: the answer is the PDF named
    after the number, and the table holds one row, numbered NCC-2026-S1 and
    dated the day of the request. *)
Example first_generation :
  let out := generate_certificate day0 1 as_s1 scenario_flagged in
  is_pdf (response out) = true
  /\ map identity (certificates (store out)) = [(1, 1, 1, day0, "NCC-2026-S1")]
  /\ map Certificate.pdf_file (certificates (store out))
     = [Some "certificates/certificate_NCC-2026-S1.pdf"].
Proof. vm_compute. repeat split. Qed.

(** ** Generating again *)

Lemma assign_number_failure (now : date) (db db' : Store) (cert : Certificate.t) (e : Exn) :
  assign_number now db cert = inl (e, db') -> db' = db.
Proof.
  unfold assign_number.
  destruct (negb _); [|discriminate].
  destruct (Certificate.generate_certificate_number _ _ _); [intros H; injection H; auto|].
  destruct (Certificate.save _ _); [intros H; injection H; auto | discriminate].
Qed.

Lemma issue_certificate_wf (now : date) (u : User.t) (student : StudentProfile.t)
  (course : Course.t) (req : Request) (db : Store) :
  certificates_wf (certificates db) ->
  certificates_wf (certificates (store (issue_certificate now u student course req db))).
Proof.
  intros Hwf. unfold issue_certificate.
  destruct (Certificate.get_or_create _ _ _ _) as [e|[[cert created] rows]] eqn:Hg;
    [exact Hwf|].
  destruct (certificate_get_or_create_cases _ _ _ _ _ _ _ Hwf Hg) as [Hwf1 [Hin1 _]].
  destruct (assign_number now (set_certificates db rows) cert) as [[e db1]|[cert' db1]] eqn:Ha.
  - apply assign_number_failure in Ha. subst db1. exact Hwf1.
  - destruct (assign_number_cases now (set_certificates db rows) db1 cert cert' Hwf1 Hin1 Ha)
      as [Hwf2 [Hin2 _]].
    simpl.
    destruct (Certificate.save _ (certificates db1)) as [e|rows'] eqn:Hsave; simpl.
    + exact Hwf2.
    + exact (save_wf _ _ _ Hwf2 Hsave).
Qed.

Lemma generate_certificate_wf (now : date) (course_id : nat) (req : Request) (db : Store) :
  certificates_wf (certificates db) ->
  certificates_wf (certificates (store (generate_certificate now course_id req db))).
Proof.
  intros Hwf. unfold generate_certificate, login_required, with_student.
  destruct (user req) as [u|]; [|exact Hwf].
  destruct (StudentProfile.of_user _ _) as [student|]; [|exact Hwf].
  destruct (Course.get _ _) as [course|]; [|exact Hwf].
  destruct (negb _); [exact Hwf|].
  destruct (_ <? _); [exact Hwf|].
  apply issue_certificate_wf. exact Hwf.
Qed.

(** After a generation that succeeded, generating again for the same pair,
    at any later clock, succeeds too and leaves primary key, student,
    course, [issue_date] and [certificate_number] of every certificate row
    as they were. *)
Lemma generation_twice
  (now1 now2 : date) (course_id : nat) (req : Request) (db : Store) :
  certificates_wf (certificates db) ->
  is_pdf (response (generate_certificate now1 course_id req db)) = true ->
  is_pdf (response (generate_certificate now2 course_id req
                      (store (generate_certificate now1 course_id req db)))) = true
  /\ map identity
       (certificates (store (generate_certificate now2 course_id req
                               (store (generate_certificate now1 course_id req db)))))
     = map identity (certificates (store (generate_certificate now1 course_id req db))).
Proof.
  intros Hwf Hpdf.
  destruct (generate_certificate_gates _ _ _ _ Hpdf)
    as [u [student [course [Hu [Hs [Hc [He [Hlt Heq]]]]]]]].
  rewrite Heq in Hpdf |- *.
  destruct (issue_pdf_cases _ _ _ _ _ _ Hwf Hpdf)
    as [cert [Hwf1 [Hin [Hp [Ht [Hot _]]]]]].
  rewrite (generate_certificate_passes now2 course_id req _ db u student course
             Hot Hu Hs Hc He Hlt).
  destruct (issue_existing now2 u student course req _ cert Hwf1 Hin Hp Ht)
    as [Hpdf2 [Hid _]].
  split; [exact Hpdf2 | exact Hid].
Qed.

Lemma kept_refl (c : Certificate.t) : kept c c.
Proof. repeat split. Qed.

Lemma rows_kept_refl (rows : list Certificate.t) : rows_kept rows rows.
Proof. intros c Hin. exists c. split; [exact Hin | apply kept_refl]. Qed.

Lemma rows_kept_trans (a b c : list Certificate.t) :
  rows_kept a b -> rows_kept b c -> rows_kept a c.
Proof.
  intros Hab Hbc x Hx.
  destruct (Hab x Hx) as [y [Hy [K1 [K2 [K3 [K4 K5]]]]]].
  destruct (Hbc y Hy) as [z [Hz [L1 [L2 [L3 [L4 L5]]]]]].
  exists z. split; [exact Hz|]. unfold kept.
  rewrite L1, L2, L3, L4, K1, K2, K3, K4. do 4 (split; [reflexivity|]).
  intros Ht. rewrite <- (K5 Ht). apply L5. rewrite (K5 Ht). exact Ht.
Qed.

(** Writing back a row that keeps the row it came from keeps every row. *)
Lemma save_kept (c r0 : Certificate.t) (rows rows' : list Certificate.t) :
  NoDup (map Certificate.id rows) ->
  In r0 rows -> kept r0 c ->
  Certificate.save c rows = inr rows' ->
  rows_kept rows rows'.
Proof.
  intros Hnd Hin Hk Hsave. apply save_cases in Hsave. destruct Hsave as [-> _].
  intros r Hr.
  exists (if Certificate.id r =? Certificate.id c then c else r). split.
  - apply in_map_iff. exists r. auto.
  - destruct (Certificate.id r =? Certificate.id c) eqn:E; [|apply kept_refl].
    apply Nat.eqb_eq in E. rewrite (proj1 Hk) in E.
    rewrite (NoDup_map_injective _ _ _ _ Hnd Hr Hin E). exact Hk.
Qed.

Lemma assign_number_kept (now : date) (db db' : Store) (cert cert' : Certificate.t) :
  certificates_wf (certificates db) ->
  In cert (certificates db) ->
  assign_number now db cert = inr (cert', db') ->
  rows_kept (certificates db) (certificates db').
Proof.
  intros Hwf Hin. unfold assign_number.
  destruct (truthy (Certificate.certificate_number cert)) eqn:Ht; simpl.
  - intros H. injection H as <- <-. apply rows_kept_refl.
  - destruct (Certificate.generate_certificate_number _ _ _) as [e|number]; [discriminate|].
    destruct (Certificate.save _ (certificates db)) as [e|rows] eqn:Hsave; [discriminate|].
    intros H. injection H as <- <-. simpl.
    apply (save_kept (Certificate.with_number cert number) cert _ _ (proj1 Hwf) Hin);
      [|exact Hsave].
    unfold kept. simpl. do 4 (split; [reflexivity|]). rewrite Ht. discriminate.
Qed.

Lemma issue_certificate_kept (now : date) (u : User.t) (student : StudentProfile.t)
  (course : Course.t) (req : Request) (db : Store) :
  certificates_wf (certificates db) ->
  rows_kept (certificates db)
    (certificates (store (issue_certificate now u student course req db))).
Proof.
  intros Hwf. unfold issue_certificate.
  destruct (Certificate.get_or_create _ _ _ _) as [e|[[cert created] rows]] eqn:Hg;
    [apply rows_kept_refl|].
  destruct (certificate_get_or_create_cases _ _ _ _ _ _ _ Hwf Hg) as [Hwf1 [Hin1 [_ Hwas]]].
  assert (K1 : rows_kept (certificates db) rows).
  { destruct Hwas as [[-> _] | [-> _]]; [apply rows_kept_refl|].
    intros c Hc. exists c. split; [apply in_or_app; left; exact Hc | apply kept_refl]. }
  destruct (assign_number now (set_certificates db rows) cert) as [[e db1]|[cert' db1]] eqn:Ha.
  - apply assign_number_failure in Ha. subst db1. exact K1.
  - destruct (assign_number_cases now (set_certificates db rows) db1 cert cert' Hwf1 Hin1 Ha)
      as [Hwf2 [Hin2 _]].
    pose proof (assign_number_kept now (set_certificates db rows) db1 cert cert' Hwf1 Hin1 Ha)
      as K2.
    simpl in K2. simpl.
    destruct (Certificate.save _ (certificates db1)) as [e|rows'] eqn:Hsave; simpl.
    + exact (rows_kept_trans _ _ _ K1 K2).
    + apply (rows_kept_trans _ _ _ K1), (rows_kept_trans _ _ _ K2).
      eapply (save_kept _ cert' _ _ (proj1 Hwf2) Hin2); [|exact Hsave].
      repeat split.
Qed.

Lemma generate_certificate_other_tables
  (now : date) (course_id : nat) (req : Request) (db : Store) :
  other_tables (store (generate_certificate now course_id req db)) = other_tables db.
Proof.
  unfold generate_certificate, issue_certificate, login_required, with_student, reply,
    assign_number.
  handler_cases.
  all: repeat match goal with
       | H : inr _ = inr _ |- _ => injection H as <- <-
       | H : (if ?b then _ else _) = _ |- _ => destruct b
       | H : match ?x with _ => _ end = _ |- _ => destruct x
       | H : inl _ = inr _ |- _ => discriminate H
       | H : inr _ = inl _ |- _ => discriminate H
       | H : inl _ = inl _ |- _ => injection H as <- <-
       end; try reflexivity.
Qed.

(** C4 (as amended): on a certificate table that respects its constraints,
    [generate_certificate] leaves at most one row per (student, course),
    and every certificate row that was there is still there with its
    primary key, student, course and [issue_date], and with its
    [certificate_number] when it has one, whatever the request and whatever
    the answer; the other tables are untouched, so for a certificate that
    has its number only [pdf_file] and the stored file can differ.  After a
    generation that succeeded, generating again, at any clock, succeeds and
    leaves primary key, student, course, [issue_date] and
    [certificate_number] of every certificate row as they were. *)
Theorem regeneration_keeps_number_and_date
  (now : date) (course_id : nat) (req : Request) (db : Store) :
  certificates_wf (certificates db) ->
  Certificate.unique (certificates (store (generate_certificate now course_id req db)))
  /\ (forall c, In c (certificates db) ->
        exists c', In c' (certificates (store (generate_certificate now course_id req db)))
                   /\ Certificate.id c' = Certificate.id c
                   /\ Certificate.student c' = Certificate.student c
                   /\ Certificate.course c' = Certificate.course c
                   /\ Certificate.issue_date c' = Certificate.issue_date c
                   /\ (truthy (Certificate.certificate_number c) = true ->
                       Certificate.certificate_number c' = Certificate.certificate_number c))
  /\ other_tables (store (generate_certificate now course_id req db)) = other_tables db
  /\ (is_pdf (response (generate_certificate now course_id req db)) = true ->
      forall now2 : date,
        is_pdf (response (generate_certificate now2 course_id req
                            (store (generate_certificate now course_id req db)))) = true
        /\ map identity
             (certificates (store (generate_certificate now2 course_id req
                                     (store (generate_certificate now course_id req db)))))
           = map identity (certificates (store (generate_certificate now course_id req db)))).
Proof.
  intros Hwf.
  split; [apply wf_unique, generate_certificate_wf, Hwf|].
  split; [|split; [apply generate_certificate_other_tables|]].
  - change (rows_kept (certificates db)
              (certificates (store (generate_certificate now course_id req db)))).
    unfold generate_certificate, login_required, with_student.
    destruct (user req) as [u|]; [|apply rows_kept_refl].
    destruct (StudentProfile.of_user _ _) as [student|]; [|apply rows_kept_refl].
    destruct (Course.get _ _) as [course|]; [|apply rows_kept_refl].
    destruct (negb _); [apply rows_kept_refl|].
    destruct (_ <? _); [apply rows_kept_refl|].
    apply issue_certificate_kept. exact Hwf.
  - intros Hpdf now2. exact (generation_twice now now2 course_id req db Hwf Hpdf).
Qed.

Lemma regeneration_keeps_number_and_date_witness :
  (exists c',
    In c' (certificates (store (generate_certificate day1 1 as_s1 scenario_second_course)))
    /\ Certificate.id c' = 1
    /\ Certificate.issue_date c' = day0
    /\ Certificate.certificate_number c' = "NCC-2026-S1")
  /\ map identity
       (certificates (store (generate_certificate day0 1 as_s1
                               (store (generate_certificate day1 1 as_s1
                                         scenario_second_course)))))
     = map identity
         (certificates (store (generate_certificate day1 1 as_s1 scenario_second_course))).
Proof.
  assert (Hwf : certificates_wf (certificates scenario_second_course))
    by (repeat split; nodup_concrete).
  destruct (regeneration_keeps_number_and_date day1 1 as_s1 scenario_second_course Hwf)
    as [_ [Hkept [_ Hagain]]].
  split.
  - destruct (Hkept _ (or_introl eq_refl)) as [c' [Hin [Hid [_ [_ [Hdate Hnum]]]]]].
    exists c'. split; [exact Hin|]. split; [exact Hid|]. split; [exact Hdate|].
    exact (Hnum eq_refl).
  - exact (proj2 (Hagain eq_refl day0)).
Defined.

(** The number does not name the course.  A request for a second course in
    the year of the first certificate creates the row and then fails on the
    uniqueness of the number; the row stays behind without a number.  A
    second request in the same year fails in the same way and leaves the
    row without a number; a request in a later year numbers it by that
    year, under the date of the first attempt. *)
Example second_course_same_year :
  let out := generate_certificate day0 2 as_s1 scenario_second_course in
  response out = ServerError IntegrityError
  /\ map identity (certificates (store out))
     = [(1, 1, 1, day0, "NCC-2026-S1"); (2, 1, 2, day0, "")]
  /\ response (generate_certificate day0 2 as_s1 (store out)) = ServerError IntegrityError
  /\ map identity (certificates (store (generate_certificate day0 2 as_s1 (store out))))
     = [(1, 1, 1, day0, "NCC-2026-S1"); (2, 1, 2, day0, "")]
  /\ map identity (certificates (store (generate_certificate day1 2 as_s1 (store out))))
     = [(1, 1, 1, day0, "NCC-2026-S1"); (2, 1, 2, day0, "NCC-2027-S1")].
Proof. vm_compute. repeat split. Qed.

(** The statement without the proviso on the number fails: the row left
    behind by the failed request above is an existing certificate row of
    the pair, and the request of the next year changes its number from
    empty to NCC-2027-S1. *)
Lemma unnumbered_row_is_renumbered :
  ~ (forall (now : date) (course_id : nat) (req : Request) (db : Store)
            (u : User.t) (student : StudentProfile.t) (c : Certificate.t),
       certificates_wf (certificates db) ->
       user req = Some u ->
       StudentProfile.of_user (students db) (User.id u) = Some student ->
       In c (certificates db) ->
       Certificate.for_pair (StudentProfile.id student) course_id c = true ->
       exists c', In c' (certificates (store (generate_certificate now course_id req db)))
                  /\ Certificate.id c' = Certificate.id c
                  /\ Certificate.certificate_number c' = Certificate.certificate_number c
                  /\ Certificate.issue_date c' = Certificate.issue_date c).
Proof.
  intros H.
  destruct (H day1 2 as_s1 (store (generate_certificate day0 2 as_s1 scenario_second_course))
              account_s1 (profile_of 1 "S1" true [1; 2])
              {| Certificate.id := 2; Certificate.student := 1; Certificate.course := 2;
                 Certificate.issue_date := day0; Certificate.certificate_number := "";
                 Certificate.pdf_file := None |})
    as [c' [Hin [Hid [Hnum _]]]].
  - vm_compute. repeat split; nodup_concrete.
  - reflexivity.
  - reflexivity.
  - vm_compute. right. left. reflexivity.
  - reflexivity.
  - vm_compute in Hin. destruct Hin as [<- | [<- | []]]; simpl in *; discriminate.
Qed.

(** ** Eligibility as the handler decides it *)

(** While none of the student's completion rows is flagged, a course with a
    published module is refused, whatever the administrator's flags say. *)
Lemma unflagged_rows_never_suffice
  (now : date) (course_id : nat) (req : Request) (db : Store)
  (u : User.t) (student : StudentProfile.t) (course : Course.t) :
  user req = Some u ->
  StudentProfile.of_user (students db) (User.id u) = Some student ->
  Course.get (courses db) course_id = Some course ->
  StudentProfile.enrolled student (Course.id course) = true ->
  (forall r, In r (completions db) -> ModuleCompletion.completed r = false) ->
  0 < total_modules db course ->
  response (generate_certificate now course_id req db)
  = Redirect "course_detail" (Some (Course.id course)).
Proof.
  intros Hu Hs Hc He Hnone Hpos.
  assert (Hzero : completed_modules db student course = 0).
  { unfold completed_modules.
    match goal with |- length (filter ?f _) = 0 =>
      assert (Hf : filter f (completions db) = []) end.
    { apply existsb_false_filter.
      destruct (existsb _ (completions db)) eqn:Hex; [|reflexivity].
      apply existsb_exists in Hex. destruct Hex as [r [Hin Hr]].
      rewrite (Hnone r Hin), andb_false_r in Hr. discriminate. }
    rewrite Hf. reflexivity. }
  unfold generate_certificate, login_required, with_student, reply.
  rewrite Hu, Hs, Hc, He. simpl. rewrite Hzero.
  apply Nat.ltb_lt in Hpos. rewrite Hpos. reflexivity.
Qed.

(** C1: the handler at two inputs where it parts from the stated rule.  In
    the scenario every published module of the course is flagged
    [admin_completed] and there are two of them, and the enrolled student
    is refused; for the course without modules, where the rule refuses,
    the certificate is issued. *)
Theorem generation_ignores_admin_completed :
  spec_eligible scenario 1 = true
  /\ generate_certificate day0 1 as_s1 scenario
     = {| response := Redirect "course_detail" (Some 1);
          flash := [(ERROR, "You must complete all modules before getting a certificate.")];
          session := Some 1;
          store := scenario |}
  /\ spec_eligible scenario_no_modules 1 = false
  /\ is_pdf (response (generate_certificate day0 1 as_s1 scenario_no_modules)) = true
  /\ map identity (certificates (store (generate_certificate day0 1 as_s1 scenario_no_modules)))
     = [(1, 1, 1, day0, "NCC-2026-S1")].
Proof. vm_compute. repeat split. Qed.

(** ** The completed-module figures of the pages *)

(** C2: the figures of the profile page and of the dashboard at two inputs
    where they part from the tracker's definition.  In the scenario two
    modules are published and flagged [admin_completed], and the profile
    page reports 0 of 2; with one unpublished module flagged
    [admin_completed] the tracker counts 0 and the dashboard reports 1. *)
Theorem page_figures_differ_from_tracker :
  spec_completed_count scenario 1 = 2
  /\ spec_total_count scenario 1 = 2
  /\ response (student_profile None as_s1 scenario)
     = Render "student_profile.html" (ctx_student_profile student_s1 2 0 [])
  /\ response (dashboard as_s1 scenario)
     = Render "dashboard.html" (ctx_dashboard student_s1 [course_c1] 2)
  /\ spec_completed_count scenario_draft 1 = 0
  /\ response (dashboard as_s1 scenario_draft)
     = Render "dashboard.html" (ctx_dashboard student_s1 [course_c1] 1).
Proof. vm_compute. repeat split. Qed.

Lemma length_insert_by_order (m : Module_.t) (l : list Module_.t) :
  length (insert_by_order m l) = S (length l).
Proof.
  induction l as [|x l IH]; simpl; [reflexivity|].
  destruct (Module_.order m <? Module_.order x); simpl; [reflexivity|].
  rewrite IH. reflexivity.
Qed.

Lemma length_order_by_order (l : list Module_.t) :
  length (order_by_order l) = length l.
Proof.
  induction l as [|x l IH]; simpl; [reflexivity|].
  unfold order_by_order in *. simpl. rewrite length_insert_by_order, IH. reflexivity.
Qed.

Lemma filter_insert_by_order (f : Module_.t -> bool) (m : Module_.t) (l : list Module_.t) :
  length (filter f (insert_by_order m l)) = length (filter f (m :: l)).
Proof.
  induction l as [|x l IH]; simpl; [reflexivity|].
  destruct (Module_.order m <? Module_.order x); simpl; [reflexivity|].
  simpl in IH. destruct (f x); destruct (f m); simpl in *; rewrite IH; reflexivity.
Qed.

Lemma filter_order_by_order (f : Module_.t -> bool) (l : list Module_.t) :
  length (filter f (order_by_order l)) = length (filter f l).
Proof.
  induction l as [|x l IH]; simpl; [reflexivity|].
  unfold order_by_order in *. simpl. rewrite filter_insert_by_order. simpl.
  destruct (f x); simpl; rewrite IH; reflexivity.
Qed.

Lemma filter_twice {A : Type} (f g : A -> bool) (l : list A) :
  filter f (filter g l) = filter (fun x => g x && f x) l.
Proof.
  induction l as [|x l IH]; simpl; [reflexivity|].
  destruct (g x); simpl; [destruct (f x); rewrite IH; reflexivity | exact IH].
Qed.

(** The course page, unlike the profile page and the dashboard, counts as
    the tracker is defined: its module list has [spec_total_count] entries
    and its list of completed modules [spec_completed_count]. *)
Lemma course_detail_follows_tracker
  (course_id : nat) (req : Request) (db : Store)
  (u : User.t) (student : StudentProfile.t) (course : Course.t) :
  user req = Some u ->
  StudentProfile.of_user (students db) (User.id u) = Some student ->
  find (fun c => (Course.id c =? course_id) && Course.is_active c) (courses db) = Some course ->
  exists module_list ids resource_list enrolled certificate,
    response (course_detail course_id req db)
    = Render "course_detail.html"
        (ctx_course_detail course module_list ids resource_list enrolled certificate)
    /\ length module_list = spec_total_count db (Course.id course)
    /\ length ids = spec_completed_count db (Course.id course).
Proof.
  intros Hu Hs Hc. unfold course_detail. rewrite Hc, Hu, Hs. simpl.
  do 5 eexists. split; [reflexivity|]. split.
  - unfold spec_total_count. apply length_order_by_order.
  - unfold spec_completed_count. rewrite length_map, filter_order_by_order, filter_twice.
    reflexivity.
Qed.

(** * Beyond the listed claims: the handlers *)

(** ** Which routes write, and what the decorators answer *)

(** X1: the handlers of the pages that only show something (home, gallery,
    contact, branches, dashboard, both profile routes, course detail,
    resource download, announcements, course list) leave the tables of
    accounts, batches, student profiles, courses, modules, completions,
    resources and certificates and the stored files as they found them,
    whatever the request.  The routes set apart are registration, module
    view and certificate generation, which write those tables, and login
    and logout, which write the session and the account's last login. *)
Theorem display_routes_write_nothing
  (fw : Validators) (now : date) (route : Route) (req : Request) (db : Store) :
  writes route = false ->
  store (dispatch fw now route req db) = db.
Proof.
  intros Hw. destruct route; try discriminate Hw; simpl; try reflexivity.
  - unfold dashboard, login_required, with_student, reply. handler_cases.
  - unfold student_profile, login_required, with_student, profile_page, reply. handler_cases.
  - unfold student_profile, login_required, with_student, profile_page, reply. handler_cases.
  - unfold course_detail, reply. handler_cases.
  - unfold download_resource, login_required, with_student, reply. handler_cases.
  - unfold announcements, login_required, with_student, reply. handler_cases.
Qed.

Lemma display_routes_write_nothing_witness :
  store (dispatch lenient day0 (route_download_resource 1) as_s1 scenario) = scenario
  /\ store (dispatch lenient day0 route_dashboard as_s1 scenario) = scenario
  /\ store (dispatch lenient day0 (route_course_detail 1) as_s1 scenario) = scenario.
Proof.
  split; [|split].
  - exact (display_routes_write_nothing lenient day0 (route_download_resource 1) as_s1 scenario
             eq_refl).
  - exact (display_routes_write_nothing lenient day0 route_dashboard as_s1 scenario eq_refl).
  - exact (display_routes_write_nothing lenient day0 (route_course_detail 1) as_s1 scenario
             eq_refl).
Defined.

(** X2: a visitor who is not signed in gets the redirect to the login page
    from every protected route, with no message and nothing written,
    whatever the database holds. *)
Theorem anonymous_is_sent_to_login
  (fw : Validators) (now : date) (route : Route) (req : Request) (db : Store) :
  protected route = true ->
  user req = None ->
  dispatch fw now route req db = reply req db RedirectToLogin [].
Proof.
  intros Hp Hu. destruct route; try discriminate Hp; simpl;
    [ unfold dashboard | unfold student_profile | unfold student_profile
    | unfold module_detail | unfold download_resource | unfold generate_certificate
    | unfold announcements ];
    unfold login_required; rewrite Hu; reflexivity.
Qed.

Lemma anonymous_is_sent_to_login_witness :
  dispatch lenient day0 (route_generate_certificate 1) (anonymous_post []) scenario_flagged
  = reply (anonymous_post []) scenario_flagged RedirectToLogin [].
Proof.
  exact (anonymous_is_sent_to_login lenient day0 (route_generate_certificate 1)
           (anonymous_post []) scenario_flagged eq_refl eq_refl).
Defined.

(** X3: an account without a student profile, a staff account for one, is
    sent home with the message that the profile was not found by every
    student page, and nothing is written. *)
Theorem account_without_profile_is_sent_home
  (fw : Validators) (now : date) (route : Route) (req : Request) (db : Store) (u : User.t) :
  needs_own_profile route = true ->
  user req = Some u ->
  StudentProfile.of_user (students db) (User.id u) = None ->
  dispatch fw now route req db
  = reply req db (Redirect "home" None) [(ERROR, "Student profile not found.")].
Proof.
  intros Hp Hu Hs. destruct route; try discriminate Hp; simpl;
    [ unfold dashboard | unfold student_profile | unfold module_detail
    | unfold download_resource | unfold generate_certificate | unfold announcements ];
    unfold login_required, with_student; rewrite Hu, Hs; reflexivity.
Qed.

Lemma account_without_profile_is_sent_home_witness :
  dispatch lenient day0 route_dashboard
    {| user := Some account_s2; method := GET; POST := []; FILES := [] |} scenario
  = reply {| user := Some account_s2; method := GET; POST := []; FILES := [] |} scenario
      (Redirect "home" None) [(ERROR, "Student profile not found.")].
Proof.
  exact (account_without_profile_is_sent_home lenient day0 route_dashboard
           {| user := Some account_s2; method := GET; POST := []; FILES := [] |} scenario
           account_s2 eq_refl eq_refl eq_refl).
Defined.

(** ** Signing in *)

(** X4: for a visitor who is not signed in, [student_login] opens a session
    for an account exactly when the request is a POST whose form is valid,
    [authenticate] accepts the credentials for that account, and the
    account has a verified student profile. *)
Theorem login_opens_session_exactly_when
  (req : Request) (db : Store) (uid : nat) :
  user req = None ->
  (session (student_login req db) = Some uid <->
   method req = POST_
   /\ authentication_form_valid (users db) (POST req) = true
   /\ exists account profile,
        authenticate (users db) (strip (field (POST req) "username")) (field (POST req) "password")
          = Some account
        /\ User.id account = uid
        /\ StudentProfile.of_user (students db) uid = Some profile
        /\ StudentProfile.is_verified profile = true).
Proof.
  intros Hu. unfold student_login, reply. rewrite Hu. split.
  - destruct (method req); [simpl; discriminate|].
    destruct (authentication_form_valid _ _); [|simpl; discriminate].
    destruct (authenticate _ _ _) as [a|]; [|simpl; discriminate].
    destruct (StudentProfile.of_user (students db) (User.id a)) as [p|] eqn:Hp;
      [|simpl; discriminate].
    destruct (StudentProfile.is_verified p) eqn:Hv; simpl; [|discriminate].
    intros H. injection H as <-. repeat split. exists a, p. auto.
  - intros [Hm [Hf [a [p [Ha [Hid [Hp Hv]]]]]]].
    rewrite Hm, Hf, Ha. subst uid. rewrite Hp, Hv. reflexivity.
Qed.

Lemma login_opens_session_exactly_when_witness :
  session (student_login (login_as "s1" "pw-s1") scenario) = Some 1
  /\ (session (student_login (login_as "s1" "wrong") scenario) = Some 1 -> False).
Proof.
  destruct (login_opens_session_exactly_when (login_as "s1" "pw-s1") scenario 1 eq_refl)
    as [_ H1].
  destruct (login_opens_session_exactly_when (login_as "s1" "wrong") scenario 1 eq_refl)
    as [H2 _].
  split.
  - apply H1. repeat split. exists account_s1, student_s1. repeat split.
  - intros H. destruct (H2 H) as [_ [Hf _]]. discriminate Hf.
Defined.

(** ** The module page and the download *)

(** X5: for a signed-in student, and a completion table that respects its
    uniqueness constraint, the module page is shown exactly when a
    published module of that id exists in a course the student is enrolled
    in; in every other case nothing is written, so no completion row is
    left for a module the student may not see. *)
Theorem module_page_only_for_enrolled
  (module_id : nat) (req : Request) (db : Store) (u : User.t) (student : StudentProfile.t) :
  ModuleCompletion.unique (completions db) ->
  user req = Some u ->
  StudentProfile.of_user (students db) (User.id u) = Some student ->
  (status_code (response (module_detail module_id req db)) = 200 <->
   exists m,
     find (fun m => (Module_.id m =? module_id) && Module_.is_published m) (modules db) = Some m
     /\ StudentProfile.enrolled student (Module_.course m) = true)
  /\ (status_code (response (module_detail module_id req db)) <> 200 ->
      store (module_detail module_id req db) = db).
Proof.
  intros Huniq Hu Hs. unfold module_detail, login_required, with_student, reply.
  rewrite Hu, Hs.
  destruct (find _ (modules db)) as [m|] eqn:Hm; simpl.
  - destruct (StudentProfile.enrolled student (Module_.course m)) eqn:He; simpl.
    + destruct (completion_get_or_create_cases (StudentProfile.id student) (Module_.id m)
                  (completions db) Huniq) as [[r [_ Hg]] | [_ Hg]]; rewrite Hg; simpl.
      * split; [split; [intros _; exists m; auto | reflexivity] | intros H; congruence].
      * split; [split; [intros _; exists m; auto | reflexivity] | intros H; congruence].
    + split; [|reflexivity]. split; [discriminate|].
      intros [m' [Hm' He']]. injection Hm' as <-. congruence.
  - split; [|reflexivity]. split; [discriminate|]. intros [m' [Hm' _]]. discriminate.
Qed.

Lemma module_page_only_for_enrolled_witness :
  status_code (response (module_detail 1 as_s1 scenario_unviewed)) = 200
  /\ store (module_detail 7 as_s1 scenario_unviewed) = scenario_unviewed.
Proof.
  assert (Huniq : ModuleCompletion.unique (completions scenario_unviewed))
    by (intros s m; simpl; lia).
  destruct (module_page_only_for_enrolled 1 as_s1 scenario_unviewed account_s1 student_s1
              Huniq eq_refl eq_refl) as [[_ H1] _].
  destruct (module_page_only_for_enrolled 7 as_s1 scenario_unviewed account_s1 student_s1
              Huniq eq_refl eq_refl) as [_ H2].
  split.
  - apply H1. exists (module_of 1 1 true true). split; reflexivity.
  - apply H2. discriminate.
Defined.

Lemma no_slash_app (a b : string) :
  no_slash (a ++ b)%string = no_slash a && no_slash b.
Proof.
  induction a as [|c a IH]; simpl; [reflexivity|].
  rewrite IH. apply andb_assoc.
Qed.

Lemma last_segment_no_slash (s acc : string) :
  no_slash acc = true -> no_slash (last_segment acc s) = true.
Proof.
  revert acc. induction s as [|c s IH]; simpl; intros acc Hacc; [exact Hacc|].
  destruct (Ascii.eqb c "/"%char) eqn:E.
  - apply IH. reflexivity.
  - apply IH. rewrite no_slash_app, Hacc. simpl. rewrite E. reflexivity.
Qed.

(** X6: for an enrolled student and an active resource, the download is
    the stored file, served under the last segment of its path, a name
    without a slash; when the storage has no such file the student is sent
    back to the course page with an error message instead.  Nothing is
    written either way. *)
Theorem download_serves_stored_file
  (resource_id : nat) (req : Request) (db : Store)
  (u : User.t) (student : StudentProfile.t) (resource : Resource.t) :
  user req = Some u ->
  StudentProfile.of_user (students db) (User.id u) = Some student ->
  find (fun r => (Resource.id r =? resource_id) && Resource.is_active r) (resources db)
    = Some resource ->
  StudentProfile.enrolled student (Resource.course resource) = true ->
  match storage_open db (Resource.file resource) with
  | Some data =>
      download_resource resource_id req db
      = reply req db (FileResponse (last_segment "" (Resource.file resource)) data) []
      /\ no_slash (last_segment "" (Resource.file resource)) = true
  | None =>
      download_resource resource_id req db
      = reply req db (Redirect "course_detail" (Some (Resource.course resource)))
          [(ERROR, "Error downloading file.")]
  end.
Proof.
  intros Hu Hs Hr He. unfold download_resource, login_required, with_student.
  rewrite Hu, Hs, Hr, He. simpl.
  destruct (storage_open db (Resource.file resource)); [|reflexivity].
  split; [reflexivity|]. apply last_segment_no_slash. reflexivity.
Qed.

Lemma download_serves_stored_file_witness :
  download_resource 1 as_s1 scenario
  = reply as_s1 scenario (FileResponse "handout.pdf" (Bytes "%PDF")) [].
Proof.
  exact (proj1 (download_serves_stored_file 1 as_s1 scenario account_s1 student_s1
                  (handout 1 1 true) eq_refl eq_refl eq_refl eq_refl)).
Defined.

(** ** The profile page *)

(** X7: an account that is not staff is never shown the profile page of
    another student: whatever [profile_id] it asks for, a page that is
    rendered is the page of its own profile.  A staff account that asks for
    an existing profile gets that profile's page. *)
Theorem profile_page_is_own_unless_staff
  (profile_id : option nat) (req : Request) (db : Store) (u : User.t) :
  user req = Some u ->
  (User.is_staff u = false ->
   forall template s total done certs,
     response (student_profile profile_id req db)
     = Render template (ctx_student_profile s total done certs) ->
     StudentProfile.of_user (students db) (User.id u) = Some s)
  /\ (User.is_staff u = true ->
      forall k s, profile_id = Some (S k) ->
        StudentProfile.get (students db) (S k) = Some s ->
        student_profile profile_id req db = profile_page s req db).
Proof.
  intros Hu. unfold student_profile, login_required, with_student. rewrite Hu. split.
  - intros Hstaff template s total done certs.
    destruct profile_id as [[|k]|]; try rewrite Hstaff; simpl;
      try (destruct (StudentProfile.of_user _ _) as [own|] eqn:Hown; simpl;
           [intros H; injection H as _ <- _ _ _; reflexivity | discriminate]).
    discriminate.
  - intros Hstaff k s -> Hget. rewrite Hstaff, Hget. reflexivity.
Qed.

Lemma profile_page_is_own_unless_staff_witness :
  StudentProfile.of_user (students scenario_pending) 1 = Some student_s1.
Proof.
  exact (proj1 (profile_page_is_own_unless_staff (Some 0) as_s1 scenario_pending account_s1
                  eq_refl) eq_refl "student_profile.html" student_s1 2 0 [] eq_refl).
Defined.

(** ** The course page *)

(** X8: the course page answers 404 exactly when no active course has the
    id, so an inactive course is hidden even from its students; for a
    visitor who is not signed in the page marks no module completed, says
    not enrolled and links no certificate.  The modules it lists are
    published modules of the course and every module it marks completed is
    among them. *)
Theorem course_page_visibility
  (course_id : nat) (req : Request) (db : Store) :
  (status_code (response (course_detail course_id req db)) = 404 <->
   forall c, In c (courses db) -> Course.id c = course_id -> Course.is_active c = false)
  /\ (forall template course ms ids rs enrolled cert,
        response (course_detail course_id req db)
        = Render template (ctx_course_detail course ms ids rs enrolled cert) ->
        (forall m, In m ms ->
           In m (modules db) /\ Module_.course m = Course.id course
           /\ Module_.is_published m = true)
        /\ incl ids (map Module_.id ms)
        /\ (user req = None -> ids = [] /\ enrolled = false /\ cert = None)).
Proof.
  unfold course_detail, reply.
  destruct (find _ (courses db)) as [course|] eqn:Hc; simpl.
  - split.
    + split; [discriminate|]. intros Hnone. exfalso.
      apply find_some in Hc. destruct Hc as [Hin Hc].
      apply andb_true_iff in Hc. destruct Hc as [Hid Hact]. apply Nat.eqb_eq in Hid.
      rewrite (Hnone course Hin Hid) in Hact. discriminate.
    + intros template c ms ids rs enrolled cert H. injection H as _ <- <- <- _ <- <-.
      split; [|split].
      * intros m Hm.
        assert (Hin : In m (filter (fun m => (Module_.course m =? Course.id course)
                                             && Module_.is_published m) (modules db))).
        { clear - Hm. unfold order_by_order in Hm.
          induction (filter _ (modules db)) as [|x l IH]; simpl in Hm; [destruct Hm|].
          assert (Hins : forall y l', In m (insert_by_order y l') -> m = y \/ In m l').
          { clear. intros y l'. induction l' as [|z l' IH]; simpl.
            - intros [<- | []]. left. reflexivity.
            - destruct (Module_.order y <? Module_.order z); simpl.
              + intros [<- | [<- | H]]; auto.
              + intros [<- | H]; auto. destruct (IH H); auto. }
          destruct (Hins _ _ Hm) as [-> | Hm']; [left; reflexivity | right; auto]. }
        apply filter_In in Hin. destruct Hin as [Hin Hp].
        apply andb_true_iff in Hp. destruct Hp as [Hcid Hpub]. apply Nat.eqb_eq in Hcid. auto.
      * destruct (match user req with
                  | Some u0 => StudentProfile.of_user (students db) (User.id u0)
                  | None => None
                  end); [|intros x []].
        intros x Hx. apply in_map_iff in Hx. destruct Hx as [m [<- Hm]].
        apply filter_In in Hm. apply in_map. exact (proj1 Hm).
      * intros Hu. rewrite Hu. auto.
  - split; [|intros; discriminate].
    split; [|reflexivity]. intros _ c Hin Hid.
    pose proof (find_none _ _ Hc c Hin) as Hn. simpl in Hn.
    rewrite Hid, Nat.eqb_refl in Hn. exact Hn.
Qed.

Lemma course_page_visibility_witness :
  status_code (response (course_detail 9 as_s1 scenario)) = 404.
Proof.
  apply (proj1 (course_page_visibility 9 as_s1 scenario)).
  intros c [<- | [<- | []]]; discriminate.
Defined.

(** * Beyond the listed claims: issuing certificates *)

Lemma existsb_none {A : Type} (f : A -> bool) (l : list A) :
  (forall x, In x l -> f x = false) -> existsb f l = false.
Proof.
  induction l as [|x l IH]; simpl; intros H; [reflexivity|].
  rewrite (H x (or_introl eq_refl)). apply IH. intros y Hy. apply H. right. exact Hy.
Qed.

(** Writing back the last row of a table whose other rows have other keys,
    other numbers and other pairs. *)
Lemma save_last (rows : list Certificate.t) (r c : Certificate.t) :
  Certificate.id c = Certificate.id r ->
  (forall x, In x rows ->
     Certificate.id x <> Certificate.id r
     /\ Certificate.certificate_number x <> Certificate.certificate_number c
     /\ Certificate.for_pair (Certificate.student c) (Certificate.course c) x = false) ->
  Certificate.save c (rows ++ [r]) = inr (rows ++ [c]).
Proof.
  intros Hid Hrows. unfold Certificate.save.
  assert (Hno : existsb (Certificate.clashes c) (rows ++ [r]) = false).
  { apply existsb_none. intros x Hx. unfold Certificate.clashes.
    apply in_app_or in Hx. destruct Hx as [Hx | [<- | []]].
    - destruct (Hrows x Hx) as [_ [Hn Hp]]. rewrite Hp, orb_false_r.
      destruct (String.eqb _ _) eqn:E; [|apply andb_false_r].
      apply String.eqb_eq in E. congruence.
    - rewrite Hid, Nat.eqb_refl. reflexivity. }
  rewrite Hno. f_equal. rewrite map_app. simpl. rewrite Hid, Nat.eqb_refl. f_equal.
  rewrite <- (map_id rows) at 2. apply map_ext_in. intros x Hx.
  destruct (Hrows x Hx) as [Hne _]. apply Nat.eqb_neq in Hne. rewrite Hne. reflexivity.
Qed.

Lemma fresh_id_differs (rows : list Certificate.t) (x : Certificate.t) :
  In x rows -> Certificate.id x <> next_id (map Certificate.id rows).
Proof.
  intros Hx E. pose proof (next_id_above _ _ (in_map Certificate.id rows x Hx)). lia.
Qed.

(** How [issue_certificate] starts on a table that has no row for the pair
    and no row without a number: the unnumbered row is appended and the
    number of the student and the year is about to be written. *)
Lemma issue_certificate_fresh (now : date) (u : User.t) (student : StudentProfile.t)
  (course : Course.t) (req : Request) (db : Store) :
  NoDup (map StudentProfile.id (students db)) ->
  In student (students db) ->
  (forall c, In c (certificates db) ->
     Certificate.for_pair (StudentProfile.id student) (Course.id course) c = false
     /\ truthy (Certificate.certificate_number c) = true) ->
  Certificate.get_or_create now (StudentProfile.id student) (Course.id course) (certificates db)
  = inr (unnumbered_row now (certificates db) student course, true,
         certificates db ++ [unnumbered_row now (certificates db) student course])
  /\ Certificate.generate_certificate_number now (students db)
       (unnumbered_row now (certificates db) student course)
     = inr (number_for now student).
Proof.
  intros Hpk Hin Hrows. split.
  - unfold Certificate.get_or_create, Certificate.create.
    rewrite (existsb_false_filter _ _ (existsb_none _ _ (fun c Hc => proj1 (Hrows c Hc)))).
    fold (unnumbered_row now (certificates db) student course).
    rewrite existsb_none; [reflexivity|].
    intros x Hx. unfold Certificate.clashes. simpl.
    destruct (Hrows x Hx) as [Hp Ht]. rewrite Hp, orb_false_r.
    unfold truthy in Ht. apply negb_true_iff in Ht. rewrite Ht. apply andb_false_r.
  - unfold Certificate.generate_certificate_number. simpl.
    rewrite (profile_by_pk _ _ Hpk Hin). reflexivity.
Qed.

(** The outcome of a first generation that succeeds, written out. *)
Lemma first_generation_outcome
  (now : date) (course_id : nat) (req : Request) (db : Store)
  (u : User.t) (student : StudentProfile.t) (course : Course.t) :
  NoDup (map StudentProfile.id (students db)) ->
  user req = Some u ->
  StudentProfile.of_user (students db) (User.id u) = Some student ->
  Course.get (courses db) course_id = Some course ->
  StudentProfile.enrolled student (Course.id course) = true ->
  total_modules db course <= completed_modules db student course ->
  (forall c, In c (certificates db) ->
     Certificate.for_pair (StudentProfile.id student) (Course.id course) c = false
     /\ truthy (Certificate.certificate_number c) = true
     /\ Certificate.certificate_number c <> number_for now student) ->
  generate_certificate now course_id req db
  = reply req
      (set_certificates
         (storage_save db ("certificates/certificate_" ++ number_for now student ++ ".pdf")%string
            (PdfData (certificate_lines u student course
                        (issued_row now (certificates db) student course))))
         (certificates db ++ [issued_row now (certificates db) student course]))
      (PdfResponse ("certificate_" ++ number_for now student ++ ".pdf")%string
         (certificate_lines u student course (issued_row now (certificates db) student course)))
      [(SUCCESS, "Certificate generated successfully!")].
Proof.
  intros Hpk Hu Hs Hc He Hle Hrows.
  assert (Hin : In student (students db)).
  { unfold StudentProfile.of_user in Hs. apply find_some in Hs. exact (proj1 Hs). }
  destruct (issue_certificate_fresh now u student course req db Hpk Hin
              (fun c Hc => conj (proj1 (Hrows c Hc)) (proj1 (proj2 (Hrows c Hc)))))
    as [Hg Hn].
  unfold generate_certificate, login_required, with_student.
  rewrite Hu, Hs, Hc, He. simpl.
  apply Nat.ltb_ge in Hle. rewrite Hle.
  unfold issue_certificate. rewrite Hg.
  unfold assign_number. simpl certificates. simpl students.
  change (truthy (Certificate.certificate_number
                    (unnumbered_row now (certificates db) student course))) with false.
  simpl negb. cbv iota. rewrite Hn.
  rewrite (save_last (certificates db) (unnumbered_row now (certificates db) student course)
             (Certificate.with_number (unnumbered_row now (certificates db) student course)
                (number_for now student)) eq_refl).
  2:{ intros x Hx. destruct (Hrows x Hx) as [Hp [_ Hne]].
      split; [exact (fresh_id_differs _ _ Hx)|]. split; [exact Hne | exact Hp]. }
  cbv zeta. simpl certificates.
  erewrite save_last; [reflexivity | reflexivity |].
  intros x Hx. destruct (Hrows x Hx) as [Hp [_ Hne]].
  split; [exact (fresh_id_differs _ _ Hx)|]. split; [exact Hne | exact Hp].
Qed.

(** X9: a first generation that succeeds.  When the request passes the
    handler's checks, the table has no row for the pair and no unnumbered
    row, and no row holds the number of this student and year, the answer
    is the PDF offered under the name [certificate_<number>.pdf], exactly
    one row is appended, carrying the next primary key, the student, the
    course, the day of the request and the number, and the other tables
    are untouched. *)
Theorem first_generation_appends_one_row
  (now : date) (course_id : nat) (req : Request) (db : Store)
  (u : User.t) (student : StudentProfile.t) (course : Course.t) :
  NoDup (map StudentProfile.id (students db)) ->
  user req = Some u ->
  StudentProfile.of_user (students db) (User.id u) = Some student ->
  Course.get (courses db) course_id = Some course ->
  StudentProfile.enrolled student (Course.id course) = true ->
  total_modules db course <= completed_modules db student course ->
  (forall c, In c (certificates db) ->
     Certificate.for_pair (StudentProfile.id student) (Course.id course) c = false
     /\ truthy (Certificate.certificate_number c) = true
     /\ Certificate.certificate_number c <> number_for now student) ->
  (exists lines,
     response (generate_certificate now course_id req db)
     = PdfResponse ("certificate_" ++ number_for now student ++ ".pdf")%string lines
     /\ In ("Certificate No: " ++ number_for now student)%string lines)
  /\ map identity (certificates (store (generate_certificate now course_id req db)))
     = map identity (certificates db)
       ++ [(next_id (map Certificate.id (certificates db)), StudentProfile.id student,
            Course.id course, now, number_for now student)]
  /\ other_tables (store (generate_certificate now course_id req db)) = other_tables db.
Proof.
  intros Hpk Hu Hs Hc He Hle Hrows.
  rewrite (first_generation_outcome now course_id req db u student course
             Hpk Hu Hs Hc He Hle Hrows).
  split; [|split].
  - eexists. split; [reflexivity|]. simpl. do 7 right. left. reflexivity.
  - simpl. rewrite map_app. reflexivity.
  - reflexivity.
Qed.

Lemma first_generation_appends_one_row_witness :
  map identity (certificates (store (generate_certificate day0 1 as_s1 scenario_flagged)))
  = [(1, 1, 1, day0, "NCC-2026-S1")].
Proof.
  destruct (first_generation_appends_one_row day0 1 as_s1 scenario_flagged
              account_s1 student_s1 course_c1) as [_ [H _]].
  - nodup_concrete.
  - reflexivity.
  - reflexivity.
  - reflexivity.
  - reflexivity.
  - vm_compute. lia.
  - intros c [].
  - exact H.
Defined.

(** X10: the number names the student and the year but not the course.
    When the request passes the handler's checks and the table has no row
    for the pair and no unnumbered row, but some row already holds the
    number of this student and year, the row is inserted, numbering it
    fails on the uniqueness of the number, the answer is a server error,
    and the unnumbered row stays in the table; no file is stored. *)
Theorem number_clash_leaves_unnumbered_row
  (now : date) (course_id : nat) (req : Request) (db : Store)
  (u : User.t) (student : StudentProfile.t) (course : Course.t) (holder : Certificate.t) :
  NoDup (map StudentProfile.id (students db)) ->
  user req = Some u ->
  StudentProfile.of_user (students db) (User.id u) = Some student ->
  Course.get (courses db) course_id = Some course ->
  StudentProfile.enrolled student (Course.id course) = true ->
  total_modules db course <= completed_modules db student course ->
  (forall c, In c (certificates db) ->
     Certificate.for_pair (StudentProfile.id student) (Course.id course) c = false
     /\ truthy (Certificate.certificate_number c) = true) ->
  In holder (certificates db) ->
  Certificate.certificate_number holder = number_for now student ->
  generate_certificate now course_id req db
  = reply req
      (set_certificates db
         (certificates db ++ [unnumbered_row now (certificates db) student course]))
      (ServerError IntegrityError) [].
Proof.
  intros Hpk Hu Hs Hc He Hle Hrows Hholder Hnum.
  assert (Hin : In student (students db)).
  { unfold StudentProfile.of_user in Hs. apply find_some in Hs. exact (proj1 Hs). }
  destruct (issue_certificate_fresh now u student course req db Hpk Hin Hrows) as [Hg Hn].
  unfold generate_certificate, login_required, with_student.
  rewrite Hu, Hs, Hc, He. simpl.
  apply Nat.ltb_ge in Hle. rewrite Hle.
  unfold issue_certificate. rewrite Hg.
  unfold assign_number. simpl certificates. simpl students.
  change (truthy (Certificate.certificate_number
                    (unnumbered_row now (certificates db) student course))) with false.
  simpl negb. cbv iota. rewrite Hn.
  unfold Certificate.save.
  assert (Hex : existsb (Certificate.clashes
                           (Certificate.with_number
                              (unnumbered_row now (certificates db) student course)
                              (number_for now student)))
                  (certificates db ++ [unnumbered_row now (certificates db) student course])
                = true).
  { apply existsb_exists. exists holder. split; [apply in_or_app; left; exact Hholder|].
    unfold Certificate.clashes. simpl.
    pose proof (fresh_id_differs _ _ Hholder) as Hne. apply Nat.eqb_neq in Hne.
    rewrite Hne, Hnum, String.eqb_refl. reflexivity. }
  rewrite Hex. reflexivity.
Qed.

Lemma number_clash_leaves_unnumbered_row_witness :
  response (generate_certificate day0 2 as_s1 scenario_second_course)
  = ServerError IntegrityError.
Proof.
  rewrite (number_clash_leaves_unnumbered_row day0 2 as_s1 scenario_second_course
             account_s1 (profile_of 1 "S1" true [1; 2])
             {| Course.id := 2; Course.title := "C2"; Course.description := "";
                Course.is_active := true |}
             {| Certificate.id := 1; Certificate.student := 1; Certificate.course := 1;
                Certificate.issue_date := day0; Certificate.certificate_number := "NCC-2026-S1";
                Certificate.pdf_file := Some "certificates/certificate_NCC-2026-S1.pdf" |}).
  - reflexivity.
  - nodup_concrete.
  - reflexivity.
  - reflexivity.
  - reflexivity.
  - reflexivity.
  - vm_compute. lia.
  - intros c [<- | []]. split; reflexivity.
  - left. reflexivity.
  - reflexivity.
Defined.

(** X11: what is sent is what is stored.  After any generation that
    succeeds on a table respecting its constraints, the table holds exactly
    one row for the pair of the requesting student and the requested course;
    the download is offered under the name [certificate_<number>.pdf] for
    the number of that row, the row names a stored file, opening that file
    gives the page that was sent, and the page carries the row's number and
    date of issue. *)
Theorem stored_certificate_is_the_one_sent
  (now : date) (course_id : nat) (req : Request) (db : Store)
  (name : string) (lines : list string) :
  certificates_wf (certificates db) ->
  response (generate_certificate now course_id req db) = PdfResponse name lines ->
  exists u student cert path,
    user req = Some u
    /\ StudentProfile.of_user (students db) (User.id u) = Some student
    /\ In cert (certificates (store (generate_certificate now course_id req db)))
    /\ Certificate.student cert = StudentProfile.id student
    /\ Certificate.course cert = course_id
    /\ filter (Certificate.for_pair (StudentProfile.id student) course_id)
         (certificates (store (generate_certificate now course_id req db))) = [cert]
    /\ name = ("certificate_" ++ Certificate.certificate_number cert ++ ".pdf")%string
    /\ Certificate.pdf_file cert = Some path
    /\ storage_open (store (generate_certificate now course_id req db)) path
       = Some (PdfData lines)
    /\ In ("Certificate No: " ++ Certificate.certificate_number cert)%string lines
    /\ In ("Date of Issue: " ++ strftime_B_d_Y (Certificate.issue_date cert))%string lines.
Proof.
  intros Hwf Hresp.
  assert (Hpdf : is_pdf (response (generate_certificate now course_id req db)) = true)
    by (rewrite Hresp; reflexivity).
  destruct (generate_certificate_gates _ _ _ _ Hpdf)
    as [u [student [course [Hu [Hs [Hc [He [Hlt Heq]]]]]]]].
  assert (Hcid : Course.id course = course_id).
  { unfold Course.get in Hc. apply find_some in Hc. apply Nat.eqb_eq. exact (proj2 Hc). }
  rewrite Heq in Hresp |- *. clear Heq Hpdf.
  unfold issue_certificate in *.
  destruct (Certificate.get_or_create _ _ _ _) as [e|[[cert created] rows]] eqn:Hg;
    [discriminate|].
  destruct (certificate_get_or_create_cases _ _ _ _ _ _ _ Hwf Hg) as [Hwf1 [Hin1 [Hp1 _]]].
  destruct (for_pair_fields _ _ _ Hp1) as [Hps Hpc].
  destruct (assign_number now (set_certificates db rows) cert) as [[e db1]|[cert' db1]] eqn:Ha;
    [discriminate|].
  destruct (assign_number_cases now (set_certificates db rows) db1 cert cert' Hwf1 Hin1 Ha)
    as [Hwf2 [Hin2 [_ [_ [Hst [Hco _]]]]]].
  destruct (save_pdf_file (certificates db1) cert'
              (Some ("certificates/certificate_" ++ Certificate.certificate_number cert' ++ ".pdf")%string)
              Hwf2 Hin2) as [rows' [Hsave [_ Hin3]]].
  pose proof (filter_for_pair rows' _ (proj2 (proj2 (save_wf _ _ _ Hwf2 Hsave))) Hin3) as Hone.
  cbn [Certificate.student Certificate.course Certificate.with_pdf_file] in Hone.
  rewrite Hst, Hco, Hps, Hpc, Hcid in Hone.
  simpl in Hsave, Hresp |- *. rewrite Hsave in Hresp |- *. simpl in Hresp |- *.
  injection Hresp as <- <-.
  exists u, student. do 2 eexists.
  split; [exact Hu|]. split; [exact Hs|].
  split; [exact Hin3|]. simpl.
  split; [rewrite Hst; exact Hps|].
  split; [rewrite Hco, Hpc; exact Hcid|].
  split; [exact Hone|].
  split; [reflexivity|]. split; [reflexivity|].
  split; [unfold storage_open; simpl; rewrite String.eqb_refl; reflexivity|].
  unfold certificate_lines. simpl. split.
  - do 7 right. left. reflexivity.
  - do 6 right. left. reflexivity.
Qed.

Lemma stored_certificate_is_the_one_sent_witness :
  exists cert path,
    filter (Certificate.for_pair 1 1)
      (certificates (store (generate_certificate day0 1 as_s1 scenario_flagged))) = [cert]
    /\ Certificate.pdf_file cert = Some path
    /\ storage_open (store (generate_certificate day0 1 as_s1 scenario_flagged)) path
       = Some (PdfData (certificate_lines account_s1 student_s1 course_c1
                          (issued_row day0 [] student_s1 course_c1))).
Proof.
  destruct (stored_certificate_is_the_one_sent day0 1 as_s1 scenario_flagged
              "certificate_NCC-2026-S1.pdf"
              (certificate_lines account_s1 student_s1 course_c1
                 (issued_row day0 [] student_s1 course_c1))
              scenario_flagged_certificates_wf eq_refl)
    as [u [student [cert [path [Hu [Hs [_ [_ [_ [H1 [_ [H2 [H3 _]]]]]]]]]]]]].
  injection Hu as <-. injection Hs as <-.
  exists cert, path. auto.
Defined.

(** ** When two numbers coincide *)





(** * Beyond the listed claims: registration, verification and login *)

Lemma find_app_none {A : Type} (f : A -> bool) (l l' : list A) :
  find f l = None -> find f (l ++ l') = find f l'.
Proof.
  induction l as [|x l IH]; simpl; [reflexivity|].
  destruct (f x); [discriminate | exact IH].
Qed.

Lemma find_none_all {A : Type} (f : A -> bool) (l : list A) :
  (forall x, In x l -> f x = false) -> find f l = None.
Proof.
  induction l as [|x l IH]; simpl; intros H; [reflexivity|].
  rewrite (H x (or_introl eq_refl)). apply IH. intros y Hy. apply H. right. exact Hy.
Qed.

Lemma valid_form_parts (fw : Validators) (db : Store) (req : Request) :
  is_valid fw db req = true ->
  email_errors fw db (POST req) = [] /\ student_id_errors db (POST req) = [].
Proof.
  unfold is_valid. destruct (form_errors fw db req) eqn:E; [|discriminate].
  intros _. unfold form_errors in E.
  repeat match type of E with
         | (_ ++ _) = [] => apply app_eq_nil in E; destruct E as [? E]
         end.
  auto.
Qed.

Lemma student_id_is_free (db : Store) (data : list (string * string)) :
  student_id_errors db data = [] ->
  existsb (fun p => String.eqb (StudentProfile.student_id p) (strip (field data "student_id")))
    (students db) = false.
Proof.
  unfold student_id_errors, char_field, clean_student_id.
  destruct (String.eqb (strip (field data "student_id")) ""); [discriminate|].
  destruct (20 <? _); [discriminate|].
  destruct (existsb _ (students db)); [discriminate | reflexivity].
Qed.

Lemma email_is_clean (fw : Validators) (db : Store) (data : list (string * string)) :
  email_errors fw db data = [] ->
  exists e, clean_email (users db) (strip (field data "email")) = inr e
            /\ (truthy e = true -> forall u, In u (users db) -> iexact (User.email u) e = false).
Proof.
  unfold email_errors.
  destruct (truthy (strip (field data "email")) && negb _); [discriminate|].
  unfold clean_email.
  destruct (negb (truthy (strip (field data "email")))).
  - intros _. exists "". split; [reflexivity | discriminate].
  - destruct (existsb _ (users db)) eqn:Hex; [discriminate|].
    intros _. eexists. split; [reflexivity|]. intros _ u Hu.
    destruct (iexact (User.email u) _) eqn:Hi; [|reflexivity].
    assert (existsb (fun u0 => iexact (User.email u0)
                                 (strip (lower (strip (field data "email"))))) (users db) = true)
      by (apply existsb_exists; exists u; auto).
    congruence.
Qed.

(** What [form_save] leaves when the form is valid, the username is free
    and every profile has its account. *)
Lemma form_save_appends (fw : Validators) (today : date) (db : Store) (req : Request) :
  is_valid fw db req = true ->
  (forall a, In a (users db) -> User.username a <> strip (field (POST req) "username")) ->
  profiles_have_accounts db ->
  exists db', form_save fw today db req = (None, db')
              /\ users db' = users db ++ [registered_account db req]
              /\ students db' = students db ++ [registered_profile fw today db req]
              /\ courses db' = courses db /\ modules db' = modules db
              /\ completions db' = completions db /\ certificates db' = certificates db.
Proof.
  intros Hv Hname Hfk.
  destruct (valid_form_parts _ _ _ Hv) as [_ Hsid]. apply student_id_is_free in Hsid.
  unfold form_save, User.create. fold (registered_account db req).
  rewrite existsb_none.
  2:{ intros a Ha. simpl. apply String.eqb_neq. exact (Hname a Ha). }
  unfold StudentProfile.create. fold (registered_profile fw today db req).
  rewrite existsb_none.
  2:{ intros p Hp. simpl. apply orb_false_iff. split.
      - destruct (String.eqb _ _) eqn:E; [|reflexivity].
        assert (existsb (fun q => String.eqb (StudentProfile.student_id q)
                                    (strip (field (POST req) "student_id")))
                  (students db) = true) by (apply existsb_exists; exists p; auto).
        congruence.
      - apply Nat.eqb_neq. pose proof (next_id_above _ _ (Hfk p Hp)). lia. }
  destruct (upload (FILES req) "profile_picture") as [[name content]|];
    eexists; repeat split.
Qed.

(** X13: a valid registration under a username that is free adds exactly
    one account and one profile, linked to each other, and redirects to the
    login page.  The account is active and not staff; the profile is not
    verified, has no verification time and is enrolled in no course.
    Courses, modules, completion rows and certificates are untouched. *)
Theorem valid_registration_adds_account_and_profile
  (fw : Validators) (today : date) (req : Request) (db : Store) :
  user req = None ->
  method req = POST_ ->
  is_valid fw db req = true ->
  (forall a, In a (users db) -> User.username a <> strip (field (POST req) "username")) ->
  profiles_have_accounts db ->
  response (student_register fw today req db) = Redirect "login" None
  /\ session (student_register fw today req db) = None
  /\ (exists account profile,
        users (store (student_register fw today req db)) = users db ++ [account]
        /\ students (store (student_register fw today req db)) = students db ++ [profile]
        /\ User.username account = strip (field (POST req) "username")
        /\ User.password account = field (POST req) "password1"
        /\ User.is_active account = true /\ User.is_staff account = false
        /\ StudentProfile.user profile = User.id account
        /\ StudentProfile.student_id profile = strip (field (POST req) "student_id")
        /\ StudentProfile.is_verified profile = false
        /\ StudentProfile.verified_at profile = None
        /\ StudentProfile.enrolled_courses profile = [])
  /\ courses (store (student_register fw today req db)) = courses db
  /\ modules (store (student_register fw today req db)) = modules db
  /\ completions (store (student_register fw today req db)) = completions db
  /\ certificates (store (student_register fw today req db)) = certificates db.
Proof.
  intros Hu Hm Hv Hname Hfk.
  destruct (form_save_appends fw today db req Hv Hname Hfk)
    as [db' [Hsave [Husers [Hstudents [H1 [H2 [H3 H4]]]]]]].
  unfold student_register, reply. rewrite Hu, Hm, Hv, Hsave. simpl.
  split; [reflexivity|]. split; [reflexivity|].
  split; [|auto].
  exists (registered_account db req), (registered_profile fw today db req).
  repeat split; assumption.
Qed.

Lemma scenario_profiles_have_accounts : profiles_have_accounts scenario.
Proof. intros p [<- | []]. left. reflexivity. Defined.

Lemma valid_registration_adds_account_and_profile_witness :
  response (student_register lenient day0 (registration "S9" "") scenario)
  = Redirect "login" None.
Proof.
  apply (valid_registration_adds_account_and_profile lenient day0 (registration "S9" "")
           scenario eq_refl eq_refl eq_refl).
  - intros a [<- | []]. discriminate.
  - exact scenario_profiles_have_accounts.
Defined.

(** The new account is the one [authenticate] finds for its credentials. *)
Lemma authenticate_registered (db : Store) (req : Request) :
  (forall a, In a (users db) -> User.username a <> strip (field (POST req) "username")) ->
  authenticate (users db ++ [registered_account db req])
    (strip (field (POST req) "username")) (field (POST req) "password1")
  = Some (registered_account db req).
Proof.
  intros Hname. unfold authenticate.
  rewrite find_app_none.
  2:{ apply find_none_all. intros a Ha. apply String.eqb_neq. exact (Hname a Ha). }
  simpl. rewrite !String.eqb_refl. reflexivity.
Qed.

(** The profile appended for the new account is the one the account has,
    also after a pass that only rewrites the verification columns. *)
Lemma profile_of_registered (db : Store) (req : Request) (p : StudentProfile.t)
  (f : StudentProfile.t -> StudentProfile.t) :
  profiles_have_accounts db ->
  (forall q, StudentProfile.user (f q) = StudentProfile.user q) ->
  StudentProfile.user p = User.id (registered_account db req) ->
  StudentProfile.of_user (map f (students db ++ [p])) (User.id (registered_account db req))
  = Some (f p).
Proof.
  intros Hfk Hf Hp. unfold StudentProfile.of_user. rewrite map_app.
  rewrite find_app_none.
  2:{ apply find_none_all. intros q Hq. apply in_map_iff in Hq. destruct Hq as [q0 [<- Hq0]].
      rewrite Hf. apply Nat.eqb_neq. simpl.
      pose proof (next_id_above _ _ (Hfk q0 Hq0)). lia. }
  simpl. rewrite Hf, Hp, Nat.eqb_refl. reflexivity.
Qed.

(** X14: registering does not let the student in.  After a registration
    that went through, a login with the username and password just
    registered is answered with the pending-verification warning and opens
    no session. *)
Theorem new_registrant_cannot_sign_in
  (fw : Validators) (today : date) (req req' : Request) (db : Store) :
  user req = None ->
  method req = POST_ ->
  is_valid fw db req = true ->
  (forall a, In a (users db) -> User.username a <> strip (field (POST req) "username")) ->
  profiles_have_accounts db ->
  truthy (strip (field (POST req) "username")) = true ->
  truthy (field (POST req) "password1") = true ->
  user req' = None ->
  method req' = POST_ ->
  strip (field (POST req') "username") = strip (field (POST req) "username") ->
  field (POST req') "password" = field (POST req) "password1" ->
  student_login req' (store (student_register fw today req db))
  = {| response := Redirect "login" None;
       flash := [(WARNING, "Your account is pending verification by the administrator. Please wait for approval.")];
       session := None;
       store := store (student_register fw today req db) |}.
Proof.
  intros Hu Hm Hv Hname Hfk Htu Htp Hu' Hm' Hsame Hpw.
  destruct (form_save_appends fw today db req Hv Hname Hfk)
    as [db' [Hsave [Husers [Hstudents _]]]].
  unfold student_register. rewrite Hu, Hm, Hv, Hsave.
  unfold reply at 1. simpl store.
  unfold student_login, authentication_form_valid, reply.
  rewrite Hu', Hm', Hsame, Hpw, Htu, Htp, Husers, Hstudents.
  rewrite (authenticate_registered db req Hname). simpl andb. cbv iota.
  pose proof (profile_of_registered db req (registered_profile fw today db req) (fun q => q)
                Hfk (fun q => eq_refl) eq_refl) as Hp.
  rewrite map_id in Hp. rewrite Hp. reflexivity.
Qed.

Lemma new_registrant_cannot_sign_in_witness :
  session (student_login (login_as "s3" "pw-s3")
             (store (student_register lenient day0 (registration "S9" "") scenario)))
  = None.
Proof.
  rewrite (new_registrant_cannot_sign_in lenient day0 (registration "S9" "")
             (login_as "s3" "pw-s3") scenario); try reflexivity.
  - intros a [<- | []]. discriminate.
  - exact scenario_profiles_have_accounts.
Defined.

(** X15: registration, verification and login compose.  After a
    registration that went through, once the administrator's action has
    verified the new profile, a login with the username and password just
    registered opens the session of the new account and leads to the
    dashboard. *)
Theorem verified_registrant_signs_in
  (fw : Validators) (today now : date) (req req' : Request) (db : Store) :
  user req = None ->
  method req = POST_ ->
  is_valid fw db req = true ->
  (forall a, In a (users db) -> User.username a <> strip (field (POST req) "username")) ->
  profiles_have_accounts db ->
  truthy (strip (field (POST req) "username")) = true ->
  truthy (field (POST req) "password1") = true ->
  user req' = None ->
  method req' = POST_ ->
  strip (field (POST req') "username") = strip (field (POST req) "username") ->
  field (POST req') "password" = field (POST req) "password1" ->
  response (student_login req'
              (snd (verify_users now [next_id (map StudentProfile.id (students db))]
                      (store (student_register fw today req db)))))
  = Redirect "dashboard" None
  /\ session (student_login req'
                (snd (verify_users now [next_id (map StudentProfile.id (students db))]
                        (store (student_register fw today req db)))))
     = Some (next_id (map User.id (users db))).
Proof.
  intros Hu Hm Hv Hname Hfk Htu Htp Hu' Hm' Hsame Hpw.
  destruct (form_save_appends fw today db req Hv Hname Hfk)
    as [db' [Hsave [Husers [Hstudents _]]]].
  unfold student_register. rewrite Hu, Hm, Hv, Hsave.
  unfold reply at 1. simpl store.
  unfold verify_users, update_verification. cbn [snd].
  unfold student_login, authentication_form_valid, reply.
  rewrite Hu', Hm', Hsame, Hpw, Htu, Htp. cbn [users students set_students].
  rewrite Husers, Hstudents.
  rewrite (authenticate_registered db req Hname). cbn [andb].
  rewrite (profile_of_registered db req (registered_profile fw today db req)
             (fun p => if ticked [next_id (map StudentProfile.id (students db))]
                            (StudentProfile.id p)
                       then with_verification p true (Some now) else p) Hfk).
  - unfold ticked. simpl. rewrite Nat.eqb_refl. simpl. split; reflexivity.
  - intros q. destruct (ticked _ _); reflexivity.
  - reflexivity.
Qed.

Lemma verified_registrant_signs_in_witness :
  session (student_login (login_as "s3" "pw-s3")
             (snd (verify_users day1 [2]
                     (store (student_register lenient day0 (registration "S9" "") scenario)))))
  = Some 2.
Proof.
  apply (verified_registrant_signs_in lenient day0 day1 (registration "S9" "")
           (login_as "s3" "pw-s3") scenario); try reflexivity.
  - intros a [<- | []]. discriminate.
  - exact scenario_profiles_have_accounts.
Defined.

Lemma existsb_false_all {A : Type} (f : A -> bool) (l : list A) (x : A) :
  existsb f l = false -> In x l -> f x = false.
Proof.
  intros Hex Hin. destruct (f x) eqn:E; [|reflexivity].
  assert (existsb f l = true) by (apply existsb_exists; exists x; auto). congruence.
Qed.

Lemma emails_stay_distinct (accounts : list User.t) (a : User.t) :
  NoDup (map lower (filter truthy (map User.email accounts))) ->
  (truthy (User.email a) = true ->
   forall u, In u accounts -> iexact (User.email u) (User.email a) = false) ->
  NoDup (map lower (filter truthy (map User.email (accounts ++ [a])))).
Proof.
  intros Hnd Hnew. rewrite map_app, filter_app, map_app. simpl.
  destruct (truthy (User.email a)) eqn:Ht; simpl; [|rewrite app_nil_r; exact Hnd].
  apply NoDup_snoc; [exact Hnd|].
  intros Hin. apply in_map_iff in Hin. destruct Hin as [x [Hx Hin]].
  apply filter_In in Hin. destruct Hin as [Hin _].
  apply in_map_iff in Hin. destruct Hin as [u [<- Hu]].
  specialize (Hnew eq_refl u Hu). unfold iexact in Hnew.
  rewrite Hx, String.eqb_refl in Hnew. discriminate.
Qed.

(** X16: registration keeps the account tables consistent.  If usernames,
    registration numbers and the accounts of the profiles are unique, and
    no two accounts give the same e-mail up to case, then the same holds
    after [student_register], whatever the request and whatever the
    answer. *)
Theorem registration_keeps_accounts_unique
  (fw : Validators) (today : date) (req : Request) (db : Store) :
  accounts_wf db ->
  accounts_wf (store (student_register fw today req db)).
Proof.
  intros Hwf. unfold student_register, reply.
  destruct (user req); [exact Hwf|].
  destruct (method req); [exact Hwf|].
  destruct (is_valid fw db req) eqn:Hv; [|exact Hwf].
  destruct (valid_form_parts _ _ _ Hv) as [Hmail _].
  destruct (email_is_clean _ _ _ Hmail) as [e [Hclean Hfree]].
  destruct Hwf as [Hn [Hs [Hu He]]].
  unfold form_save, User.create. fold (registered_account db req).
  destruct (existsb _ (users db)) eqn:Hname; [simpl; repeat split; assumption|].
  assert (Hn' : NoDup (map User.username (users db ++ [registered_account db req]))).
  { rewrite map_app. apply NoDup_snoc; [exact Hn|].
    intros Hin. apply in_map_iff in Hin. destruct Hin as [a [Ha Hin]].
    pose proof (existsb_false_all _ _ a Hname Hin) as Hf. simpl in Hf.
    rewrite Ha, String.eqb_refl in Hf. discriminate. }
  assert (He' : NoDup (map lower (filter truthy
                         (map User.email (users db ++ [registered_account db req]))))).
  { apply emails_stay_distinct; [exact He|]. simpl. rewrite Hclean. exact Hfree. }
  unfold StudentProfile.create. fold (registered_profile fw today db req).
  destruct (existsb _ (students db)) eqn:Hprof.
  - destruct (upload _ _) as [[name content]|]; simpl; repeat split; assumption.
  - assert (forall q, In q (students db) ->
              StudentProfile.student_id q
              <> StudentProfile.student_id (registered_profile fw today db req)
              /\ StudentProfile.user q
                 <> StudentProfile.user (registered_profile fw today db req)) as Hnew.
    { intros q Hq. pose proof (existsb_false_all _ _ q Hprof Hq) as Hf.
      apply orb_false_iff in Hf. destruct Hf as [H1 H2].
      apply String.eqb_neq in H1. apply Nat.eqb_neq in H2. auto. }
    assert (Hs' : NoDup (map StudentProfile.student_id
                           (students db ++ [registered_profile fw today db req]))).
    { rewrite map_app. apply NoDup_snoc; [exact Hs|].
      intros Hin. apply in_map_iff in Hin. destruct Hin as [q [Hq Hin]].
      exact (proj1 (Hnew q Hin) Hq). }
    assert (Hu' : NoDup (map StudentProfile.user
                           (students db ++ [registered_profile fw today db req]))).
    { rewrite map_app. apply NoDup_snoc; [exact Hu|].
      intros Hin. apply in_map_iff in Hin. destruct Hin as [q [Hq Hin]].
      exact (proj2 (Hnew q Hin) Hq). }
    destruct (upload _ _) as [[name content]|]; simpl; repeat split; assumption.
Qed.

Lemma registration_keeps_accounts_unique_witness :
  accounts_wf (store (student_register lenient day0 (registration "S9" "c@example.org") scenario)).
Proof.
  apply registration_keeps_accounts_unique.
  repeat split; nodup_concrete.
Defined.

(** * Beyond the listed claims: the administrator's actions *)

Lemma ticked_in (pks : list nat) (pk : nat) : ticked pks pk = true <-> In pk pks.
Proof.
  unfold ticked. rewrite existsb_exists. split.
  - intros [k [Hk E]]. apply Nat.eqb_eq in E. subst. exact Hk.
  - intros H. exists pk. split; [exact H | apply Nat.eqb_refl].
Qed.

(** X17: [verify_users] marks exactly the ticked profiles verified and
    stamps them with the time of the action; every other column of a ticked
    profile, every other profile and every other table (accounts, batches,
    courses, modules, completions, resources, certificates) and the stored
    files stay as they are, and the message counts the ticked rows that
    exist.  [unverify_users] afterwards on the same rows clears the flag and
    the time again, and it too leaves every other table and the files as
    they are. *)
Theorem verification_touches_only_ticked_rows
  (now : date) (pks : list nat) (db : Store) :
  tables_but_students (snd (verify_users now pks db)) = tables_but_students db
  /\ tables_but_students (snd (unverify_users pks db)) = tables_but_students db
  /\ users (snd (verify_users now pks db)) = users db
  /\ certificates (snd (verify_users now pks db)) = certificates db
  /\ completions (snd (verify_users now pks db)) = completions db
  /\ length (students (snd (verify_users now pks db))) = length (students db)
  /\ (forall p, In p (students db) -> ~ In (StudentProfile.id p) pks ->
        In p (students (snd (verify_users now pks db))))
  /\ (forall p, In p (students db) -> In (StudentProfile.id p) pks ->
        In (with_verification p true (Some now)) (students (snd (verify_users now pks db)))
        /\ In (with_verification p false None)
             (students (snd (unverify_users pks (snd (verify_users now pks db))))))
  /\ (forall q, In q (students (snd (verify_users now pks db))) ->
        StudentProfile.is_verified q = false -> ~ In (StudentProfile.id q) pks)
  /\ fst (verify_users now pks db)
     = (str_of_nat (length (filter (fun p => ticked pks (StudentProfile.id p)) (students db)))
        ++ " user(s) have been verified successfully.")%string.
Proof.
  unfold verify_users, unverify_users, update_verification, tables_but_students.
  cbn [fst snd].
  cbn [users batches courses modules completions resources certificates media students
       set_students].
  split; [reflexivity|]. split; [reflexivity|].
  split; [reflexivity|]. split; [reflexivity|]. split; [reflexivity|].
  split; [apply length_map|]. split; [|split; [|split; [|reflexivity]]].
  - intros p Hin Hno. apply in_map_iff. exists p. split; [|exact Hin].
    destruct (ticked pks (StudentProfile.id p)) eqn:E; [|reflexivity].
    apply ticked_in in E. contradiction.
  - intros p Hin Hyes. apply ticked_in in Hyes. split.
    + apply in_map_iff. exists p. rewrite Hyes. auto.
    + apply in_map_iff. exists (with_verification p true (Some now)). split.
      * cbn [StudentProfile.id with_verification]. rewrite Hyes. reflexivity.
      * apply in_map_iff. exists p. rewrite Hyes. auto.
  - intros q Hq Hv Hpk. apply in_map_iff in Hq. destruct Hq as [p [<- Hp]].
    destruct (ticked pks (StudentProfile.id p)) eqn:E.
    + discriminate Hv.
    + apply ticked_in in Hpk. congruence.
Qed.

Lemma verification_touches_only_ticked_rows_witness :
  tables_but_students (snd (verify_users day1 [2] scenario_pending))
    = tables_but_students scenario_pending
  /\ In student_s1 (students (snd (verify_users day1 [2] scenario_pending)))
  /\ In (with_verification student_s2 true (Some day1))
       (students (snd (verify_users day1 [2] scenario_pending))).
Proof.
  destruct (verification_touches_only_ticked_rows day1 [2] scenario_pending)
    as [H0 [_ [_ [_ [_ [_ [H1 [H2 _]]]]]]]].
  split; [exact H0|]. split.
  - apply H1; [left; reflexivity|]. intros [E | []]. discriminate E.
  - apply (H2 student_s2); [right; left; reflexivity | left; reflexivity].
Defined.

(** ** [Certificate.generate_pdf] and the action that calls it *)

Lemma save_others (c r : Certificate.t) (rows rows' : list Certificate.t) :
  Certificate.save c rows = inr rows' ->
  In r rows -> Certificate.id r <> Certificate.id c -> In r rows'.
Proof.
  intros Hsave Hin Hne. apply save_cases in Hsave. destruct Hsave as [-> _].
  apply in_map_iff. exists r. split; [|exact Hin].
  apply Nat.eqb_neq in Hne. rewrite Hne. reflexivity.
Qed.

Lemma assign_number_others (now : date) (db db' : Store) (cert cert' : Certificate.t) :
  assign_number now db cert = inr (cert', db') ->
  Certificate.id cert' = Certificate.id cert
  /\ (truthy (Certificate.certificate_number cert) = true ->
      Certificate.certificate_number cert' = Certificate.certificate_number cert)
  /\ forall r, In r (certificates db) -> Certificate.id r <> Certificate.id cert ->
               In r (certificates db').
Proof.
  unfold assign_number.
  destruct (truthy (Certificate.certificate_number cert)) eqn:Ht; simpl.
  - intros H. injection H as <- <-. auto.
  - destruct (Certificate.generate_certificate_number _ _ _) as [e|number]; [discriminate|].
    destruct (Certificate.save _ (certificates db)) as [e|rows] eqn:Hsave; [discriminate|].
    intros H. injection H as <- <-. simpl.
    split; [reflexivity|]. split; [discriminate|].
    intros r Hin Hne. exact (save_others _ _ _ _ Hsave Hin Hne).
Qed.

(** What [generate_pdf] does to a table that respects its constraints, for
    a row of the table. *)
Lemma generate_pdf_cases (now : date) (db : Store) (cert : Certificate.t) :
  certificates_wf (certificates db) ->
  In cert (certificates db) ->
  certificates_wf (certificates (snd (generate_pdf now db cert)))
  /\ other_tables (snd (generate_pdf now db cert)) = other_tables db
  /\ rows_kept (certificates db) (certificates (snd (generate_pdf now db cert)))
  /\ (forall r, In r (certificates db) -> Certificate.id r <> Certificate.id cert ->
        In r (certificates (snd (generate_pdf now db cert))))
  /\ (fst (generate_pdf now db cert) = None ->
      exists c' path,
        In c' (certificates (snd (generate_pdf now db cert)))
        /\ Certificate.id c' = Certificate.id cert
        /\ truthy (Certificate.certificate_number c') = true
        /\ (truthy (Certificate.certificate_number cert) = true ->
            Certificate.certificate_number c' = Certificate.certificate_number cert)
        /\ Certificate.pdf_file c' = Some path
        /\ has_file (Certificate.pdf_file c') = true
        /\ exists lines, storage_open (snd (generate_pdf now db cert)) path = Some (PdfData lines)
                         /\ In ("Certificate No: " ++ Certificate.certificate_number c')%string
                              lines).
Proof.
  intros Hwf Hin. unfold generate_pdf.
  destruct (assign_number now db cert) as [[e db1]|[cert' db1]] eqn:Ha.
  - apply assign_number_failure in Ha. subst db1. cbn [fst snd].
    split; [exact Hwf|]. split; [reflexivity|]. split; [apply rows_kept_refl|].
    split; [auto | discriminate].
  - destruct (assign_number_cases now db db1 cert cert' Hwf Hin Ha)
      as [Hwf1 [Hin1 [Hot [_ [_ [_ [Ht _]]]]]]].
    pose proof (assign_number_kept now db db1 cert cert' Hwf Hin Ha) as K1.
    destruct (assign_number_others now db db1 cert cert' Ha) as [Hid [Hnum Hoth]].
    destruct (StudentProfile.get _ _) as [student|];
      [|cbn [fst snd]; split; [exact Hwf1|]; split; [exact Hot|]; split; [exact K1|];
        split; [exact Hoth | discriminate]].
    destruct (User.get _ _) as [account|];
      [|cbn [fst snd]; split; [exact Hwf1|]; split; [exact Hot|]; split; [exact K1|];
        split; [exact Hoth | discriminate]].
    destruct (Course.get _ _) as [course|];
      [|cbn [fst snd]; split; [exact Hwf1|]; split; [exact Hot|]; split; [exact K1|];
        split; [exact Hoth | discriminate]].
    destruct (save_pdf_file (certificates db1) cert'
                (Some ("certificates/certificate_" ++ Certificate.certificate_number cert' ++ ".pdf")%string)
                Hwf1 Hin1) as [rows' [Hsave [Hident Hin3]]].
    cbv zeta. cbn [certificates storage_save]. rewrite Hsave. cbn [fst snd].
    cbn [certificates set_certificates].
    split; [exact (wf_identity _ _ (eq_sym Hident) Hwf1)|].
    split; [transitivity (other_tables db1); [reflexivity | exact Hot]|].
    split.
    { apply (rows_kept_trans _ _ _ K1).
      eapply (save_kept _ cert' _ _ (proj1 Hwf1) Hin1); [|exact Hsave]. repeat split. }
    split.
    { intros r Hr Hne. apply (save_others _ _ _ _ Hsave (Hoth r Hr Hne)).
      cbn [Certificate.id Certificate.with_pdf_file]. rewrite Hid. exact Hne. }
    intros _. do 2 eexists. split; [exact Hin3|].
    cbn [Certificate.id Certificate.certificate_number Certificate.pdf_file
         Certificate.with_pdf_file].
    split; [exact Hid|]. split; [exact Ht|]. split; [exact Hnum|].
    split; [reflexivity|]. split; [reflexivity|].
    eexists. split.
    + unfold storage_open. cbn [media set_certificates storage_save find fst snd option_map].
      rewrite String.eqb_refl. reflexivity.
    + unfold model_certificate_lines. do 7 right. left. reflexivity.
Qed.

(** X18: [Certificate.generate_pdf], the administrator's way to a PDF, for
    a row of a table that respects its constraints: the constraints still
    hold, the other tables are untouched, no other row changes, and the row
    keeps its primary key, student, course, date of issue, and its number
    if it had one.  When no exception escapes, the row has a number and a
    file, and opening the file gives a page that carries the number. *)
Theorem generate_pdf_numbers_and_files_the_row
  (now : date) (db : Store) (cert : Certificate.t) :
  certificates_wf (certificates db) ->
  In cert (certificates db) ->
  certificates_wf (certificates (snd (generate_pdf now db cert)))
  /\ other_tables (snd (generate_pdf now db cert)) = other_tables db
  /\ rows_kept (certificates db) (certificates (snd (generate_pdf now db cert)))
  /\ (forall r, In r (certificates db) -> Certificate.id r <> Certificate.id cert ->
        In r (certificates (snd (generate_pdf now db cert))))
  /\ (fst (generate_pdf now db cert) = None ->
      exists c' path lines,
        In c' (certificates (snd (generate_pdf now db cert)))
        /\ Certificate.id c' = Certificate.id cert
        /\ truthy (Certificate.certificate_number c') = true
        /\ Certificate.pdf_file c' = Some path
        /\ storage_open (snd (generate_pdf now db cert)) path = Some (PdfData lines)
        /\ In ("Certificate No: " ++ Certificate.certificate_number c')%string lines).
Proof.
  intros Hwf Hin.
  destruct (generate_pdf_cases now db cert Hwf Hin) as [A [B [C [D E]]]].
  split; [exact A|]. split; [exact B|]. split; [exact C|]. split; [exact D|].
  intros Hok. destruct (E Hok) as [c' [path [H1 [H2 [H3 [_ [H5 [_ [lines [H7 H8]]]]]]]]]].
  exists c', path, lines. repeat split; assumption.
Qed.

Lemma generate_pdf_numbers_and_files_the_row_witness :
  exists c' path lines,
    In c' (certificates (snd (generate_pdf day1
                                (store (generate_certificate day0 2 as_s1 scenario_second_course))
                                (unnumbered_row day0 (certificates scenario_second_course)
                                   (profile_of 1 "S1" true [1; 2])
                                   {| Course.id := 2; Course.title := "C2";
                                      Course.description := ""; Course.is_active := true |}))))
    /\ Certificate.id c' = 2
    /\ truthy (Certificate.certificate_number c') = true
    /\ Certificate.pdf_file c' = Some path
    /\ storage_open (snd (generate_pdf day1
                            (store (generate_certificate day0 2 as_s1 scenario_second_course))
                            (unnumbered_row day0 (certificates scenario_second_course)
                               (profile_of 1 "S1" true [1; 2])
                               {| Course.id := 2; Course.title := "C2";
                                  Course.description := ""; Course.is_active := true |})))
         path = Some (PdfData lines)
    /\ In ("Certificate No: " ++ Certificate.certificate_number c')%string lines.
Proof.
  apply (generate_pdf_numbers_and_files_the_row day1
           (store (generate_certificate day0 2 as_s1 scenario_second_course))).
  - vm_compute. repeat split; nodup_concrete.
  - vm_compute. right. left. reflexivity.
  - reflexivity.
Defined.

Lemma insert_by_issue_date_perm (c : Certificate.t) (l : list Certificate.t) :
  Permutation (insert_by_issue_date c l) (c :: l).
Proof.
  induction l as [|x l IH]; simpl; [apply Permutation_refl|].
  destruct (date_ltb _ _); [apply Permutation_refl|].
  apply (Permutation_trans (perm_skip x IH)). apply perm_swap.
Qed.

Lemma by_issue_date_perm (l : list Certificate.t) :
  Permutation (fold_right insert_by_issue_date [] l) l.
Proof.
  induction l as [|x l IH]; simpl; [apply Permutation_refl|].
  apply (Permutation_trans (insert_by_issue_date_perm _ _)). apply perm_skip. exact IH.
Qed.

Lemma filter_length_perm {A : Type} (f : A -> bool) (l l' : list A) :
  Permutation l l' -> length (filter f l) = length (filter f l').
Proof.
  induction 1; simpl; try congruence.
  - destruct (f x); simpl; congruence.
  - destruct (f x); destruct (f y); reflexivity.
Qed.

Lemma NoDup_map_filter {A K : Type} (key : A -> K) (f : A -> bool) (l : list A) :
  NoDup (map key l) -> NoDup (map key (filter f l)).
Proof.
  induction l as [|x l IH]; simpl; intros H; [constructor|].
  inversion H as [|? ? Hx Hl]; subst.
  destruct (f x); simpl; [|apply IH; exact Hl].
  constructor; [|apply IH; exact Hl].
  intros Hin. apply Hx. apply in_map_iff in Hin. destruct Hin as [y [Hy Hin]].
  apply filter_In in Hin. rewrite <- Hy. apply in_map. exact (proj1 Hin).
Qed.

(** The loop over rows fetched from a table that respects its constraints. *)
Lemma generate_each_cases (now : date) (selection : list Certificate.t) :
  forall (count : nat) (db : Store),
    certificates_wf (certificates db) ->
    NoDup (map Certificate.id selection) ->
    (forall c, In c selection -> In c (certificates db)) ->
    other_tables (snd (generate_each now selection count db)) = other_tables db
    /\ (forall r, In r (certificates db) ->
          ~ In r selection \/ has_file (Certificate.pdf_file r) = true ->
          In r (certificates (snd (generate_each now selection count db))))
    /\ (fst (fst (generate_each now selection count db)) = None ->
        snd (fst (generate_each now selection count db))
        = count + length (filter (fun c => negb (has_file (Certificate.pdf_file c))) selection)
        /\ forall c, In c selection ->
             exists c', In c' (certificates (snd (generate_each now selection count db)))
                        /\ Certificate.id c' = Certificate.id c
                        /\ has_file (Certificate.pdf_file c') = true).
Proof.
  induction selection as [|cert rest IH]; intros count db Hwf Hnd Hsel.
  - simpl. split; [reflexivity|]. split; [auto|]. intros _. split; [lia | intros c []].
  - inversion Hnd as [|? ? Hcert Hrest]; subst.
    assert (Hcin : In cert (certificates db)) by (apply Hsel; left; reflexivity).
    cbn [generate_each].
    destruct (has_file (Certificate.pdf_file cert)) eqn:Hfile; cbn [negb].
    + destruct (IH count db Hwf Hrest (fun c Hc => Hsel c (or_intror Hc))) as [A [B C]].
      split; [exact A|]. split.
      * intros r Hr [Hno | Hyes]; apply B; auto.
        left. intros Hin. apply Hno. right. exact Hin.
      * intros Hok. destruct (C Hok) as [C1 C2]. split.
        -- rewrite C1. simpl. rewrite Hfile. reflexivity.
        -- intros c [<- | Hc]; [|exact (C2 c Hc)].
           exists cert. split; [apply B; auto|]. auto.
    + destruct (generate_pdf_cases now db cert Hwf Hcin) as [G1 [G2 [_ [G4 G5]]]].
      destruct (generate_pdf now db cert) as [[e|] db1] eqn:Hgen; cbn [fst snd] in *.
      * split; [exact G2|]. split; [|discriminate].
        intros r Hr Hcase. apply G4; [exact Hr|].
        intros Heq. assert (r = cert)
          by exact (NoDup_map_injective _ _ _ _ (proj1 Hwf) Hr Hcin Heq).
        subst r. destruct Hcase as [Hno | Hyes]; [apply Hno; left; reflexivity | congruence].
      * assert (Hsel1 : forall c, In c rest -> In c (certificates db1)).
        { intros c Hc. apply G4; [apply Hsel; right; exact Hc|].
          intros Heq. apply Hcert. rewrite <- Heq. apply in_map. exact Hc. }
        destruct (IH (S count) db1 G1 Hrest Hsel1) as [A [B C]].
        split; [rewrite A; exact G2|]. split.
        -- intros r Hr Hcase.
           assert (Hne : Certificate.id r <> Certificate.id cert).
           { intros Heq. assert (r = cert)
               by exact (NoDup_map_injective _ _ _ _ (proj1 Hwf) Hr Hcin Heq).
             subst r. destruct Hcase as [Hno | Hyes];
               [apply Hno; left; reflexivity | congruence]. }
           apply B; [exact (G4 r Hr Hne)|].
           destruct Hcase as [Hno | Hyes]; [left | right; exact Hyes].
           intros Hin. apply Hno. right. exact Hin.
        -- intros Hok. destruct (C Hok) as [C1 C2]. split.
           ++ rewrite C1. simpl. rewrite Hfile. simpl. lia.
           ++ intros c [<- | Hc]; [|exact (C2 c Hc)].
              destruct (G5 eq_refl) as [c' [path [H1 [H2 [_ [_ [_ [H6 _]]]]]]]].
              exists c'. split; [apply B; auto|]. auto.
Qed.

(** X19: the action that generates PDFs for the ticked certificates, on a
    table that respects its constraints, never touches a row that already
    has a file, nor a row that is not ticked, nor any other table.  When no
    exception escapes, every ticked row has a file afterwards, and the
    count reported is the number of ticked rows that had none. *)
Theorem pdf_action_skips_rows_with_a_file
  (now : date) (pks : list nat) (db : Store) :
  certificates_wf (certificates db) ->
  other_tables (snd (generate_certificate_pdf now pks db)) = other_tables db
  /\ (forall r, In r (certificates db) ->
        ~ In (Certificate.id r) pks \/ has_file (Certificate.pdf_file r) = true ->
        In r (certificates (snd (generate_certificate_pdf now pks db))))
  /\ (fst (fst (generate_certificate_pdf now pks db)) = None ->
      snd (fst (generate_certificate_pdf now pks db))
      = length (filter (fun c => ticked pks (Certificate.id c)
                                 && negb (has_file (Certificate.pdf_file c)))
                  (certificates db))
      /\ forall c, In c (certificates db) -> In (Certificate.id c) pks ->
           exists c', In c' (certificates (snd (generate_certificate_pdf now pks db)))
                      /\ Certificate.id c' = Certificate.id c
                      /\ has_file (Certificate.pdf_file c') = true).
Proof.
  intros Hwf. unfold generate_certificate_pdf.
  set (chosen := filter (fun c => ticked pks (Certificate.id c)) (certificates db)).
  pose proof (by_issue_date_perm chosen) as Hperm.
  assert (Hmem : forall c, In c (fold_right insert_by_issue_date [] chosen)
                           <-> In c (certificates db) /\ In (Certificate.id c) pks).
  { intros c. split.
    - intros Hc. apply (Permutation_in _ Hperm) in Hc. apply filter_In in Hc.
      destruct Hc as [Hc Ht]. apply ticked_in in Ht. auto.
    - intros [Hc Ht]. apply (Permutation_in _ (Permutation_sym Hperm)).
      apply filter_In. split; [exact Hc | apply ticked_in; exact Ht]. }
  assert (Hnd : NoDup (map Certificate.id (fold_right insert_by_issue_date [] chosen))).
  { apply (Permutation_NoDup (Permutation_map Certificate.id (Permutation_sym Hperm))).
    apply NoDup_map_filter. exact (proj1 Hwf). }
  destruct (generate_each_cases now _ 0 db Hwf Hnd (fun c Hc => proj1 (proj1 (Hmem c) Hc)))
    as [A [B C]].
  split; [exact A|]. split.
  - intros r Hr [Hno | Hyes]; apply B; auto.
    left. intros Hin. apply Hno. exact (proj2 (proj1 (Hmem r) Hin)).
  - intros Hok. destruct (C Hok) as [C1 C2]. split.
    + rewrite C1. simpl. rewrite (filter_length_perm _ _ _ Hperm).
      unfold chosen. rewrite filter_twice. reflexivity.
    + intros c Hc Ht. apply C2. apply Hmem. auto.
Qed.

Lemma pdf_action_skips_rows_with_a_file_witness :
  In {| Certificate.id := 1; Certificate.student := 1; Certificate.course := 1;
        Certificate.issue_date := day0; Certificate.certificate_number := "NCC-2026-S1";
        Certificate.pdf_file := Some "certificates/certificate_NCC-2026-S1.pdf" |}
     (certificates (snd (generate_certificate_pdf day1 [1] scenario_second_course))).
Proof.
  assert (Hwf : certificates_wf (certificates scenario_second_course))
    by (repeat split; nodup_concrete).
  destruct (pdf_action_skips_rows_with_a_file day1 [1] scenario_second_course Hwf)
    as [_ [H _]].
  apply H; [left; reflexivity | right; reflexivity].
Defined.

(** X20: the two drawings of the certificate are not the same page.  For a
    student with a name, the page of [Certificate.generate_pdf] and the page
    of the download agree on every line but the fourth, which reads
    "Student ID" on the one and "Registration No" on the other; for an
    account without first and last name the first prints the username where
    the second prints nothing. *)
Theorem two_drawings_differ_in_the_label
  (account : User.t) (student : StudentProfile.t) (course : Course.t) (cert : Certificate.t) :
  (truthy (User.get_full_name account) = true ->
   firstn 3 (model_certificate_lines account student course cert)
   = firstn 3 (certificate_lines account student course cert)
   /\ skipn 4 (model_certificate_lines account student course cert)
      = skipn 4 (certificate_lines account student course cert)
   /\ nth 3 (model_certificate_lines account student course cert) ""
      = ("Student ID: " ++ StudentProfile.student_id student)%string
   /\ nth 3 (certificate_lines account student course cert) ""
      = ("Registration No: " ++ StudentProfile.student_id student)%string)
  /\ (truthy (User.get_full_name account) = false ->
      nth 2 (model_certificate_lines account student course cert) ""
      = upper (User.username account)
      /\ nth 2 (certificate_lines account student course cert) "" = "").
Proof.
  split; intros H.
  - unfold model_certificate_lines, certificate_lines. rewrite H. repeat split.
  - unfold model_certificate_lines, certificate_lines. rewrite H. simpl.
    apply not_truthy_empty in H. rewrite H. split; reflexivity.
Qed.

Lemma two_drawings_differ_in_the_label_witness :
  nth 3 (model_certificate_lines account_s1 student_s1 course_c1
           (issued_row day0 [] student_s1 course_c1)) "" = "Student ID: S1"
  /\ nth 3 (certificate_lines account_s1 student_s1 course_c1
              (issued_row day0 [] student_s1 course_c1)) "" = "Registration No: S1".
Proof.
  destruct (two_drawings_differ_in_the_label account_s1 student_s1 course_c1
              (issued_row day0 [] student_s1 course_c1)) as [H _].
  destruct (H eq_refl) as [_ [_ [A B]]]. exact (conj A B).
Defined.

(** * Beyond the listed claims: the completed-module count of a profile *)

Lemma mark_complete_filter (g : ModuleCompletion.t -> bool) (now : date)
  (r : ModuleCompletion.t) (rows : list ModuleCompletion.t) :
  NoDup (map ModuleCompletion.id rows) ->
  In r rows ->
  length (filter g (ModuleCompletion.mark_complete now r rows)) + (if g r then 1 else 0)
  = length (filter g rows)
    + (if g {| ModuleCompletion.id := ModuleCompletion.id r;
               ModuleCompletion.student := ModuleCompletion.student r;
               ModuleCompletion.module := ModuleCompletion.module r;
               ModuleCompletion.completed := true;
               ModuleCompletion.completed_at := Some now |} then 1 else 0).
Proof.
  unfold ModuleCompletion.mark_complete.
  induction rows as [|x rows IH]; intros Hnd Hin; [destruct Hin|].
  inversion Hnd as [|? ? Hx Hrest]; subst.
  destruct Hin as [-> | Hin].
  - simpl. rewrite Nat.eqb_refl.
    assert (Hsame : map (fun y => if ModuleCompletion.id y =? ModuleCompletion.id r
                                  then {| ModuleCompletion.id := ModuleCompletion.id r;
                                          ModuleCompletion.student := ModuleCompletion.student r;
                                          ModuleCompletion.module := ModuleCompletion.module r;
                                          ModuleCompletion.completed := true;
                                          ModuleCompletion.completed_at := Some now |}
                                  else y) rows = rows).
    { rewrite <- (map_id rows) at 2. apply map_ext_in. intros y Hy.
      destruct (ModuleCompletion.id y =? ModuleCompletion.id r) eqn:E; [|reflexivity].
      apply Nat.eqb_eq in E. exfalso. apply Hx. rewrite <- E. apply in_map. exact Hy. }
    rewrite Hsame.
    destruct (g r); destruct (g _); simpl; lia.
  - assert (Hne : (ModuleCompletion.id x =? ModuleCompletion.id r) = false).
    { apply Nat.eqb_neq. intros E. apply Hx. rewrite E. apply in_map. exact Hin. }
    simpl. rewrite Hne. specialize (IH Hrest Hin).
    destruct (g x); simpl; lia.
Qed.

(** X21: [mark_complete] counts once.  On a table with unique primary
    keys, marking a row of the table complete raises
    [get_completed_modules] of the row's student by one if the row was not
    flagged and leaves it as it is if the row was flagged already; the
    count of every other student is unchanged. *)
Theorem mark_complete_counts_once
  (now : date) (r : ModuleCompletion.t) (db : Store) (p : StudentProfile.t) :
  NoDup (map ModuleCompletion.id (completions db)) ->
  In r (completions db) ->
  get_completed_modules
    (set_completions db (ModuleCompletion.mark_complete now r (completions db))) p
  = get_completed_modules db p
    + (if (ModuleCompletion.student r =? StudentProfile.id p)
          && negb (ModuleCompletion.completed r) then 1 else 0).
Proof.
  intros Hnd Hin. unfold get_completed_modules. cbn [completions set_completions].
  pose proof (mark_complete_filter
                (fun x => (ModuleCompletion.student x =? StudentProfile.id p)
                          && ModuleCompletion.completed x) now r (completions db) Hnd Hin) as H.
  cbn [ModuleCompletion.student ModuleCompletion.completed] in H.
  destruct (ModuleCompletion.student r =? StudentProfile.id p);
    destruct (ModuleCompletion.completed r); simpl in *; lia.
Qed.

Lemma mark_complete_counts_once_witness :
  get_completed_modules
    (set_completions scenario
       (ModuleCompletion.mark_complete day1 (viewed 1 1 false) (completions scenario)))
    student_s1 = 1.
Proof.
  rewrite (mark_complete_counts_once day1 (viewed 1 1 false) scenario student_s1).
  - reflexivity.
  - nodup_concrete.
  - left. reflexivity.
Defined.

(** X22: no request changes the completed-module count of any profile, the
    figure of the administrator's progress summary: whatever the route and
    the request, [get_completed_modules] is the same before and after. *)
Theorem no_request_changes_the_completed_count
  (fw : Validators) (now : date) (route : Route) (req : Request) (db : Store)
  (p : StudentProfile.t) :
  get_completed_modules (store (dispatch fw now route req db)) p = get_completed_modules db p.
Proof.
  unfold get_completed_modules.
  destruct route;
    try (rewrite other_handlers_keep_completions; [reflexivity | discriminate]).
  simpl. destruct (module_detail_completions module_id req db) as [H | [s [m H]]]; rewrite H.
  - reflexivity.
  - rewrite filter_app, length_app. simpl. rewrite andb_false_r. simpl. lia.
Qed.

(** * Beyond the listed claims: the site configuration *)

(** X23: the configuration stays a single row as long as it starts empty
    and is only saved through instances without a key or with the key 1 and
    fetched through [get_solo]: after any such sequence the table is empty
    or holds exactly one row, of key 1, and [get_solo] never fails on it.
    The guard of [save] alone does not make it so: when the only row has
    another key, [get_solo] adds a second row. *)
Theorem site_configuration_stays_single (ops : list SiteConfiguration.op) :
  (forall c, In (SiteConfiguration.Save c) ops ->
     SiteConfiguration.pk c = None \/ SiteConfiguration.pk c = Some 1) ->
  (SiteConfiguration.run ops [] = []
   \/ exists r, SiteConfiguration.run ops [] = [r] /\ SiteConfiguration.pk r = Some 1)
  /\ (exists r rows, SiteConfiguration.get_solo (SiteConfiguration.run ops []) = inr (r, rows)
                     /\ SiteConfiguration.pk r = Some 1 /\ length rows = 1)
  /\ (forall r k, SiteConfiguration.pk r = Some k -> k <> 1 ->
        SiteConfiguration.step [r] SiteConfiguration.GetSolo = [r; SiteConfiguration.default]).
Proof.
  intros Hops.
  assert (Hinv : forall rows,
            (rows = [] \/ exists r, rows = [r] /\ SiteConfiguration.pk r = Some 1) ->
            SiteConfiguration.run ops rows = []
            \/ exists r, SiteConfiguration.run ops rows = [r] /\ SiteConfiguration.pk r = Some 1).
  { unfold SiteConfiguration.run. induction ops as [|o ops IH]; intros rows Hrows.
    - exact Hrows.
    - simpl. apply IH; [intros c Hc; apply Hops; right; exact Hc|].
      destruct o as [c|]; simpl.
      + destruct (Hops c (or_introl eq_refl)) as [Hpk | Hpk];
          destruct Hrows as [-> | [r [-> Hr]]];
          unfold SiteConfiguration.save, SiteConfiguration.no_pk,
            SiteConfiguration.base_save; rewrite Hpk; simpl.
        * right. eexists. split; reflexivity.
        * right. exists r. auto.
        * right. exists c. auto.
        * assert (Hk : SiteConfiguration.has_pk 1 r = true)
            by (unfold SiteConfiguration.has_pk; rewrite Hr; reflexivity).
          rewrite Hk. simpl. right. exists c. auto.
      + destruct Hrows as [-> | [r [-> Hr]]].
        * simpl. right. eexists. split; reflexivity.
        * assert (Hk : SiteConfiguration.has_pk 1 r = true)
            by (unfold SiteConfiguration.has_pk; rewrite Hr; reflexivity).
          unfold SiteConfiguration.get_solo. cbn [filter]. rewrite Hk.
          right. exists r. auto. }
  split; [apply Hinv; left; reflexivity|]. split.
  - destruct (Hinv [] (or_introl eq_refl)) as [-> | [r [-> Hr]]].
    + do 2 eexists. split; [reflexivity|]. split; reflexivity.
    + assert (Hk : SiteConfiguration.has_pk 1 r = true)
        by (unfold SiteConfiguration.has_pk; rewrite Hr; reflexivity).
      unfold SiteConfiguration.get_solo. cbn [filter]. rewrite Hk.
      exists r, [r]. auto.
  - intros r k Hr Hk.
    assert (Hno : SiteConfiguration.has_pk 1 r = false).
    { unfold SiteConfiguration.has_pk. rewrite Hr. apply Nat.eqb_neq. exact Hk. }
    unfold SiteConfiguration.step, SiteConfiguration.get_solo. cbn [filter]. rewrite Hno.
    unfold SiteConfiguration.save, SiteConfiguration.base_save.
    cbn [SiteConfiguration.no_pk SiteConfiguration.default SiteConfiguration.pk Nat.eqb andb
         existsb]. rewrite Hno. reflexivity.
Qed.

Lemma site_configuration_stays_single_witness :
  length (SiteConfiguration.run
            [SiteConfiguration.GetSolo;
             SiteConfiguration.Save
               {| SiteConfiguration.pk := None; SiteConfiguration.site_name := "Other";
                  SiteConfiguration.whatsapp_number := ""; SiteConfiguration.facebook_url := "";
                  SiteConfiguration.contact_phone := "" |};
             SiteConfiguration.GetSolo] []) = 1.
Proof.
  destruct (site_configuration_stays_single
              [SiteConfiguration.GetSolo;
               SiteConfiguration.Save
                 {| SiteConfiguration.pk := None; SiteConfiguration.site_name := "Other";
                    SiteConfiguration.whatsapp_number := "";
                    SiteConfiguration.facebook_url := "";
                    SiteConfiguration.contact_phone := "" |};
               SiteConfiguration.GetSolo]) as [[H | [r [H _]]] _].
  - intros c [E | [E | [E | []]]]; try discriminate E. injection E as <-. left. reflexivity.
  - discriminate H.
  - rewrite H. reflexivity.
Defined.

(** * Beyond the listed claims: the registration form *)

Lemma lower_char_idempotent (c : ascii) : lower_char (lower_char c) = lower_char c.
Proof. destruct c as [[] [] [] [] [] [] [] []]; reflexivity. Qed.

Lemma is_space_lower_char (c : ascii) : is_space (lower_char c) = is_space c.
Proof. destruct c as [[] [] [] [] [] [] [] []]; reflexivity. Qed.

Lemma lower_idempotent (s : string) : lower (lower s) = lower s.
Proof.
  unfold lower. induction s as [|c s IH]; simpl; [reflexivity|].
  rewrite lower_char_idempotent, IH. reflexivity.
Qed.

Lemma lower_lstrip (s : string) : lower (lstrip s) = lstrip (lower s).
Proof.
  unfold lower. induction s as [|c s IH]; simpl; [reflexivity|].
  rewrite is_space_lower_char. destruct (is_space c); [exact IH | reflexivity].
Qed.

Lemma lower_rev_string (s acc : string) :
  lower (rev_string acc s) = rev_string (lower acc) (lower s).
Proof.
  revert acc. unfold lower. induction s as [|c s IH]; intros acc; simpl; [reflexivity|].
  rewrite IH. reflexivity.
Qed.

Lemma lower_strip (s : string) : lower (strip s) = strip (lower s).
Proof.
  unfold strip, rstrip.
  rewrite lower_rev_string, lower_lstrip, lower_rev_string, lower_lstrip. reflexivity.
Qed.

(** X24: what [clean_email] lets through is normalised: the value it
    returns is in lower case, it is empty when no e-mail was given, and when
    it is not empty no account of the table has that e-mail, in any mix of
    upper and lower case. *)
Theorem clean_email_returns_a_normal_form
  (accounts : list User.t) (email e : string) :
  clean_email accounts email = inr e ->
  lower e = e
  /\ (truthy email = false -> e = "")
  /\ (truthy e = true -> forall u, In u accounts -> lower (User.email u) <> e).
Proof.
  unfold clean_email. destruct (truthy email) eqn:Ht; simpl.
  - destruct (existsb _ accounts) eqn:Hex; [discriminate|].
    intros H. injection H as <-.
    assert (Hlow : lower (strip (lower email)) = strip (lower email))
      by (rewrite lower_strip, lower_idempotent; reflexivity).
    split; [exact Hlow|]. split; [discriminate|].
    intros _ u Hu E.
    pose proof (existsb_false_all _ _ u Hex Hu) as Hf. unfold iexact in Hf.
    rewrite Hlow, E, String.eqb_refl in Hf. discriminate.
  - intros H. injection H as <-. split; [reflexivity|]. split; [reflexivity | discriminate].
Qed.

Lemma clean_email_returns_a_normal_form_witness :
  lower "chitra@example.org" = "chitra@example.org".
Proof.
  exact (proj1 (clean_email_returns_a_normal_form (users scenario) " Chitra@Example.ORG "
                  "chitra@example.org" eq_refl)).
Defined.



